(** * RAN-Copilot: normalisation and multi-signal fusion pipeline

    A shallow embedding of the analysers under [engine/] and of the fusion
    engine [engine/rca_engine.py], with the properties of the written
    specification stated and settled against it.

    Modelling conventions.
    - A Python [str] is a [string]: a sequence of code points below 256.
      Case mapping and white space follow Python's tables on that range.
    - A Python [float] is a rational of [Q]: the arithmetic of the analysers
      (means, fractions, weighted sums, threshold products) is read exactly,
      and NaN and the infinities are not represented.
    - A Python [dict] is an association list in insertion order with unique
      keys, since the analysers depend on the iteration order.
    - A call that can raise [ValueError] under a [try] is a function into
      [option]; the [except] branch is the [None] case. *)

From Stdlib Require Import Bool Arith ZArith QArith Qminmax List Lia.
From Stdlib Require Import Ascii String.
From Stdlib Require Import Sorting.Sorted OrdersEx.
From Stdlib Require Import DecimalString.
Import ListNotations.

Close Scope Q_scope.
Local Open Scope string_scope.
Local Open Scope list_scope.
Local Open Scope nat_scope.

(** ** Python built-ins on strings and dictionaries *)

Module PyStr.

(** [needle in hay] *)
Fixpoint contains (needle hay : string) : bool :=
  if String.prefix needle hay then true
  else match hay with
       | EmptyString => false
       | String _ rest => contains needle rest
       end.

(** [any(x in text for x in keywords)] *)
Definition any_in (keywords : list string) (text : string) : bool :=
  existsb (fun x => contains x text) keywords.

(** [str.isspace] on one code point below 256. *)
Definition is_space (c : ascii) : bool :=
  let n := nat_of_ascii c in
  ((9 <=? n) && (n <=? 13)) || ((28 <=? n) && (n <=? 32))
  || (n =? 133) || (n =? 160).

(** [str.lower] on one code point below 256: the ASCII capitals and the
    Latin-1 capitals other than the multiplication sign. *)
Definition lower_char (c : ascii) : ascii :=
  let n := nat_of_ascii c in
  if ((65 <=? n) && (n <=? 90))
     || ((192 <=? n) && (n <=? 222) && negb (n =? 215))
  then ascii_of_nat (n + 32) else c.

Fixpoint lower (s : string) : string :=
  match s with
  | EmptyString => EmptyString
  | String c rest => String (lower_char c) (lower rest)
  end.

Fixpoint lstrip (s : string) : string :=
  match s with
  | EmptyString => EmptyString
  | String c rest => if is_space c then lstrip rest else s
  end.

Fixpoint rstrip (s : string) : string :=
  match s with
  | EmptyString => EmptyString
  | String c rest =>
      match rstrip rest with
      | EmptyString => if is_space c then EmptyString else String c EmptyString
      | r => String c r
      end
  end.

(** [str.strip()] *)
Definition strip (s : string) : string := rstrip (lstrip s).

(** Empty or white space only. *)
Fixpoint blank (s : string) : bool :=
  match s with
  | EmptyString => true
  | String c rest => is_space c && blank rest
  end.

(** [s[-1]], a blank for the empty string. *)
Fixpoint last_char (s : string) : ascii :=
  match s with
  | EmptyString => " "%char
  | String c EmptyString => c
  | String _ rest => last_char rest
  end.

(** Truth value of a string: [bool(s)]. *)
Definition truthy (s : string) : bool :=
  match s with EmptyString => false | _ => true end.

(** [a or b] on strings. *)
Definition or_else (a b : string) : string := if truthy a then a else b.

Definition is_digit (c : ascii) : bool :=
  let n := nat_of_ascii c in (48 <=? n) && (n <=? 57).

Definition digit_val (c : ascii) : N := (N_of_ascii c - 48)%N.

Definition digit_char (n : N) : ascii := ascii_of_N (48 + n).

(** [str.upper] on one code point below 256: the ASCII small letters and
    the Latin-1 small letters other than the division sign move down by
    32, the sharp s becomes "SS"; the capitals of the micro sign and of the
    y with diaeresis lie above 255, outside these strings: [None]. *)
Definition upper_char (c : ascii) : option string :=
  let n := nat_of_ascii c in
  if (n =? 181) || (n =? 255) then None
  else if n =? 223 then Some "SS"
  else if ((97 <=? n) && (n <=? 122))
          || ((224 <=? n) && (n <=? 254) && negb (n =? 247))
  then Some (String (ascii_of_nat (n - 32)) "")
  else Some (String c "").

Fixpoint upper (s : string) : option string :=
  match s with
  | EmptyString => Some EmptyString
  | String c rest =>
      match upper_char c, upper rest with
      | Some u, Some r => Some (u ++ r)%string
      | _, _ => None
      end
  end.

End PyStr.

Module PyDict.

Section Dict.
Context {V : Type}.

(** [d.get(k)] *)
Fixpoint lookup (d : list (string * V)) (k : string) : option V :=
  match d with
  | [] => None
  | (k', v) :: rest => if String.eqb k' k then Some v else lookup rest k
  end.

(** [d.get(k, default)] *)
Definition get (d : list (string * V)) (k : string) (default : V) : V :=
  match lookup d k with Some v => v | None => default end.

(** [d[k] = v]: an existing key keeps its position, a new one goes last. *)
Fixpoint set (d : list (string * V)) (k : string) (v : V)
  : list (string * V) :=
  match d with
  | [] => [(k, v)]
  | (k', v') :: rest =>
      if String.eqb k' k then (k', v) :: rest else (k', v') :: set rest k v
  end.

Definition keys (d : list (string * V)) : list string := map fst d.
End Dict.

End PyDict.

(** Comparison of floats, read on rationals. *)
Definition Qltb (x y : Q) : bool := negb (Qle_bool y x).
Definition Qgtb (x y : Q) : bool := Qltb y x.


(** ** The parts of Python's [datetime] that [_parse_timestamp] uses *)

Module PyDatetime.

Local Open Scope N_scope.

Record datetime := mkDatetime {
  year : N;
  month : N;
  day : N;
  hour : N;
  minute : N;
  second : N;
  microsecond : N
}.

Definition is_leap (y : N) : bool :=
  (y mod 4 =? 0) && (negb (y mod 100 =? 0) || (y mod 400 =? 0)).

Definition days_in_month (y m : N) : N :=
  if m =? 2 then (if is_leap y then 29 else 28)
  else if (m =? 4) || (m =? 6) || (m =? 9) || (m =? 11) then 30
  else 31.

(** The range checks of the [datetime] constructor. *)
Definition valid (d : datetime) : bool :=
  (1 <=? year d) && (year d <=? 9999)
  && (1 <=? month d) && (month d <=? 12)
  && (1 <=? day d) && (day d <=? days_in_month (year d) (month d))
  && (hour d <=? 23) && (minute d <=? 59) && (second d <=? 59)
  && (microsecond d <=? 999999).

(** [datetime(...)], with [None] for [ValueError]. *)
Definition make (d : datetime) : option datetime :=
  if valid d then Some d else None.

(** [%0wd]: the last [w] decimal digits of [n]. *)
Fixpoint zpad (w : nat) (n : N) : string :=
  match w with
  | O => EmptyString
  | S w' => zpad w' (n / 10) ++ String (PyStr.digit_char (n mod 10)) EmptyString
  end.

(** [datetime.isoformat()] *)
Definition isoformat (d : datetime) : string :=
  zpad 4 (year d) ++ "-" ++ zpad 2 (month d) ++ "-" ++ zpad 2 (day d)
  ++ "T" ++ zpad 2 (hour d) ++ ":" ++ zpad 2 (minute d) ++ ":"
  ++ zpad 2 (second d)
  ++ (if microsecond d =? 0 then "" else "." ++ zpad 6 (microsecond d)).

(** *** [datetime.strptime]

    [_strptime] turns the format into a regular expression, compiled with
    [re.IGNORECASE]: a directive becomes a group of ordered alternatives,
    white space becomes [\s+], any other character stands for itself. The
    match is anchored at the start, and input left over is a
    [ValueError]. *)

Inductive directive := dY | dm | dd | dH | dM | dS | df.

Inductive item :=
| Directive (d : directive)
| Literal (c : ascii)
| Whitespace.

Definition directive_of (c : ascii) : option directive :=
  if Ascii.eqb c "Y" then Some dY
  else if Ascii.eqb c "m" then Some dm
  else if Ascii.eqb c "d" then Some dd
  else if Ascii.eqb c "H" then Some dH
  else if Ascii.eqb c "M" then Some dM
  else if Ascii.eqb c "S" then Some dS
  else if Ascii.eqb c "f" then Some df
  else None.

(** The items of a format; [None] is the [ValueError] of a bad directive.
    Each blank of the format is one [\s+]; the formats at hand have no two
    blanks in a row. *)
Fixpoint compile (fmt : string) : option (list item) :=
  match fmt with
  | EmptyString => Some []
  | String c rest =>
      if Ascii.eqb c "%" then
        match rest with
        | String d rest' =>
            match directive_of d, compile rest' with
            | Some dir, Some items => Some (Directive dir :: items)
            | _, _ => None
            end
        | EmptyString => None
        end
      else
        match compile rest with
        | Some items =>
            Some ((if PyStr.is_space c then Whitespace else Literal c) :: items)
        | None => None
        end
  end.

(** A matcher consumes a prefix of the input and yields a number. *)
Definition matcher : Type := string -> option (N * string).

(** Ordered choice [p|q]. *)
Definition alt (p q : matcher) : matcher :=
  fun s => match p s with Some r => Some r | None => q s end.

(** The character class [[lo-hi]] of digits. *)
Definition between (lo hi : N) (c : ascii) : bool :=
  PyStr.is_digit c && (lo <=? PyStr.digit_val c) && (PyStr.digit_val c <=? hi).

Definition one (p : ascii -> bool) : matcher :=
  fun s => match s with
           | String a rest => if p a then Some (PyStr.digit_val a, rest) else None
           | EmptyString => None
           end.

Definition two (p q : ascii -> bool) : matcher :=
  fun s => match s with
           | String a (String b rest) =>
               if p a && q b
               then Some (10 * PyStr.digit_val a + PyStr.digit_val b, rest)
               else None
           | _ => None
           end.

(** The alternative [ [1-9]] of [%d]: a blank, then a digit. *)
Definition blank_then (p : ascii -> bool) : matcher :=
  fun s => match s with
           | String a (String b rest) =>
               if Ascii.eqb a " " && p b then Some (PyStr.digit_val b, rest)
               else None
           | _ => None
           end.

(** [\d\d\d\d] *)
Definition four_digits : matcher :=
  fun s => match s with
           | String a (String b (String c (String d rest))) =>
               if PyStr.is_digit a && PyStr.is_digit b && PyStr.is_digit c
                  && PyStr.is_digit d
               then Some (1000 * PyStr.digit_val a + 100 * PyStr.digit_val b
                          + 10 * PyStr.digit_val c + PyStr.digit_val d, rest)
               else None
           | _ => None
           end.

(** [[0-9]{1,6}], greedy; the digits read are padded on the right to six
    places: [s += "0" * (6 - len(s)); int(s)]. *)
Fixpoint fraction_digits (k : nat) (acc : N) (s : string) : N * string :=
  match k with
  | O => (acc, s)
  | S k' =>
      match s with
      | String a rest =>
          if PyStr.is_digit a
          then fraction_digits k' (acc + PyStr.digit_val a * 10 ^ N.of_nat k') rest
          else (acc, s)
      | EmptyString => (acc, s)
      end
  end.

Definition fraction : matcher :=
  fun s => match s with
           | String a _ =>
               if PyStr.is_digit a then Some (fraction_digits 6 0 s) else None
           | EmptyString => None
           end.

Definition match_directive (d : directive) : matcher :=
  match d with
  | dY => four_digits
  | dm => alt (two (between 1 1) (between 0 2))
            (alt (two (between 0 0) (between 1 9)) (one (between 1 9)))
  | dd => alt (two (between 3 3) (between 0 1))
            (alt (two (between 1 2) PyStr.is_digit)
               (alt (two (between 0 0) (between 1 9))
                  (alt (one (between 1 9)) (blank_then (between 1 9)))))
  | dH => alt (two (between 2 2) (between 0 3))
            (alt (two (between 0 1) PyStr.is_digit) (one PyStr.is_digit))
  | dM => alt (two (between 0 5) PyStr.is_digit) (one PyStr.is_digit)
  | dS => alt (two (between 6 6) (between 0 1))
            (alt (two (between 0 5) PyStr.is_digit) (one PyStr.is_digit))
  | df => fraction
  end.

(** The values found so far, with the defaults of [_strptime]. *)
Definition found0 : datetime := mkDatetime 1900 1 1 0 0 0 0.

Definition store (d : directive) (n : N) (f : datetime) : datetime :=
  match d with
  | dY => mkDatetime n (month f) (day f) (hour f) (minute f) (second f) (microsecond f)
  | dm => mkDatetime (year f) n (day f) (hour f) (minute f) (second f) (microsecond f)
  | dd => mkDatetime (year f) (month f) n (hour f) (minute f) (second f) (microsecond f)
  | dH => mkDatetime (year f) (month f) (day f) n (minute f) (second f) (microsecond f)
  | dM => mkDatetime (year f) (month f) (day f) (hour f) n (second f) (microsecond f)
  | dS => mkDatetime (year f) (month f) (day f) (hour f) (minute f) n (microsecond f)
  | df => mkDatetime (year f) (month f) (day f) (hour f) (minute f) (second f) n
  end.

(** [\s+] *)
Definition skip_spaces (s : string) : option string :=
  match s with
  | String a rest => if PyStr.is_space a then Some (PyStr.lstrip rest) else None
  | EmptyString => None
  end.

Fixpoint run (fmt : list item) (s : string) (f : datetime)
  : option (datetime * string) :=
  match fmt with
  | [] => Some (f, s)
  | Directive d :: fmt' =>
      match match_directive d s with
      | Some (n, rest) => run fmt' rest (store d n f)
      | None => None
      end
  | Literal c :: fmt' =>
      match s with
      | String a rest =>
          if Ascii.eqb (PyStr.lower_char a) (PyStr.lower_char c)
          then run fmt' rest f else None
      | EmptyString => None
      end
  | Whitespace :: fmt' =>
      match skip_spaces s with
      | Some rest => run fmt' rest f
      | None => None
      end
  end.

(** [datetime.strptime(value, fmt)], with [None] for [ValueError]. *)
Definition strptime (value fmt : string) : option datetime :=
  match compile fmt with
  | Some items =>
      match run items value found0 with
      | Some (f, EmptyString) => make f
      | _ => None
      end
  | None => None
  end.

End PyDatetime.

(** ** engine/alarm_analyzer.py: records and summary *)

Module AlarmAnalyzer.

Definition SEVERITY_ORDER : list string :=
  ["CRITICAL"; "MAJOR"; "MINOR"; "WARNING"; "INDETERMINATE"; "CLEARED";
   "INFO"].

Record AlarmRecord := mkAlarmRecord {
  timestamp : string;
  severity : string;
  alarm_type : string;
  mo : string;
  alarm_id : string;
  additional_text : string
}.

(** The dictionary returned by [summarize_alarms]. The key ["sample"] is
    absent from the summary of an empty batch. *)
Record AlarmSummary := mkAlarmSummary {
  total_count : nat;
  by_severity : list (string * nat);
  by_mo : list (string * nat);
  timeline : list (string * nat);
  sample : option (list AlarmRecord)
}.

(** [value[:-1]] when [value.endswith("Z")] *)
Fixpoint strip_trailing_Z (value : string) : string :=
  match value with
  | EmptyString => EmptyString
  | String c EmptyString =>
      if Ascii.eqb c "Z" then EmptyString else value
  | String c rest => String c (strip_trailing_Z rest)
  end.

Definition TIMESTAMP_FORMATS : list string :=
  ["%Y-%m-%dT%H:%M:%S";
   "%Y-%m-%dT%H:%M:%S.%f";
   "%Y-%m-%d %H:%M:%S";
   "%Y/%m/%d %H:%M:%S"].

(** The loop over [formats]: the first format that parses wins. *)
Fixpoint first_parse (value : string) (formats : list string)
  : option PyDatetime.datetime :=
  match formats with
  | [] => None
  | fmt :: rest =>
      match PyDatetime.strptime value fmt with
      | Some dt => Some dt
      | None => first_parse value rest
      end
  end.

Section Clock.
(** The reading of [datetime.utcnow()] at the call. *)
Variable utcnow : PyDatetime.datetime.

Definition _parse_timestamp (value : string) : string :=
  if negb (PyStr.truthy value) then PyDatetime.isoformat utcnow
  else
    let value := strip_trailing_Z (PyStr.strip value) in
    match first_parse value TIMESTAMP_FORMATS with
    | Some dt => PyDatetime.isoformat dt
    | None => PyDatetime.isoformat utcnow
    end.
End Clock.

(** *** The literal layouts of the four formats

    A timestamp written in a layout is the rendering of a calendar instant
    with every field at its full width. *)
Inductive layout :=
| IsoSeconds       (* 2025-01-01T12:00:00 *)
| IsoFraction      (* 2025-01-01T12:00:00.250000 *)
| SpaceSeparated   (* 2025-01-01 12:00:00 *)
| SlashSeparated.  (* 2025/01/01 12:00:00 *)

Definition render_date (sep : string) (d : PyDatetime.datetime) : string :=
  PyDatetime.zpad 4 (PyDatetime.year d) ++ sep
  ++ PyDatetime.zpad 2 (PyDatetime.month d) ++ sep
  ++ PyDatetime.zpad 2 (PyDatetime.day d).

Definition render_time (d : PyDatetime.datetime) : string :=
  PyDatetime.zpad 2 (PyDatetime.hour d) ++ ":"
  ++ PyDatetime.zpad 2 (PyDatetime.minute d) ++ ":"
  ++ PyDatetime.zpad 2 (PyDatetime.second d).

Definition render (l : layout) (d : PyDatetime.datetime) : string :=
  match l with
  | IsoSeconds => render_date "-" d ++ "T" ++ render_time d
  | IsoFraction =>
      render_date "-" d ++ "T" ++ render_time d ++ "."
      ++ PyDatetime.zpad 6 (PyDatetime.microsecond d)
  | SpaceSeparated => render_date "-" d ++ " " ++ render_time d
  | SlashSeparated => render_date "/" d ++ " " ++ render_time d
  end.

(** The instant a literal of the layout can carry: only [IsoFraction] has
    a place for the microseconds. *)
Definition carried (l : layout) (d : PyDatetime.datetime) : PyDatetime.datetime :=
  match l with
  | IsoFraction => d
  | _ => PyDatetime.mkDatetime (PyDatetime.year d) (PyDatetime.month d)
           (PyDatetime.day d) (PyDatetime.hour d) (PyDatetime.minute d)
           (PyDatetime.second d) 0
  end.

(** [d[k] = d.get(k, 0) + 1] *)
Definition bump (d : list (string * nat)) (k : string) : list (string * nat) :=
  PyDict.set d k (PyDict.get d k 0 + 1).

(** [sorted(timeline.items(), key=lambda x: x[0])] *)
Fixpoint insert_item (x : string * nat) (l : list (string * nat))
  : list (string * nat) :=
  match l with
  | [] => [x]
  | y :: rest =>
      if String.leb (fst x) (fst y) then x :: l else y :: insert_item x rest
  end.

Definition sorted_items (l : list (string * nat)) : list (string * nat) :=
  fold_right insert_item [] l.

(** [{k: d[k] for k in keys if k in d}] *)
Definition picked (keys : list string) (d : list (string * nat))
  : list (string * nat) :=
  flat_map (fun sev => match PyDict.lookup d sev with
                       | Some c => [(sev, c)]
                       | None => []
                       end) keys.

(** The three running dictionaries of the loop of [summarize_alarms]. *)
Record Tally := mkTally {
  t_by_severity : list (string * nat);
  t_by_mo : list (string * nat);
  t_timeline : list (string * nat)
}.

Section Summary.

(** The expression
    [datetime.fromisoformat(ts).replace(minute=0, second=0,
    microsecond=0).isoformat()], with [ts] itself when it raises: the
    accepted literals depend on the interpreter's [datetime] version. *)
Variable hour_bucket : string -> string.

(** One iteration of the loop over [records]. *)
Definition tally_record (t : Tally) (rec : AlarmRecord) : Tally :=
  let sev := PyStr.or_else (severity rec) "INDETERMINATE" in
  let mo_ := PyStr.or_else (mo rec) "UNKNOWN" in
  let bucket := hour_bucket (timestamp rec) in
  {| t_by_severity := bump (t_by_severity t) sev;
     t_by_mo := bump (t_by_mo t) mo_;
     t_timeline := bump (t_timeline t) bucket |}.

(** [{sev: by_severity[sev] for sev in SEVERITY_ORDER if sev in by_severity}] *)
Definition ordered_severity (by_sev : list (string * nat))
  : list (string * nat) := picked SEVERITY_ORDER by_sev.

Definition summarize_alarms (records : list AlarmRecord) : AlarmSummary :=
  match records with
  | [] => {| total_count := 0; by_severity := []; by_mo := [];
             timeline := []; sample := None |}
  | _ =>
      let t := fold_left tally_record records (mkTally [] [] []) in
      {| total_count := List.length records;
         by_severity := ordered_severity (t_by_severity t);
         by_mo := t_by_mo t;
         timeline := sorted_items (t_timeline t);
         sample := Some (firstn 200 records) |}
  end.

End Summary.

(** *** The keys under which a record is counted *)

(** The local [mapping] of [_normalise_severity]. *)
Definition severity_mapping : list (string * string) :=
  [("CRIT", "CRITICAL");
   ("MAJ", "MAJOR");
   ("MIN", "MINOR");
   ("WARN", "WARNING");
   ("INDET", "INDETERMINATE");
   ("CLEARED", "CLEARED");
   ("CLEAR", "CLEARED");
   ("INFO", "INFO")].

(** [None] when the upper-cased text is outside these strings. *)
Definition _normalise_severity (value : string) : option string :=
  if negb (PyStr.truthy value) then Some "INDETERMINATE"
  else match PyStr.upper (PyStr.strip value) with
       | Some v => Some (PyDict.get severity_mapping v v)
       | None => None
       end.

(** [rec.severity or "INDETERMINATE"] *)
Definition severity_key (rec : AlarmRecord) : string :=
  PyStr.or_else (severity rec) "INDETERMINATE".

(** [rec.mo or "UNKNOWN"] *)
Definition mo_key (rec : AlarmRecord) : string :=
  PyStr.or_else (mo rec) "UNKNOWN".

(** Every counter of a dictionary is at least one. *)
Definition positive (d : list (string * nat)) : Prop :=
  Forall (fun kv => 0 < snd kv) d.

(** The hour under which a record is counted. *)
Definition bucket_key (hour_bucket : string -> string) (rec : AlarmRecord)
  : string := hour_bucket (timestamp rec).

(** [key(a) <= key(b)], the order of the sorted timeline. *)
Definition key_le (a b : string * nat) : Prop :=
  String.leb (fst a) (fst b) = true.

(** The number of occurrences of a key in a list of keys. *)
Definition occurrences (k : string) (keys : list string) : nat :=
  count_occ string_dec keys k.

End AlarmAnalyzer.

(** ** engine/backhaul_analyzer.py *)

Module BackhaulAnalyzer.

Record BackhaulSample := mkBackhaulSample {
  timestamp : string;
  modulation : Q;
  rssi : Q;
  latency_ms : Q;
  jitter_ms : Q;
  tx_errors : Q;
  rx_errors : Q
}.

Record BackhaulSummary := mkBackhaulSummary {
  total_samples : nat;
  impairment_score : Q;
  modulation_trend : list (string * Q);
  rssi_trend : list (string * Q);
  latency_jitter_trend : list (string * Q * Q);
  error_summary : Q * Q
}.

(** The local variables the loop of [summarize_backhaul] updates. *)
Record Acc := mkAcc {
  a_modulation_trend : list (string * Q);
  a_rssi_trend : list (string * Q);
  a_latency_jitter_trend : list (string * Q * Q);
  total_tx_err : Q;
  total_rx_err : Q;
  low_mod_count : nat;
  high_latency_count : nat;
  high_jitter_count : nat
}.

Definition acc0 : Acc := mkAcc [] [] [] 0%Q 0%Q 0 0 0.

Definition step (a : Acc) (s : BackhaulSample) : Acc :=
  {| a_modulation_trend := a_modulation_trend a ++ [(timestamp s, modulation s)];
     a_rssi_trend := a_rssi_trend a ++ [(timestamp s, rssi s)];
     a_latency_jitter_trend :=
       a_latency_jitter_trend a ++ [(timestamp s, latency_ms s, jitter_ms s)];
     total_tx_err := (total_tx_err a + tx_errors s)%Q;
     total_rx_err := (total_rx_err a + rx_errors s)%Q;
     low_mod_count :=
       if Qltb (modulation s) 4%Q then low_mod_count a + 1 else low_mod_count a;
     high_latency_count :=
       if Qgtb (latency_ms s) 50%Q then high_latency_count a + 1
       else high_latency_count a;
     high_jitter_count :=
       if Qgtb (jitter_ms s) 20%Q then high_jitter_count a + 1
       else high_jitter_count a |}.

Definition Qnat (n : nat) : Q := inject_Z (Z.of_nat n).

(** The weighted sum before and after [min(1.0, ...)]. *)
Definition weighted (low hl hj : nat) (n : Q) : Q :=
  ((Qnat low / n) * (4 # 10) + (Qnat hl / n) * (3 # 10)
   + (Qnat hj / n) * (3 # 10))%Q.

Definition summarize_backhaul (samples : list BackhaulSample)
  : BackhaulSummary :=
  match samples with
  | [] => {| total_samples := 0; impairment_score := 0%Q;
             modulation_trend := []; rssi_trend := [];
             latency_jitter_trend := []; error_summary := (0%Q, 0%Q) |}
  | _ =>
      let a := fold_left step samples acc0 in
      let n := Qnat (List.length samples) in
      {| total_samples := List.length samples;
         impairment_score :=
           Qmin 1%Q (weighted (low_mod_count a) (high_latency_count a)
                              (high_jitter_count a) n);
         modulation_trend := a_modulation_trend a;
         rssi_trend := a_rssi_trend a;
         latency_jitter_trend := a_latency_jitter_trend a;
         error_summary := (total_tx_err a, total_rx_err a) |}
  end.

(** *** The three flags of a sample and their fractions in a batch *)

Definition low_modulation (s : BackhaulSample) : bool := Qltb (modulation s) 4%Q.
Definition high_latency (s : BackhaulSample) : bool := Qgtb (latency_ms s) 50%Q.
Definition high_jitter (s : BackhaulSample) : bool := Qgtb (jitter_ms s) 20%Q.

(** [modulation < 4 or latency > 50 or jitter > 20] *)
Definition impaired (s : BackhaulSample) : bool :=
  low_modulation s || high_latency s || high_jitter s.

Definition count (p : BackhaulSample -> bool) (samples : list BackhaulSample)
  : nat := List.length (filter p samples).

Definition fraction (p : BackhaulSample -> bool)
  (samples : list BackhaulSample) : Q :=
  (Qnat (count p samples) / Qnat (List.length samples))%Q.

Definition clean_sample : BackhaulSample :=
  mkBackhaulSample "2025-01-01T12:00:00" 6%Q (-60)%Q 10%Q 5%Q 0%Q 0%Q.

(** Low modulation, high latency and high jitter at once. *)
Definition degraded_sample : BackhaulSample :=
  mkBackhaulSample "2025-01-01T12:00:00" 2%Q (-80)%Q 80%Q 30%Q 4%Q 7%Q.

(** High jitter only. *)
Definition jittery_sample : BackhaulSample :=
  mkBackhaulSample "2025-01-01T12:00:00" 6%Q (-60)%Q 10%Q 30%Q 0%Q 0%Q.

(** QPSK at 10 ms latency and 5 ms jitter. *)
Definition qpsk_sample : BackhaulSample :=
  mkBackhaulSample "2025-01-01T12:00:00" 2%Q (-60)%Q 10%Q 5%Q 0%Q 0%Q.

End BackhaulAnalyzer.

(** ** engine/attach_analyzer.py *)

Module AttachAnalyzer.

Record AttachRecord := mkAttachRecord {
  imsi : string;
  apn : string;
  tac : string;
  attach_reject_cause : string;
  erab_setup_cause : string;
  failure_category : string
}.

(** The six values the comment on [failure_category] lists. *)
Definition CATEGORIES : list string :=
  ["APN_QCI"; "TAC"; "RF"; "Congestion"; "Other"; "SUCCESS"].

Definition APN_QCI_KEYWORDS : list string :=
  ["apn"; "qci"; "pdn"; "service not subscribed"].
Definition TAC_KEYWORDS : list string :=
  ["tac"; "tracking area"; "roaming not allowed"].
Definition RF_KEYWORDS : list string :=
  ["radio"; "rf"; "coverage"; "signal"; "sinr"].
Definition CONGESTION_KEYWORDS : list string :=
  ["congestion"; "resource unavailable"; "no resource"].

(** [f"{attach_cause} {erab_cause}".lower()] *)
Definition cause_text (attach_cause erab_cause : string) : string :=
  PyStr.lower (attach_cause ++ " " ++ erab_cause).

Definition classify_failure (attach_cause erab_cause : string) : string :=
  let text := cause_text attach_cause erab_cause in
  if negb (PyStr.truthy (PyStr.strip text)) then "SUCCESS"
  else if PyStr.any_in APN_QCI_KEYWORDS text then "APN_QCI"
  else if PyStr.any_in TAC_KEYWORDS text then "TAC"
  else if PyStr.any_in RF_KEYWORDS text then "RF"
  else if PyStr.any_in CONGESTION_KEYWORDS text then "Congestion"
  else "Other".

(** [s.replace(c, "")] for a one-character [c]. *)
Fixpoint remove_char (c : ascii) (s : string) : string :=
  match s with
  | EmptyString => EmptyString
  | String d rest =>
      if Ascii.eqb d c then remove_char c rest
      else String d (remove_char c rest)
  end.

(** [s.strip().lower().replace(" ", "").replace("_", "")] *)
Definition norm (s : string) : string :=
  remove_char "_"%char (remove_char " "%char (PyStr.lower (PyStr.strip s))).

(** One row of [csv.DictReader]: header name and cell, in header order.
    Rows shorter or longer than the header (a [None] cell or key) are not
    represented. *)
Definition Row : Type := list (string * string).

(** [{norm(k): v for k, v in row.items()}] *)
Definition cols_of (row : Row) : list (string * string) :=
  fold_left (fun d kv => PyDict.set d (norm (fst kv)) (snd kv)) row [].

(** The body of the loop of [parse_attach_csv]; [None] is [continue]. *)
Definition parse_row (row : Row) : option AttachRecord :=
  match row with
  | [] => None
  | _ =>
      let cols := cols_of row in
      let imsi_ := PyStr.strip (PyDict.get cols "imsi" "") in
      let apn_ := PyStr.strip (PyDict.get cols "apn" "") in
      let tac_ := PyStr.strip (PyDict.get cols "tac" "") in
      let attach_cause :=
        PyStr.strip (PyDict.get cols "attachrejectcause"
                       (PyDict.get cols "attach_cause" "")) in
      let erab_cause :=
        PyStr.strip (PyDict.get cols "erabsetupcause"
                       (PyDict.get cols "erab_cause" "")) in
      let failure_cat := PyStr.strip (PyDict.get cols "failurecategory" "") in
      let failure_cat :=
        if negb (PyStr.truthy failure_cat)
        then classify_failure attach_cause erab_cause
        else failure_cat in
      Some {| imsi := PyStr.or_else imsi_ "UNKNOWN";
              apn := PyStr.or_else apn_ "UNKNOWN";
              tac := PyStr.or_else tac_ "UNKNOWN";
              attach_reject_cause := attach_cause;
              erab_setup_cause := erab_cause;
              failure_category := failure_cat |}
  end.

(** The cell of the failure-category column of a row, stripped. *)
Definition explicit_category (row : Row) : string :=
  PyStr.strip (PyDict.get (cols_of row) "failurecategory" "").

Fixpoint parse_rows (rows : list Row) : list AttachRecord :=
  match rows with
  | [] => []
  | row :: rest =>
      match parse_row row with
      | Some r => r :: parse_rows rest
      | None => parse_rows rest
      end
  end.

Section Parse.
(** [csv.DictReader(io.StringIO(content.decode(errors="ignore")))]: the
    standard library's CSV reader, as the list of its rows. *)
Variable DictReader : string -> list Row.

Definition parse_attach_csv (content : string) : list AttachRecord :=
  parse_rows (DictReader content).
End Parse.

(** The keys of the dictionary of [summarize_attach] the fusion reads. *)
Record AttachSummary := mkAttachSummary {
  overall_attach_success_rate : option Q;
  failure_categories : list (string * nat);
  dominant_failure_category : option string
}.

(** *** [summarize_attach] *)

(** [{"success": s, "fail": f}] *)
Record Counter := mkCounter {
  success : nat;
  fail : nat
}.

(** [{"success": s, "fail": f, "success_rate": rate}] *)
Record RateEntry := mkRateEntry {
  rate_success : nat;
  rate_fail : nat;
  success_rate : option Q
}.

(** The keys [per_imsi], [per_apn] and [per_tac] of the dictionary of
    [summarize_attach]; the other keys are those of [AttachSummary]. *)
Record AttachBreakdown := mkAttachBreakdown {
  per_imsi : list (string * RateEntry);
  per_apn : list (string * RateEntry);
  per_tac : list (string * RateEntry)
}.

(** [rec.failure_category == "SUCCESS"] *)
Definition is_success (rec : AttachRecord) : bool :=
  String.eqb (failure_category rec) "SUCCESS".

(** [counter[k][key] += 1] on a [defaultdict] of zeroed counters. *)
Definition count_outcome (d : list (string * Counter)) (k : string)
  (ok : bool) : list (string * Counter) :=
  let c := PyDict.get d k (mkCounter 0 0) in
  PyDict.set d k (if ok then mkCounter (success c + 1) (fail c)
                  else mkCounter (success c) (fail c + 1)).

(** [(s / n) * 100.0] *)
Definition percentage (s n : nat) : Q :=
  (BackhaulAnalyzer.Qnat s / BackhaulAnalyzer.Qnat n * 100)%Q.

(** The local variables the loop of [summarize_attach] updates. *)
Record AttachAcc := mkAttachAcc {
  total : nat;
  n_success : nat;
  per_imsi_counts : list (string * Counter);
  per_apn_counts : list (string * Counter);
  per_tac_counts : list (string * Counter);
  failure_cats : list (string * nat)
}.

Definition attach_step (a : AttachAcc) (rec : AttachRecord) : AttachAcc :=
  let ok := is_success rec in
  {| total := total a + 1;
     n_success := if ok then n_success a + 1 else n_success a;
     per_imsi_counts := count_outcome (per_imsi_counts a) (imsi rec) ok;
     per_apn_counts := count_outcome (per_apn_counts a) (apn rec) ok;
     per_tac_counts := count_outcome (per_tac_counts a) (tac rec) ok;
     failure_cats :=
       if ok then failure_cats a
       else AlarmAnalyzer.bump (failure_cats a) (failure_category rec) |}.

(** [to_rate_dict] *)
Definition to_rate_dict (counter : list (string * Counter))
  : list (string * RateEntry) :=
  map (fun kv =>
         let val := snd kv in
         let total_local := success val + fail val in
         (fst kv,
          {| rate_success := success val;
             rate_fail := fail val;
             success_rate :=
               if 0 <? total_local
               then Some (percentage (success val) total_local)
               else None |}))
      counter.

(** [max(items, key=lambda x: x[1])]: the first item of the largest
    count. *)
Fixpoint first_max (best : string * nat) (items : list (string * nat))
  : string * nat :=
  match items with
  | [] => best
  | x :: rest => first_max (if snd best <? snd x then x else best) rest
  end.

Definition summarize_attach (records : list AttachRecord)
  : AttachSummary * AttachBreakdown :=
  match records with
  | [] =>
      ({| overall_attach_success_rate := None;
          failure_categories := [];
          dominant_failure_category := None |},
       {| per_imsi := []; per_apn := []; per_tac := [] |})
  | _ =>
      let a := fold_left attach_step records (mkAttachAcc 0 0 [] [] [] []) in
      let overall_rate :=
        if 0 <? total a then Some (percentage (n_success a) (total a))
        else None in
      let dominant_failure :=
        match failure_cats a with
        | [] => None
        | x :: rest => Some (fst (first_max x rest))
        end in
      ({| overall_attach_success_rate := overall_rate;
          failure_categories := failure_cats a;
          dominant_failure_category := dominant_failure |},
       {| per_imsi := to_rate_dict (per_imsi_counts a);
          per_apn := to_rate_dict (per_apn_counts a);
          per_tac := to_rate_dict (per_tac_counts a) |})
  end.

(** The records that are not successes, and the successes among some. *)
Definition failures (records : list AttachRecord) : list AttachRecord :=
  filter (fun r => negb (is_success r)) records.

Definition successes (records : list AttachRecord) : list AttachRecord :=
  filter is_success records.

(** The records with a given value of an identifier. *)
Definition with_key (key : AttachRecord -> string) (k : string)
  (records : list AttachRecord) : list AttachRecord :=
  filter (fun r => String.eqb (key r) k) records.

(** The entry of a breakdown for the records of one identifier. *)
Definition rate_entry_of (records : list AttachRecord) : RateEntry :=
  let s := List.length (successes records) in
  let f := List.length (failures records) in
  {| rate_success := s; rate_fail := f;
     success_rate := Some (percentage s (s + f)) |}.

(** The loop of [summarize_attach] on the counters of one identifier. *)
Definition count_by (key : AttachRecord -> string)
  (d : list (string * Counter)) (records : list AttachRecord)
  : list (string * Counter) :=
  fold_left (fun d r => count_outcome d (key r) (is_success r)) records d.

End AttachAnalyzer.

(** ** engine/kpi_analyzer.py *)

Module KpiAnalyzer.

Record Threshold := mkThreshold {
  thr_min : option Q;
  thr_max : option Q;
  unit : string
}.

Definition at_least (m : Q) (u : string) : Threshold := mkThreshold (Some m) None u.
Definition at_most (m : Q) (u : string) : Threshold := mkThreshold None (Some m) u.

Definition THRESHOLDS : list (string * Threshold) :=
  [("RRC_Setup_Success_Rate", at_least 95%Q "%");
   ("ERAB_Setup_Success_Rate", at_least 98%Q "%");
   ("PRB_Utilization_Avg", at_most 70%Q "%");
   ("PRB_Utilization_P95", at_most 85%Q "%");
   ("SINR_Avg", at_least 5%Q "dB");
   ("SINR_P10", at_least 0%Q "dB");
   ("BLER_P95", at_most 10%Q "%");
   ("Paging_Success_Rate", at_least 95%Q "%");
   ("S1_Setup_Failure_Rate", at_most 1%Q "%");
   ("Cell_Availability", at_least 99%Q "%")].

(** One sample dictionary: [entry.get("kpi")], [entry.get("site")],
    [entry.get("value")]. *)
Record KpiEntry := mkKpiEntry {
  entry_kpi : option string;
  entry_site : option string;
  entry_value : option Q
}.

Record Stats := mkStats {
  mean : Q;
  min : Q;
  max : Q;
  count : nat;
  median : option Q;
  stdev : option Q
}.

Record Anomaly := mkAnomaly {
  kpi : string;
  type : string;
  value : Q;
  threshold : Q;
  severity : string
}.

(** [d[k].append(v)] on a [defaultdict(list)]. *)
Definition append_to (d : list (string * list Q)) (k : string) (v : Q)
  : list (string * list Q) :=
  PyDict.set d k (PyDict.get d k [] ++ [v]).

(** [d[site][k].append(v)] on a [defaultdict] of [defaultdict(list)]. *)
Definition append_to_site (d : list (string * list (string * list Q)))
  (site k : string) (v : Q) : list (string * list (string * list Q)) :=
  PyDict.set d site (append_to (PyDict.get d site []) k v).

(** The first loop of [summarize_kpis]. *)
Definition group_entry
  (acc : list (string * list Q) * list (string * list (string * list Q)))
  (entry : KpiEntry)
  : list (string * list Q) * list (string * list (string * list Q)) :=
  let site := match entry_site entry with Some s => s | None => "UNKNOWN" end in
  match entry_kpi entry, entry_value entry with
  | Some kpi_name, Some v =>
      (append_to (fst acc) kpi_name v, append_to_site (snd acc) site kpi_name v)
  | _, _ => acc
  end.

Definition Qsum (values : list Q) : Q := fold_left Qplus values 0%Q.

(** [statistics.mean]: the exact quotient. *)
Definition py_mean (values : list Q) : Q :=
  Qred (Qsum values / inject_Z (Z.of_nat (List.length values))).

(** [min(values)] and [max(values)]: the first extremal element. *)
Definition py_min (values : list Q) : Q :=
  match values with
  | [] => 0%Q
  | v :: rest => fold_left (fun m x => if Qltb x m then x else m) rest v
  end.

Definition py_max (values : list Q) : Q :=
  match values with
  | [] => 0%Q
  | v :: rest => fold_left (fun m x => if Qgtb x m then x else m) rest v
  end.

(** The threshold check on one metric's mean. *)
Definition threshold_anomalies (kpi_name : string) (m : Q) : list Anomaly :=
  match PyDict.lookup THRESHOLDS kpi_name with
  | None => []
  | Some thr =>
      (match thr_min thr with
       | Some lo =>
           if Qltb m lo
           then [ {| kpi := kpi_name; type := "below_threshold"; value := m;
                     threshold := lo;
                     severity := if Qltb m (lo * (8 # 10))%Q then "high"
                                 else "medium" |} ]
           else []
       | None => []
       end)
      ++
      (match thr_max thr with
       | Some hi =>
           if Qgtb m hi
           then [ {| kpi := kpi_name; type := "above_threshold"; value := m;
                     threshold := hi;
                     severity := if Qgtb m (hi * (12 # 10))%Q then "high"
                                 else "medium" |} ]
           else []
       | None => []
       end)
  end.

(** The values of the samples of one metric, in the order of the input. *)
Definition values_of (kpi_name : string) (kpi_data : list KpiEntry) : list Q :=
  flat_map (fun entry =>
              match entry_kpi entry, entry_value entry with
              | Some k, Some v => if String.eqb k kpi_name then [v] else []
              | _, _ => []
              end) kpi_data.

(** An entry with a metric name and a value. *)
Definition complete (entry : KpiEntry) : bool :=
  match entry_kpi entry, entry_value entry with
  | Some _, Some _ => true
  | _, _ => false
  end.

(** [entry.get("site", "UNKNOWN")] *)
Definition site_of (entry : KpiEntry) : string :=
  match entry_site entry with Some s => s | None => "UNKNOWN" end.

(** The values of the samples of one metric at one site, in input order. *)
Definition site_values (site kpi_name : string) (kpi_data : list KpiEntry)
  : list Q :=
  flat_map (fun entry =>
              match entry_kpi entry, entry_value entry with
              | Some k, Some v =>
                  if String.eqb (site_of entry) site && String.eqb k kpi_name
                  then [v] else []
              | _, _ => []
              end) kpi_data.

(** [a["kpi"] == name] *)
Definition of_metric (name : string) (a : Anomaly) : bool :=
  String.eqb (kpi a) name.

(** The anomalies a metric with the given values gets in the second loop. *)
Definition metric_anomalies (item : string * list Q) : list Anomaly :=
  match snd item with
  | [] => []
  | _ => threshold_anomalies (fst item) (py_mean (snd item))
  end.

Section Summary.
(** [statistics.median] and [statistics.stdev]; the latter takes a square
    root and has no exact rational reading. *)
Variables py_median py_stdev : list Q -> Q.

Definition stats_of (values : list Q) : Stats :=
  {| mean := py_mean values;
     min := py_min values;
     max := py_max values;
     count := List.length values;
     median := if 1 <? List.length values then Some (py_median values) else None;
     stdev := if 1 <? List.length values then Some (py_stdev values) else None |}.

(** One iteration of the second loop of [summarize_kpis]. *)
Definition analyse_metric
  (acc : list (string * Stats) * list Anomaly)
  (item : string * list Q) : list (string * Stats) * list Anomaly :=
  let '(kpi_name, values) := item in
  match values with
  | [] => acc
  | _ =>
      let stats := stats_of values in
      (PyDict.set (fst acc) kpi_name stats,
       snd acc ++ threshold_anomalies kpi_name (mean stats))
  end.

Definition summarize_kpis (kpi_data : list KpiEntry)
  : list (string * Stats) * list Anomaly
    * list (string * list (string * list Q)) :=
  let '(kpi_by_name, kpi_by_site) := fold_left group_entry kpi_data ([], []) in
  let '(evidence, anomalies) := fold_left analyse_metric kpi_by_name ([], []) in
  (evidence, anomalies, kpi_by_site).
End Summary.

End KpiAnalyzer.

(** ** engine/rca_engine.py *)

Module RcaEngine.

Record RcaResult := mkRcaResult {
  root_cause : string;
  severity : string;
  evidence : list (string * KpiAnalyzer.Stats);
  anomalies : list KpiAnalyzer.Anomaly;
  recommendations : list string
}.

(** [{"low": 1, "medium": 2, "high": 3}.get(base_severity, 1)] *)
Definition severity_score_of (base_severity : string) : nat :=
  PyDict.get [("low", 1); ("medium", 2); ("high", 3)] base_severity 1.

(** The mapping of the numeric score back to its label. *)
Definition severity_label (severity_score : nat) : string :=
  if 3 <=? severity_score then "high"
  else if severity_score =? 2 then "medium"
  else "low".

(** [any(a["kpi"] in ("S1_Setup_Failure_Rate",) for a in anomalies)] *)
Definition has_transport_anomaly (anomalies : list KpiAnalyzer.Anomaly) : bool :=
  existsb (fun a => String.eqb (KpiAnalyzer.kpi a) "S1_Setup_Failure_Rate")
          anomalies.

(** [by_sev.get("CRITICAL", 0) + by_sev.get("MAJOR", 0)] *)
Definition crit_maj (a : AlarmAnalyzer.AlarmSummary) : nat :=
  let by_sev := AlarmAnalyzer.by_severity a in
  PyDict.get by_sev "CRITICAL" 0 + PyDict.get by_sev "MAJOR" 0.

(** The running pair [(root_cause, severity_score)] and the three blocks
    of [_combine_with_additional_signals] that update it in turn.

    A summary argument is [None] when it is not given. A summary that is
    given is the record of its analyser: a key that a dictionary lacks
    reads, through [.get], as the zero or empty value the record then
    holds, and the empty dictionary, false as a truth value, passes none of
    the tests on these values. *)
Definition alarm_escalation (base_root_cause : string)
  (anomalies : list KpiAnalyzer.Anomaly)
  (alarm_summary : option AlarmAnalyzer.AlarmSummary)
  (st : string * nat) : string * nat :=
  let '(root_cause, severity_score) := st in
  match alarm_summary with
  | Some a =>
      if 0 <? AlarmAnalyzer.total_count a then
        if 0 <? crit_maj a then
          if has_transport_anomaly anomalies
          then ("Transport/TIMING Fault (Alarms corroborated)",
                Nat.max severity_score 3)
          else ((if String.eqb base_root_cause "Normal Operation"
                 then "Active Network Alarms"
                 else (base_root_cause ++ " with Active Alarms")%string),
                Nat.max severity_score 2)
        else st
      else st
  | None => st
  end.

Definition backhaul_escalation (base_root_cause : string)
  (backhaul_summary : option BackhaulAnalyzer.BackhaulSummary)
  (st : string * nat) : string * nat :=
  let '(root_cause, severity_score) := st in
  match backhaul_summary with
  | Some b =>
      if Qgtb (BackhaulAnalyzer.impairment_score b) (5 # 10) then
        ((if PyStr.contains "Microwave" base_root_cause
             || PyStr.contains "Transport" base_root_cause
          then "Backhaul Impairment (Microwave/Fiber)"
          else if String.eqb base_root_cause "Normal Operation"
               then "Backhaul Impairment"
               else root_cause),
         Nat.max severity_score 3)
      else st
  | None => st
  end.

(** [attach_summary.get("dominant_failure_category") == c] *)
Definition dominant_is (a : AttachAnalyzer.AttachSummary) (c : string) : bool :=
  match AttachAnalyzer.dominant_failure_category a with
  | Some d => String.eqb d c
  | None => false
  end.

Definition attach_escalation
  (attach_summary : option AttachAnalyzer.AttachSummary)
  (st : string * nat) : string * nat :=
  let '(root_cause, severity_score) := st in
  match attach_summary with
  | Some a =>
      match AttachAnalyzer.overall_attach_success_rate a with
      | Some success =>
          if Qltb success 95 then
            ((if dominant_is a "APN_QCI"
              then "CPE Attach Failures - APN/QCI Configuration"
              else if dominant_is a "TAC"
              then "CPE Attach Failures - TAC / Mobility Configuration"
              else if dominant_is a "RF"
              then "CPE Attach Failures - RF / Coverage"
              else if dominant_is a "Congestion"
              then "CPE Attach Failures - Congestion Driven"
              else root_cause),
             Nat.max severity_score 3)
          else st
      | None => st
      end
  | None => st
  end.

Definition _combine_with_additional_signals
  (base_root_cause base_severity : string)
  (anomalies : list KpiAnalyzer.Anomaly)
  (alarm_summary : option AlarmAnalyzer.AlarmSummary)
  (backhaul_summary : option BackhaulAnalyzer.BackhaulSummary)
  (attach_summary : option AttachAnalyzer.AttachSummary)
  : string * string :=
  let st := (base_root_cause, severity_score_of base_severity) in
  let st := alarm_escalation base_root_cause anomalies alarm_summary st in
  let st := backhaul_escalation base_root_cause backhaul_summary st in
  let st := attach_escalation attach_summary st in
  (fst st, severity_label (snd st)).

(** *** When a later block writes the label

    The backhaul block assigns [root_cause] in two of its three cases, the
    attach block in four of its five. *)
Definition backhaul_overwrites (base_root_cause : string)
  (backhaul_summary : option BackhaulAnalyzer.BackhaulSummary) : bool :=
  match backhaul_summary with
  | Some b =>
      Qgtb (BackhaulAnalyzer.impairment_score b) (5 # 10)
      && (PyStr.contains "Microwave" base_root_cause
          || PyStr.contains "Transport" base_root_cause
          || String.eqb base_root_cause "Normal Operation")
  | None => false
  end.

Definition attach_overwrites
  (attach_summary : option AttachAnalyzer.AttachSummary) : bool :=
  match attach_summary with
  | Some a =>
      match AttachAnalyzer.overall_attach_success_rate a with
      | Some success =>
          Qltb success 95
          && (dominant_is a "APN_QCI" || dominant_is a "TAC"
              || dominant_is a "RF" || dominant_is a "Congestion")
      | None => false
      end
  | None => false
  end.

(** The counts of a summary are those of one batch: the alarms counted by
    severity are among the [total_count] alarms. *)
Definition count_sum (d : list (string * nat)) : nat :=
  fold_right (fun kv acc => snd kv + acc) 0 d.

Definition consistent (a : AlarmAnalyzer.AlarmSummary) : Prop :=
  count_sum (AlarmAnalyzer.by_severity a) <= AlarmAnalyzer.total_count a.

(** Rounding of a rational to the nearest integer, ties to even. *)
Definition round_half_even (q : Q) : Z :=
  let n := Qnum q in
  let d := Z.pos (Qden q) in
  let fl := (n / d)%Z in
  let r2 := (2 * (n mod d))%Z in
  if (r2 <? d)%Z then fl
  else if (d <? r2)%Z then (fl + 1)%Z
  else if Z.even fl then fl else (fl + 1)%Z.

Definition decimal_of_Z (z : Z) : string :=
  NilZero.string_of_uint (N.to_uint (Z.to_N z)).

(** [f"{x:.1f}"] on the exact value of [x]. *)
Definition format_1f (x : Q) : string :=
  let tenths := Z.abs (round_half_even (x * 10)%Q) in
  ((if Qltb x 0 then "-" else "")
   ++ decimal_of_Z (tenths / 10)%Z ++ "."
   ++ String (PyStr.digit_char (Z.to_N (tenths mod 10)%Z)) "")%string.

Definition alarm_recommendations
  (alarm_summary : option AlarmAnalyzer.AlarmSummary) : list string :=
  match alarm_summary with
  | Some a =>
      if 0 <? AlarmAnalyzer.total_count a
      then ["Review active CRITICAL/MAJOR alarms in ENM for impacted MOs.";
            "Verify whether alarms coincide with KPI degradation periods."]
      else []
  | None => []
  end.

Definition backhaul_recommendations
  (backhaul_summary : option BackhaulAnalyzer.BackhaulSummary) : list string :=
  match backhaul_summary with
  | Some b =>
      if Qgtb (BackhaulAnalyzer.impairment_score b) (5 # 10)
      then ["Investigate microwave/fiber backhaul modulation drops and high jitter.";
            "Correlate backhaul RSSI and error counters with BLER and ERAB failures."]
      else []
  | None => []
  end.

Definition attach_recommendations
  (attach_summary : option AttachAnalyzer.AttachSummary) : list string :=
  match attach_summary with
  | Some a =>
      match AttachAnalyzer.overall_attach_success_rate a with
      | Some success =>
          if Qltb success 95 then
            ("Investigate attach failures; overall attach success rate is "
               ++ format_1f success ++ "%.")%string
            :: (if dominant_is a "APN_QCI"
                then ["Check APN, QCI, and bearer configuration for impacted IMSIs and APNs."]
                else if dominant_is a "TAC"
                then ["Verify TAC assignment and mobility configuration for affected cells."]
                else if dominant_is a "RF"
                then ["Check RF coverage, SINR, and interference around sites with high attach failures."]
                else if dominant_is a "Congestion"
                then ["Correlate attach failures with congestion indicators (PRB utilization, throughput)."]
                else [])
          else []
      | None => []
      end
  | None => []
  end.

Definition _extra_recommendations
  (alarm_summary : option AlarmAnalyzer.AlarmSummary)
  (backhaul_summary : option BackhaulAnalyzer.BackhaulSummary)
  (attach_summary : option AttachAnalyzer.AttachSummary) : list string :=
  alarm_recommendations alarm_summary
  ++ backhaul_recommendations backhaul_summary
  ++ attach_recommendations attach_summary.

(** The first recommendation of the attach block. *)
Definition attach_rate_recommendation (success : Q) : string :=
  "Investigate attach failures; overall attach success rate is "
    ++ format_1f success ++ "%.".

(** [sorted(set(recommendations))]: the distinct strings in code-point
    order. *)
Fixpoint insert_uniq (x : string) (l : list string) : list string :=
  match l with
  | [] => [x]
  | y :: rest =>
      match String_as_OT.compare x y with
      | Lt => x :: l
      | Eq => l
      | Gt => y :: insert_uniq x rest
      end
  end.

Definition sorted_set (l : list string) : list string :=
  fold_right insert_uniq [] l.

Section Fusion.
Variables py_median py_stdev : list Q -> Q.

(** The legacy classifier [engine/rca.py], used as it is. *)
Variable determine_root_cause :
  list (string * KpiAnalyzer.Stats) -> list KpiAnalyzer.Anomaly ->
  list (string * list (string * list Q)) -> string * string.
Variable generate_recommendations :
  string -> list (string * KpiAnalyzer.Stats) -> list KpiAnalyzer.Anomaly ->
  list string.

(** The recommendations of the legacy classifier for the given samples. *)
Definition baseline_recommendations (kpi_data : list KpiAnalyzer.KpiEntry)
  : list string :=
  let '(evidence, anomalies, kpi_by_site) :=
    KpiAnalyzer.summarize_kpis py_median py_stdev kpi_data in
  let '(base_root_cause, base_severity) :=
    determine_root_cause evidence anomalies kpi_by_site in
  generate_recommendations base_root_cause evidence anomalies.

Definition analyze_rca (kpi_data : list KpiAnalyzer.KpiEntry)
  (alarm_summary : option AlarmAnalyzer.AlarmSummary)
  (backhaul_summary : option BackhaulAnalyzer.BackhaulSummary)
  (attach_summary : option AttachAnalyzer.AttachSummary) : RcaResult :=
  match kpi_data with
  | [] => {| root_cause := "No Data"; severity := "low"; evidence := [];
             anomalies := [];
             recommendations := ["No KPI data available for analysis"] |}
  | _ =>
      let '(evidence, anomalies, kpi_by_site) :=
        KpiAnalyzer.summarize_kpis py_median py_stdev kpi_data in
      let '(base_root_cause, base_severity) :=
        determine_root_cause evidence anomalies kpi_by_site in
      let recommendations :=
        generate_recommendations base_root_cause evidence anomalies in
      let '(root_cause, severity) :=
        _combine_with_additional_signals base_root_cause base_severity
          anomalies alarm_summary backhaul_summary attach_summary in
      let recommendations :=
        recommendations
        ++ _extra_recommendations alarm_summary backhaul_summary
             attach_summary in
      let recommendations := sorted_set recommendations in
      {| root_cause := root_cause; severity := severity;
         evidence := evidence; anomalies := anomalies;
         recommendations := recommendations |}
  end.
End Fusion.

End RcaEngine.

(** ** backend/services/correlation_engine.py *)

Module CorrelationEngine.

Definition BACKHAUL_BLER : string :=
  "Backhaul impairment detected while BLER anomalies are present; "
  ++ "modulation drops and degraded RSSI may be contributing to high BLER.".

Definition BACKHAUL_ERAB : string :=
  "Elevated ERAB setup anomalies coincide with degraded backhaul "
  ++ "conditions; investigate jitter, latency, and error counters on the affected link.".

Definition BACKHAUL_GENERIC : string :=
  "Backhaul impairment is present; verify whether KPI anomalies align with periods of "
  ++ "low modulation, high latency, or high jitter.".

(** [any(word in a.get("kpi", "") for a in kpi_anomalies)] *)
Definition any_kpi_mentions (word : string)
  (kpi_anomalies : list KpiAnalyzer.Anomaly) : bool :=
  existsb (fun a => PyStr.contains word (KpiAnalyzer.kpi a)) kpi_anomalies.

Definition describe_kpi_backhaul_correlation
  (kpi_anomalies : list KpiAnalyzer.Anomaly)
  (backhaul_summary : option BackhaulAnalyzer.BackhaulSummary)
  : list string :=
  match backhaul_summary with
  | None => []
  | Some b =>
      if Qle_bool (BackhaulAnalyzer.impairment_score b) (2 # 10) then []
      else
        let has_bler := any_kpi_mentions "BLER" kpi_anomalies in
        let has_erab := any_kpi_mentions "ERAB" kpi_anomalies in
        let statements := [] in
        let statements :=
          if has_bler then statements ++ [BACKHAUL_BLER] else statements in
        let statements :=
          if has_erab then statements ++ [BACKHAUL_ERAB] else statements in
        match statements with
        | [] => statements ++ [BACKHAUL_GENERIC]
        | _ => statements
        end
  end.

Definition ALARMS_ACTIVE : string :=
  "Critical/major alarms are active during KPI degradation; "
  ++ "check ENM alarm browser for transport, radio, or license alarms on the affected sites.".

Definition describe_kpi_alarm_correlation
  (kpi_anomalies : list KpiAnalyzer.Anomaly)
  (alarm_summary : option AlarmAnalyzer.AlarmSummary) : list string :=
  match alarm_summary with
  | None => []
  | Some a =>
      if AlarmAnalyzer.total_count a =? 0 then []
      else
        let by_sev := AlarmAnalyzer.by_severity a in
        let crit_maj :=
          PyDict.get by_sev "CRITICAL" 0 + PyDict.get by_sev "MAJOR" 0 in
        if crit_maj =? 0 then [] else [ALARMS_ACTIVE]
  end.

Definition ATTACH_APN_QCI : string :=
  "Attach failures are dominated by APN/QCI-related causes; "
  ++ "verify APN provisioning, QCI mappings, and PDN/GGSN configuration for SCADA/CPE devices.".

Definition ATTACH_TAC : string :=
  "Attach failures are dominated by TAC-related causes; "
  ++ "review TAC assignments and mobility restrictions for the affected UEs and cells.".

Definition ATTACH_RF : string :=
  "Attach failures are dominated by RF-related causes; "
  ++ "check coverage, RSRP/SINR, and interference for the impacted sectors.".

Definition ATTACH_CONGESTION : string :=
  "Attach failures are dominated by congestion-related causes; "
  ++ "correlate attach failures with PRB utilization and throughput peaks.".

Definition ATTACH_OTHER : string :=
  "Attach failures are elevated; further drill-down by IMSI, APN, and TAC is recommended.".

Definition describe_attach_failures_correlation
  (attach_summary : option AttachAnalyzer.AttachSummary) : list string :=
  match attach_summary with
  | None => []
  | Some a =>
      match AttachAnalyzer.overall_attach_success_rate a with
      | None => []
      | Some overall =>
          if Qle_bool 95 overall then []
          else if RcaEngine.dominant_is a "APN_QCI" then [ATTACH_APN_QCI]
          else if RcaEngine.dominant_is a "TAC" then [ATTACH_TAC]
          else if RcaEngine.dominant_is a "RF" then [ATTACH_RF]
          else if RcaEngine.dominant_is a "Congestion" then [ATTACH_CONGESTION]
          else [ATTACH_OTHER]
      end
  end.

End CorrelationEngine.

(** ** backend/analyzers/kpi_analyzer.py *)

Module BackendKpiAnalyzer.

(** [analyze_kpis]: the facade over [summarize_kpis]. *)
Definition analyze_kpis (py_median py_stdev : list Q -> Q)
  (kpi_data : list KpiAnalyzer.KpiEntry) :=
  KpiAnalyzer.summarize_kpis py_median py_stdev kpi_data.

End BackendKpiAnalyzer.

(** ** Sample inputs *)

Module Fixtures.

Definition s1_violation : KpiAnalyzer.Anomaly :=
  {| KpiAnalyzer.kpi := "S1_Setup_Failure_Rate";
     KpiAnalyzer.type := "above_threshold";
     KpiAnalyzer.value := 3%Q;
     KpiAnalyzer.threshold := 1%Q;
     KpiAnalyzer.severity := "high" |}.

(** A summary with two CRITICAL alarms. *)
Definition two_critical : AlarmAnalyzer.AlarmSummary :=
  {| AlarmAnalyzer.total_count := 2;
     AlarmAnalyzer.by_severity := [("CRITICAL", 2)];
     AlarmAnalyzer.by_mo := [("ERBS-41001/Cell-1", 2)];
     AlarmAnalyzer.timeline := [("2025-01-01T12:00:00", 2)];
     AlarmAnalyzer.sample := Some [] |}.

Definition backhaul_with (score : Q) : BackhaulAnalyzer.BackhaulSummary :=
  {| BackhaulAnalyzer.total_samples := 10;
     BackhaulAnalyzer.impairment_score := score;
     BackhaulAnalyzer.modulation_trend := [];
     BackhaulAnalyzer.rssi_trend := [];
     BackhaulAnalyzer.latency_jitter_trend := [];
     BackhaulAnalyzer.error_summary := (0%Q, 0%Q) |}.

Definition attach_with (rate : Q) (dominant : string)
  : AttachAnalyzer.AttachSummary :=
  {| AttachAnalyzer.overall_attach_success_rate := Some rate;
     AttachAnalyzer.failure_categories := [(dominant, 1)];
     AttachAnalyzer.dominant_failure_category := Some dominant |}.

(** Two samples of RRC_Setup_Success_Rate with mean 70. *)
Definition rrc_samples : list KpiAnalyzer.KpiEntry :=
  [KpiAnalyzer.mkKpiEntry (Some "RRC_Setup_Success_Rate") (Some "SITE-1") (Some 60%Q);
   KpiAnalyzer.mkKpiEntry (Some "RRC_Setup_Success_Rate") (Some "SITE-2") (Some 80%Q)].

(** A stand-in for the legacy classifier, for examples: no finding. *)
Definition quiet_root_cause
  (evidence : list (string * KpiAnalyzer.Stats))
  (anomalies : list KpiAnalyzer.Anomaly)
  (kpi_by_site : list (string * list (string * list Q))) : string * string :=
  ("Normal Operation", "low").

Definition quiet_recommendations (root_cause : string)
  (evidence : list (string * KpiAnalyzer.Stats))
  (anomalies : list KpiAnalyzer.Anomaly) : list string :=
  ["Continue monitoring"].

(** A reading of the clock. *)
Definition clock : PyDatetime.datetime :=
  PyDatetime.mkDatetime 2026 11 4 8 30 0 0.

(** Stand-ins for [statistics.median] and [statistics.stdev] in examples
    that do not read these two statistics. *)
Definition no_statistic (values : list Q) : Q := 0%Q.

End Fixtures.

(** * Properties *)

(** ** Comparisons of rationals *)

Lemma Qltb_lt (x y : Q) : Qltb x y = true <-> (x < y)%Q.
Proof.
  unfold Qltb. rewrite negb_true_iff. split.
  - intros H. apply Qnot_le_lt. intros Hle.
    apply Qle_bool_iff in Hle. congruence.
  - intros H. destruct (Qle_bool y x) eqn:E; trivial.
    apply Qle_bool_iff in E. exfalso. exact (Qlt_not_le _ _ H E).
Qed.

Lemma Qsum_nonneg (a b : Q) : (0 <= a)%Q -> (0 <= b)%Q -> (0 <= a + b)%Q.
Proof.
  intros Ha Hb. change 0%Q with (0 + 0)%Q. now apply Qplus_le_compat.
Qed.

Lemma Qltb_ge (x y : Q) : Qltb x y = false <-> (y <= x)%Q.
Proof.
  unfold Qltb. rewrite negb_false_iff. apply Qle_bool_iff.
Qed.

(** ** Dictionaries of counters *)

Section Counters.

Import PyDict.

Lemma get_cons_eq {V} (d : list (string * V)) k v dflt :
  get ((k, v) :: d) k dflt = v.
Proof. unfold get. simpl. now rewrite String.eqb_refl. Qed.

Lemma get_cons_neq {V} (d : list (string * V)) k k' v dflt :
  k' <> k -> get ((k', v) :: d) k dflt = get d k dflt.
Proof.
  intros H. unfold get. simpl.
  destruct (String.eqb k' k) eqn:E; trivial.
  apply String.eqb_eq in E. contradiction.
Qed.

(** Two distinct keys read two distinct entries. *)
Lemma get_two_le_sum (d : list (string * nat)) k1 k2 :
  k1 <> k2 -> get d k1 0 + get d k2 0 <= RcaEngine.count_sum d.
Proof.
  intros Hne. induction d as [|[k v] d IH]; simpl.
  - unfold get. simpl. lia.
  - destruct (String.eqb_spec k k1) as [E1|H1];
      destruct (String.eqb_spec k k2) as [E2|H2].
    + congruence.
    + subst k1. rewrite get_cons_eq, get_cons_neq by assumption.
      assert (get d k2 0 <= RcaEngine.count_sum d) by lia. lia.
    + subst k2. rewrite get_cons_neq, get_cons_eq by assumption.
      assert (get d k1 0 <= RcaEngine.count_sum d) by lia. lia.
    + rewrite !get_cons_neq by assumption. lia.
Qed.

End Counters.

Lemma crit_maj_le_sum (a : AlarmAnalyzer.AlarmSummary) :
  RcaEngine.crit_maj a <= RcaEngine.count_sum (AlarmAnalyzer.by_severity a).
Proof.
  unfold RcaEngine.crit_maj. apply get_two_le_sum. discriminate.
Qed.

Lemma consistent_total_pos (a : AlarmAnalyzer.AlarmSummary) :
  RcaEngine.consistent a -> 0 < RcaEngine.crit_maj a ->
  (0 <? AlarmAnalyzer.total_count a) = true.
Proof.
  unfold RcaEngine.consistent. intros Hc Hpos.
  pose proof (crit_maj_le_sum a). apply Nat.ltb_lt. lia.
Qed.

(** ** The fusion of [_combine_with_additional_signals] *)

Section Fusion.

Import RcaEngine.

Lemma severity_score_of_range (s : string) :
  1 <= severity_score_of s <= 3.
Proof.
  unfold severity_score_of, PyDict.get, PyDict.lookup.
  destruct (String.eqb "low" s); [lia|].
  destruct (String.eqb "medium" s); [lia|].
  destruct (String.eqb "high" s); lia.
Qed.

Lemma severity_label_high (n : nat) : 3 <= n -> severity_label n = "high".
Proof.
  intros H. unfold severity_label.
  destruct (3 <=? n) eqn:E; trivial. apply Nat.leb_gt in E. lia.
Qed.

Lemma severity_score_of_label (n : nat) :
  severity_score_of (severity_label n) = Nat.max 1 (Nat.min n 3).
Proof.
  unfold severity_label.
  destruct (3 <=? n) eqn:E3.
  - apply Nat.leb_le in E3. rewrite Nat.min_r by lia. reflexivity.
  - apply Nat.leb_gt in E3. destruct (n =? 2) eqn:E2.
    + apply Nat.eqb_eq in E2. subst. reflexivity.
    + apply Nat.eqb_neq in E2.
      destruct n as [|[|[|n]]]; try reflexivity; lia.
Qed.

Lemma alarm_escalation_score base anoms als st :
  snd st <= snd (alarm_escalation base anoms als st).
Proof.
  destruct st as [rc sc]. unfold alarm_escalation.
  destruct als as [a|]; simpl; trivial.
  destruct (0 <? AlarmAnalyzer.total_count a); simpl; trivial.
  destruct (0 <? crit_maj a); simpl; trivial.
  destruct (has_transport_anomaly anoms); simpl; lia.
Qed.

Lemma backhaul_escalation_score base bs st :
  snd st <= snd (backhaul_escalation base bs st).
Proof.
  destruct st as [rc sc]. unfold backhaul_escalation.
  destruct bs as [b|]; simpl; trivial.
  destruct (Qgtb _ _); simpl; lia.
Qed.

Lemma attach_escalation_score ats st :
  snd st <= snd (attach_escalation ats st).
Proof.
  destruct st as [rc sc]. unfold attach_escalation.
  destruct ats as [a|]; simpl; trivial.
  destruct (AttachAnalyzer.overall_attach_success_rate a); simpl; trivial.
  destruct (Qltb _ _); simpl; lia.
Qed.

Lemma alarm_escalation_fires base anoms a st :
  consistent a -> 0 < crit_maj a ->
  alarm_escalation base anoms (Some a) st =
  if has_transport_anomaly anoms
  then ("Transport/TIMING Fault (Alarms corroborated)", Nat.max (snd st) 3)
  else ((if String.eqb base "Normal Operation" then "Active Network Alarms"
         else base ++ " with Active Alarms")%string, Nat.max (snd st) 2).
Proof.
  intros Hc Hpos. destruct st as [rc sc]. unfold alarm_escalation.
  rewrite (consistent_total_pos a Hc Hpos).
  apply Nat.ltb_lt in Hpos. rewrite Hpos. reflexivity.
Qed.

Lemma backhaul_escalation_fires base b st :
  (5 # 10 < BackhaulAnalyzer.impairment_score b)%Q ->
  backhaul_escalation base (Some b) st =
  ((if PyStr.contains "Microwave" base || PyStr.contains "Transport" base
    then "Backhaul Impairment (Microwave/Fiber)"
    else if String.eqb base "Normal Operation" then "Backhaul Impairment"
         else fst st),
   Nat.max (snd st) 3).
Proof.
  intros H. destruct st as [rc sc]. unfold backhaul_escalation, Qgtb.
  apply Qltb_lt in H. rewrite H. reflexivity.
Qed.

Lemma attach_escalation_fires a s st :
  AttachAnalyzer.overall_attach_success_rate a = Some s -> (s < 95)%Q ->
  snd (attach_escalation (Some a) st) = Nat.max (snd st) 3.
Proof.
  intros Hs H. destruct st as [rc sc]. unfold attach_escalation.
  rewrite Hs. apply Qltb_lt in H. rewrite H. reflexivity.
Qed.

Lemma backhaul_keeps_label base bs st :
  backhaul_overwrites base bs = false ->
  fst (backhaul_escalation base bs st) = fst st.
Proof.
  destruct st as [rc sc]. unfold backhaul_overwrites, backhaul_escalation.
  destruct bs as [b|]; trivial.
  destruct (Qgtb _ _); simpl; trivial.
  intros H. apply orb_false_elim in H as [H1 H3]. rewrite H1, H3. reflexivity.
Qed.

Lemma attach_keeps_label ats st :
  attach_overwrites ats = false ->
  fst (attach_escalation ats st) = fst st.
Proof.
  destruct st as [rc sc]. unfold attach_overwrites, attach_escalation.
  destruct ats as [a|]; trivial.
  destruct (AttachAnalyzer.overall_attach_success_rate a); trivial.
  destruct (Qltb _ _); simpl; trivial.
  intros H.
  apply orb_false_elim in H as [H H4].
  apply orb_false_elim in H as [H H3].
  apply orb_false_elim in H as [H1 H2].
  rewrite H1, H2, H3, H4. reflexivity.
Qed.

(** The label and score after each block, from the definition. *)
Lemma combine_unfold base sev anoms als bs ats :
  _combine_with_additional_signals base sev anoms als bs ats =
  let st1 := alarm_escalation base anoms als (base, severity_score_of sev) in
  let st2 := backhaul_escalation base bs st1 in
  let st3 := attach_escalation ats st2 in
  (fst st3, severity_label (snd st3)).
Proof. reflexivity. Qed.

End Fusion.

Section FusionClaims.

Import RcaEngine.

Lemma has_transport_anomaly_iff (anoms : list KpiAnalyzer.Anomaly) :
  has_transport_anomaly anoms = true <->
  exists x, In x anoms /\ KpiAnalyzer.kpi x = "S1_Setup_Failure_Rate".
Proof.
  unfold has_transport_anomaly. rewrite existsb_exists.
  split; intros [x [Hin Hx]]; exists x; split; trivial;
    now apply String.eqb_eq.
Qed.

(** C1, as written, fails: with a baseline label that neither mentions
    Microwave or Transport nor is "Normal Operation", an impairment score
    of 0.9 raises the severity and leaves the label alone. *)
Lemma backhaul_label_not_always_overridden :
  let r := _combine_with_additional_signals "High PRB Utilization" "medium"
             [] None (Some (Fixtures.backhaul_with (9 # 10))) None in
  fst r = "High PRB Utilization"
  /\ PyStr.contains "Backhaul Impairment" (fst r) = false
  /\ snd r = "high".
Proof. vm_compute. repeat split. Qed.

(** C1 (amended): given a backhaul summary whose impairment score exceeds
    0.5, the returned severity is "high"; unless the attach block writes
    the label afterwards, the returned root cause is
    "Backhaul Impairment (Microwave/Fiber)" when the baseline root cause
    contains "Microwave" or "Transport", "Backhaul Impairment" when the
    baseline is "Normal Operation", and otherwise the label the alarm
    block left. *)
Theorem backhaul_escalation_label_and_severity
  (base sev : string) (anoms : list KpiAnalyzer.Anomaly)
  (als : option AlarmAnalyzer.AlarmSummary)
  (b : BackhaulAnalyzer.BackhaulSummary)
  (ats : option AttachAnalyzer.AttachSummary) :
  (5 # 10 < BackhaulAnalyzer.impairment_score b)%Q ->
  let r := _combine_with_additional_signals base sev anoms als (Some b) ats in
  snd r = "high"
  /\ (attach_overwrites ats = false ->
      fst r =
      if PyStr.contains "Microwave" base || PyStr.contains "Transport" base
      then "Backhaul Impairment (Microwave/Fiber)"
      else if String.eqb base "Normal Operation" then "Backhaul Impairment"
      else fst (alarm_escalation base anoms als
                  (base, severity_score_of sev))).
Proof.
  intros Hb r. subst r. rewrite combine_unfold. cbv zeta.
  rewrite (backhaul_escalation_fires _ _ _ Hb). split.
  - cbn [snd]. apply severity_label_high.
    etransitivity; [|apply attach_escalation_score]. cbn [snd]. lia.
  - intros Ha. cbn [fst]. now rewrite (attach_keeps_label _ _ Ha).
Qed.

Lemma backhaul_escalation_label_and_severity_witness :
  let r := _combine_with_additional_signals "Microwave Link Degradation"
             "low" [] None (Some (Fixtures.backhaul_with (9 # 10))) None in
  snd r = "high" /\ fst r = "Backhaul Impairment (Microwave/Fiber)".
Proof.
  assert (H : (5 # 10 < BackhaulAnalyzer.impairment_score
                          (Fixtures.backhaul_with (9 # 10)))%Q)
    by reflexivity.
  destruct (backhaul_escalation_label_and_severity
              "Microwave Link Degradation" "low" [] None
              (Fixtures.backhaul_with (9 # 10)) None H) as [Hs Hl].
  split; [exact Hs | exact (Hl eq_refl)].
Defined.






End FusionClaims.

(** ** The impairment score of [summarize_backhaul] *)

Section Backhaul.

Import BackhaulAnalyzer.

Lemma fold_step_counts (samples : list BackhaulSample) (a : Acc) :
  let a' := fold_left step samples a in
  low_mod_count a' = low_mod_count a + count low_modulation samples
  /\ high_latency_count a' = high_latency_count a + count high_latency samples
  /\ high_jitter_count a' = high_jitter_count a + count high_jitter samples.
Proof.
  revert a. induction samples as [|s samples IH]; intros a; simpl.
  - unfold count. simpl. lia.
  - destruct (IH (step a s)) as [H1 [H2 H3]].
    rewrite H1, H2, H3. unfold count. simpl.
    unfold low_modulation, high_latency, high_jitter.
    destruct (Qltb (modulation s) 4); destruct (Qgtb (latency_ms s) 50);
      destruct (Qgtb (jitter_ms s) 20); simpl; lia.
Qed.

Lemma count_le_length p (samples : list BackhaulSample) :
  count p samples <= List.length samples.
Proof. unfold count. apply filter_length_le. Qed.

Lemma Qnat_le (m n : nat) : m <= n -> (Qnat m <= Qnat n)%Q.
Proof.
  intros H. unfold Qnat. rewrite <- Zle_Qle. lia.
Qed.

Lemma Qnat_pos (n : nat) : 0 < n -> (0 < Qnat n)%Q.
Proof.
  intros H. unfold Qnat. change 0%Q with (inject_Z 0). rewrite <- Zlt_Qlt. lia.
Qed.

Lemma fraction_range p (samples : list BackhaulSample) :
  samples <> [] -> (0 <= fraction p samples <= 1)%Q.
Proof.
  intros Hne. unfold fraction.
  assert (Hn : (0 < Qnat (List.length samples))%Q).
  { apply Qnat_pos. destruct samples; [congruence | simpl; lia]. }
  split.
  - apply Qle_shift_div_l; trivial. rewrite Qmult_0_l.
    apply (Qnat_le 0). lia.
  - apply Qle_shift_div_r; trivial. rewrite Qmult_1_l.
    apply Qnat_le, count_le_length.
Qed.

(** The score of a non-empty batch in terms of the three fractions. *)
Lemma impairment_score_eq (samples : list BackhaulSample) :
  samples <> [] ->
  impairment_score (summarize_backhaul samples) =
  Qmin 1 (fraction low_modulation samples * (4 # 10)
          + fraction high_latency samples * (3 # 10)
          + fraction high_jitter samples * (3 # 10))%Q.
Proof.
  intros Hne. unfold summarize_backhaul.
  destruct samples as [|s samples]; [congruence|].
  cbn [impairment_score].
  destruct (fold_step_counts (s :: samples) acc0) as [H1 [H2 H3]].
  rewrite H1, H2, H3. reflexivity.
Qed.

End Backhaul.

Section BackhaulClaims.

Import BackhaulAnalyzer.

(** C4, as written, fails: the score weighs the three flags separately, so
    a batch with a larger share of impaired samples can score lower. Half
    of the first batch is impaired, on all three flags; all of the second
    is impaired, on jitter alone. *)
Lemma impairment_score_not_monotone_in_impaired_fraction :
  let xs := [degraded_sample; clean_sample] in
  let ys := [jittery_sample; jittery_sample] in
  (fraction impaired xs < fraction impaired ys)%Q
  /\ (impairment_score (summarize_backhaul ys)
      < impairment_score (summarize_backhaul xs))%Q.
Proof. split; reflexivity. Qed.

(** C4 (amended): for every non-empty sample list the impairment score lies
    in [0,1], and it is monotonically non-decreasing in the three fractions
    it is computed from: if the fraction of samples with modulation below
    4, the fraction with latency above 50 and the fraction with jitter
    above 20 are each no smaller in a second non-empty list, the score of
    the second list is no smaller. *)
Theorem impairment_score_bounded_and_monotone
  (xs ys : list BackhaulSample) :
  xs <> [] -> ys <> [] ->
  (0 <= impairment_score (summarize_backhaul xs) <= 1)%Q
  /\ ((fraction low_modulation xs <= fraction low_modulation ys)%Q ->
      (fraction high_latency xs <= fraction high_latency ys)%Q ->
      (fraction high_jitter xs <= fraction high_jitter ys)%Q ->
      (impairment_score (summarize_backhaul xs)
       <= impairment_score (summarize_backhaul ys))%Q).
Proof.
  intros Hx Hy.
  rewrite (impairment_score_eq xs Hx), (impairment_score_eq ys Hy).
  destruct (fraction_range low_modulation xs Hx) as [L0 _].
  destruct (fraction_range high_latency xs Hx) as [H0 _].
  destruct (fraction_range high_jitter xs Hx) as [J0 _].
  split; [split|].
  - apply Q.min_glb; [discriminate|].
    repeat apply Qsum_nonneg; apply Qmult_le_0_compat;
      trivial; discriminate.
  - apply Q.le_min_l.
  - intros HL HH HJ. apply Q.min_le_compat_l.
    repeat apply Qplus_le_compat; apply Qmult_le_compat_r;
      trivial; discriminate.
Qed.

Lemma impairment_score_bounded_and_monotone_witness :
  let xs := [clean_sample; jittery_sample] in
  let ys := [degraded_sample; jittery_sample] in
  (0 <= impairment_score (summarize_backhaul xs) <= 1)%Q
  /\ (impairment_score (summarize_backhaul xs)
      <= impairment_score (summarize_backhaul ys))%Q.
Proof.
  destruct (impairment_score_bounded_and_monotone
              [clean_sample; jittery_sample]
              [degraded_sample; jittery_sample])
    as [Hb Hm]; [discriminate | discriminate |].
  split; [exact Hb|].
  apply Hm; discriminate.
Defined.

(** Scenario 3 of the specification: ten QPSK samples at 10 ms latency and
    5 ms jitter score 0.4. *)
Example impairment_score_qpsk :
  (impairment_score (summarize_backhaul (repeat qpsk_sample 10)) == 4 # 10)%Q.
Proof. reflexivity. Qed.

End BackhaulClaims.

(** ** Strings *)

Section Strings.

Import PyStr.

Lemma rstrip_empty_iff (s : string) : rstrip s = "" <-> blank s = true.
Proof.
  induction s as [|c s IH]; simpl.
  - tauto.
  - destruct (rstrip s) eqn:E.
    + destruct (is_space c); simpl.
      * tauto.
      * split; discriminate.
    + split; [discriminate|].
      intros H. apply andb_true_iff in H as [_ H].
      apply IH in H. discriminate.
Qed.

Lemma lstrip_blank (s : string) : blank (lstrip s) = blank s.
Proof.
  induction s as [|c s IH]; simpl; trivial.
  destruct (is_space c) eqn:E; simpl; trivial.
  now rewrite E.
Qed.

(** [not s.strip()] holds of the empty and the white-space-only strings. *)
Lemma strip_empty_iff (s : string) : strip s = "" <-> blank s = true.
Proof.
  unfold strip. rewrite rstrip_empty_iff. now rewrite lstrip_blank.
Qed.

Lemma truthy_false_iff (s : string) : truthy s = false <-> s = "".
Proof. destruct s; simpl; split; congruence. Qed.

Lemma is_space_lower_char (c : ascii) : is_space (lower_char c) = is_space c.
Proof. destruct c as [[] [] [] [] [] [] [] []]; reflexivity. Qed.

Lemma blank_lower (s : string) : blank (lower s) = blank s.
Proof.
  induction s as [|c s IH]; simpl; trivial.
  now rewrite is_space_lower_char, IH.
Qed.

Lemma blank_append (s t : string) :
  blank (s ++ t) = blank s && blank t.
Proof.
  induction s as [|c s IH]; simpl; trivial.
  now rewrite IH, andb_assoc.
Qed.

Lemma prefix_head (a c : ascii) (k s : string) :
  String.prefix (String a k) (String c s) = true -> a = c.
Proof.
  simpl. destruct (ascii_dec a c); [trivial | discriminate].
Qed.

(** A keyword that starts with a visible character does not occur in a
    blank text. *)
Lemma contains_not_blank (a : ascii) (k s : string) :
  is_space a = false -> contains (String a k) s = true -> blank s = false.
Proof.
  intros Ha. induction s as [|c s IH].
  - simpl. discriminate.
  - intros H. cbn [contains] in H.
    destruct (String.prefix (String a k) (String c s)) eqn:P.
    + apply prefix_head in P. subst c. simpl. now rewrite Ha.
    + simpl. rewrite (IH H). apply andb_false_r.
Qed.

End Strings.

(** ** The classification of [classify_failure] *)

Section AttachClaims.

Import AttachAnalyzer.

Lemma classify_failure_success_iff (attach_cause erab_cause : string) :
  classify_failure attach_cause erab_cause = "SUCCESS" <->
  PyStr.blank (cause_text attach_cause erab_cause) = true.
Proof.
  unfold classify_failure. rewrite <- strip_empty_iff.
  destruct (PyStr.strip (cause_text attach_cause erab_cause)) eqn:E; simpl.
  - tauto.
  - split; [|discriminate].
    repeat match goal with
           | |- context [if ?b then _ else _] => destruct b
           end; discriminate.
Qed.

Lemma classify_failure_in_categories (attach_cause erab_cause : string) :
  In (classify_failure attach_cause erab_cause) CATEGORIES.
Proof.
  unfold classify_failure, CATEGORIES.
  repeat match goal with
         | |- context [if ?b then _ else _] => destruct b
         end; simpl; tauto.
Qed.

(** C5: [classify_failure] returns one of the six categories; it returns
    SUCCESS exactly when the concatenated cause text is empty or white
    space, which is when both causes are; otherwise the first keyword set
    that occurs in the lower-cased text, in the order APN_QCI, TAC, RF,
    Congestion, gives the category, and Other is returned when none does.
    A text with both "apn" and "rf" is thus APN_QCI. *)
Theorem classify_failure_total_and_ordered (attach_cause erab_cause : string) :
  let text := cause_text attach_cause erab_cause in
  let c := classify_failure attach_cause erab_cause in
  In c CATEGORIES
  /\ (c = "SUCCESS" <->
      PyStr.blank attach_cause = true /\ PyStr.blank erab_cause = true)
  /\ (c = "SUCCESS" <-> PyStr.strip text = "")
  /\ (c <> "SUCCESS" ->
      c = if PyStr.any_in APN_QCI_KEYWORDS text then "APN_QCI"
          else if PyStr.any_in TAC_KEYWORDS text then "TAC"
          else if PyStr.any_in RF_KEYWORDS text then "RF"
          else if PyStr.any_in CONGESTION_KEYWORDS text then "Congestion"
          else "Other")
  /\ (PyStr.contains "apn" text = true -> PyStr.contains "rf" text = true ->
      c = "APN_QCI").
Proof.
  intros text c.
  assert (Hs : c = "SUCCESS" <-> PyStr.blank text = true)
    by apply classify_failure_success_iff.
  assert (Hb : PyStr.blank text
               = PyStr.blank attach_cause && PyStr.blank erab_cause).
  { unfold text, cause_text.
    rewrite blank_lower, blank_append, blank_append.
    destruct (PyStr.blank attach_cause); destruct (PyStr.blank erab_cause);
      reflexivity. }
  assert (Hc : PyStr.blank text = false ->
               c = if PyStr.any_in APN_QCI_KEYWORDS text then "APN_QCI"
                   else if PyStr.any_in TAC_KEYWORDS text then "TAC"
                   else if PyStr.any_in RF_KEYWORDS text then "RF"
                   else if PyStr.any_in CONGESTION_KEYWORDS text
                        then "Congestion"
                        else "Other").
  { intros Hnb. unfold c, classify_failure. fold text.
    destruct (PyStr.strip text) eqn:E.
    - apply strip_empty_iff in E. congruence.
    - reflexivity. }
  split; [|split; [|split; [|split]]].
  - apply classify_failure_in_categories.
  - rewrite Hs, Hb. apply andb_true_iff.
  - rewrite Hs. symmetry. apply strip_empty_iff.
  - intros Hn. apply Hc.
    destruct (PyStr.blank text) eqn:B; trivial.
    exfalso. apply Hn. now apply Hs.
  - intros Hapn _.
    assert (Hnb : PyStr.blank text = false).
    { apply (contains_not_blank "a"%char "pn"); [reflexivity | exact Hapn]. }
    rewrite (Hc Hnb).
    unfold PyStr.any_in, APN_QCI_KEYWORDS. cbn [existsb].
    now rewrite Hapn.
Qed.

Lemma classify_failure_total_and_ordered_witness :
  classify_failure "weak RF, APN missing" "" = "APN_QCI"
  /\ classify_failure "roaming not allowed" "no resource" = "TAC".
Proof.
  split.
  - apply (classify_failure_total_and_ordered "weak RF, APN missing" "");
      reflexivity.
  - destruct (classify_failure_total_and_ordered
                "roaming not allowed" "no resource") as [_ [_ [_ [H _]]]].
    rewrite H; [reflexivity | discriminate].
Defined.

End AttachClaims.

(** ** The records of [parse_attach_csv] *)

Section AttachRecords.

Import AttachAnalyzer.

Lemma parse_row_category (row : Row) (r : AttachRecord) :
  parse_row row = Some r ->
  (explicit_category row = "" /\ In (failure_category r) CATEGORIES)
  \/ (explicit_category row <> "" /\ failure_category r = explicit_category row).
Proof.
  unfold parse_row, explicit_category. destruct row as [|kv row]; [discriminate|].
  set (cols := cols_of (kv :: row)).
  destruct (PyStr.strip (PyDict.get cols "failurecategory" "")) eqn:E;
    intros H; injection H as <-; cbn [failure_category PyStr.truthy negb].
  - left. split; [reflexivity | apply classify_failure_in_categories].
  - right. split; [discriminate | reflexivity].
Qed.

(** Rows without a failure-category cell get one of the six categories;
    a row with one keeps the cell's text. *)
Lemma parse_rows_category (rows : list Row) (r : AttachRecord) :
  In r (parse_rows rows) ->
  In (failure_category r) CATEGORIES
  \/ exists row, In row rows /\ explicit_category row <> ""
                 /\ failure_category r = explicit_category row.
Proof.
  induction rows as [|row rows IH]; simpl; [tauto|].
  destruct (parse_row row) as [r0|] eqn:E.
  - intros [<-|Hin].
    + destruct (parse_row_category row r0 E) as [[_ H]|[H1 H2]].
      * now left.
      * right. exists row. auto.
    + destruct (IH Hin) as [H|[row' [H1 H2]]]; [now left|].
      right. exists row'. auto.
  - intros Hin. destruct (IH Hin) as [H|[row' [H1 H2]]]; [now left|].
    right. exists row'. auto.
Qed.

(** C9 fails on the code: the row of the file
    [imsi,apn,tac,attach_reject_cause,failure_category] /
    [001010000000001,internet,1201,,Timeout] yields a record whose
    category is the cell's text, outside the six values. *)
Lemma explicit_failure_category_passes_through :
  let row := [("imsi", "001010000000001"); ("apn", "internet");
              ("tac", "1201"); ("attach_reject_cause", "");
              ("failure_category", "Timeout")] in
  map failure_category (parse_rows [row]) = ["Timeout"]
  /\ ~ In "Timeout" CATEGORIES.
Proof.
  split; [reflexivity|].
  simpl. intuition discriminate.
Qed.

End AttachRecords.

(** ** The counts of [summarize_alarms] *)

Section AlarmCounts.

Import AlarmAnalyzer.

Variable hour_bucket : string -> string.

Local Abbreviation count_sum := RcaEngine.count_sum.

Lemma count_sum_app (d e : list (string * nat)) :
  count_sum (d ++ e) = count_sum d + count_sum e.
Proof. induction d as [|[k v] d IH]; simpl; lia. Qed.

(** A counter update adds exactly one to the total of the dictionary. *)
Lemma count_sum_bump (d : list (string * nat)) (k : string) :
  count_sum (bump d k) = S (count_sum d).
Proof.
  unfold bump. induction d as [|[k' v] d IH].
  - reflexivity.
  - cbn [PyDict.set]. destruct (String.eqb_spec k' k) as [->|Hne].
    + rewrite get_cons_eq. simpl. lia.
    + rewrite get_cons_neq by assumption. simpl. rewrite IH. lia.
Qed.

Lemma count_sum_tally (records : list AlarmRecord) (t : Tally) :
  let t' := fold_left (tally_record hour_bucket) records t in
  count_sum (t_by_severity t')
  = count_sum (t_by_severity t) + List.length records
  /\ count_sum (t_by_mo t') = count_sum (t_by_mo t) + List.length records
  /\ count_sum (t_timeline t')
     = count_sum (t_timeline t) + List.length records.
Proof.
  revert t. induction records as [|r records IH]; intros t; simpl.
  - lia.
  - destruct (IH (tally_record hour_bucket t r)) as [H1 [H2 H3]].
    rewrite H1, H2, H3. unfold tally_record. cbn [t_by_severity t_by_mo t_timeline].
    rewrite !count_sum_bump. lia.
Qed.

Lemma count_sum_insert_item (x : string * nat) (l : list (string * nat)) :
  count_sum (insert_item x l) = snd x + count_sum l.
Proof.
  induction l as [|y l IH]; simpl; trivial.
  destruct (String.leb (fst x) (fst y)); simpl; lia.
Qed.

Lemma count_sum_sorted_items (l : list (string * nat)) :
  count_sum (sorted_items l) = count_sum l.
Proof.
  induction l as [|x l IH]; [reflexivity|].
  unfold sorted_items. cbn [fold_right]. fold (sorted_items l).
  rewrite count_sum_insert_item, IH. reflexivity.
Qed.

Lemma picked_skip (keys : list string) (d : list (string * nat)) k v :
  ~ In k keys -> picked keys ((k, v) :: d) = picked keys d.
Proof.
  induction keys as [|k0 keys IH]; simpl; trivial.
  intros H. destruct (String.eqb_spec k k0) as [->|Hne].
  - tauto.
  - rewrite IH by tauto. reflexivity.
Qed.

Lemma picked_cons_le (keys : list string) (d : list (string * nat)) k v :
  NoDup keys ->
  count_sum (picked keys ((k, v) :: d)) <= v + count_sum (picked keys d).
Proof.
  induction 1 as [|k0 keys Hnin Hnd IH]; simpl; [lia|].
  rewrite !count_sum_app. destruct (String.eqb_spec k k0) as [->|Hne].
  - rewrite picked_skip by assumption. simpl. lia.
  - lia.
Qed.

Lemma picked_le (keys : list string) (d : list (string * nat)) :
  NoDup keys -> count_sum (picked keys d) <= count_sum d.
Proof.
  intros Hnd. induction d as [|[k v] d IH].
  - clear Hnd. assert (picked keys [] = []) as ->
      by (induction keys as [|a keys IHk]; [reflexivity | exact IHk]).
    apply Nat.le_refl.
  - pose proof (picked_cons_le keys d k v Hnd). simpl. lia.
Qed.

Lemma SEVERITY_ORDER_NoDup : NoDup SEVERITY_ORDER.
Proof.
  unfold SEVERITY_ORDER.
  repeat (constructor; [simpl; intuition discriminate|]). constructor.
Qed.

(** What [summarize_alarms] keeps of every batch: the total is the number
    of records, the counts by managed object and by hour each add up to
    it, the counts by severity stay within it, and the sample is the first
    200 records. *)
Lemma summarize_alarms_counts (records : list AlarmRecord) :
  let s := summarize_alarms hour_bucket records in
  total_count s = List.length records
  /\ count_sum (by_mo s) = total_count s
  /\ count_sum (timeline s) = total_count s
  /\ count_sum (by_severity s) <= total_count s
  /\ (records <> [] -> sample s = Some (firstn 200 records)).
Proof.
  destruct records as [|r records].
  - simpl. repeat split; trivial. congruence.
  - cbv zeta. unfold summarize_alarms.
    set (t := fold_left _ _ _).
    cbn [total_count by_mo timeline by_severity sample].
    destruct (count_sum_tally (r :: records) (mkTally [] [] [])) as [H1 [H2 H3]].
    fold t in H1, H2, H3. simpl count_sum in H1, H2, H3.
    repeat split; trivial.
    + rewrite count_sum_sorted_items. exact H3.
    + pose proof (picked_le SEVERITY_ORDER (t_by_severity t)
                    SEVERITY_ORDER_NoDup) as Hle.
      unfold ordered_severity. lia.
Qed.

Lemma summarize_alarms_consistent (records : list AlarmRecord) :
  RcaEngine.consistent (summarize_alarms hour_bucket records).
Proof. apply summarize_alarms_counts. Qed.

(** C10 fails on the code: a record whose severity is outside
    [SEVERITY_ORDER] is counted in the total and left out of the counts by
    severity. *)
Lemma unlisted_severity_dropped_from_counts :
  let rec := mkAlarmRecord "2025-01-01T12:00:00" "NORMAL" "TEXT_LOG"
               "ERBS-41001/Cell-1" "" "Link restored" in
  let s := summarize_alarms hour_bucket [rec] in
  total_count s = 1 /\ by_severity s = [] /\ count_sum (by_severity s) = 0.
Proof. repeat split. Qed.

End AlarmCounts.

(** ** Dictionaries: lookup after update *)

Section DictUpdate.

Context {V : Type}.
Implicit Types (d : list (string * V)) (k : string) (v : V).

Lemma lookup_set d k v k' :
  PyDict.lookup (PyDict.set d k v) k'
  = if String.eqb k k' then Some v else PyDict.lookup d k'.
Proof.
  induction d as [|[k0 v0] d IH]; simpl.
  - reflexivity.
  - destruct (String.eqb_spec k0 k) as [->|Hne]; simpl.
    + destruct (String.eqb k k'); reflexivity.
    + rewrite IH. destruct (String.eqb_spec k0 k') as [->|Hne'].
      * destruct (String.eqb_spec k k'); [congruence | reflexivity].
      * reflexivity.
Qed.

Lemma lookup_None_keys d k :
  PyDict.lookup d k = None <-> ~ In k (PyDict.keys d).
Proof.
  induction d as [|[k0 v0] d IH]; simpl.
  - tauto.
  - destruct (String.eqb_spec k0 k) as [->|Hne].
    + split; [discriminate | tauto].
    + rewrite IH. tauto.
Qed.

Lemma keys_set d k v :
  PyDict.keys (PyDict.set d k v)
  = match PyDict.lookup d k with
    | Some _ => PyDict.keys d
    | None => PyDict.keys d ++ [k]
    end.
Proof.
  induction d as [|[k0 v0] d IH]; simpl.
  - reflexivity.
  - destruct (String.eqb_spec k0 k) as [->|Hne]; simpl.
    + reflexivity.
    + rewrite IH. now destruct (PyDict.lookup d k).
Qed.

(** An update keeps the keys of a dictionary distinct. *)
Lemma NoDup_keys_set d k v :
  NoDup (PyDict.keys d) -> NoDup (PyDict.keys (PyDict.set d k v)).
Proof.
  intros Hnd. rewrite keys_set.
  destruct (PyDict.lookup d k) eqn:E; trivial.
  apply lookup_None_keys in E.
  apply NoDup_app; [trivial | repeat constructor; simpl; tauto |].
  intros x Hx [<-|[]]. contradiction.
Qed.

Lemma lookup_In d k v :
  PyDict.lookup d k = Some v -> In (k, v) d.
Proof.
  induction d as [|[k0 v0] d IH]; simpl; [discriminate|].
  destruct (String.eqb_spec k0 k) as [->|Hne].
  - intros [= ->]. now left.
  - intros H. right. auto.
Qed.

Lemma get_set d k v k' (dflt : V) :
  PyDict.get (PyDict.set d k v) k' dflt
  = if String.eqb k k' then v else PyDict.get d k' dflt.
Proof.
  unfold PyDict.get. rewrite lookup_set. now destruct (String.eqb k k').
Qed.

End DictUpdate.

(** ** The anomalies of [summarize_kpis] *)

Section Kpi.

Import KpiAnalyzer.

Variables py_median py_stdev : list Q -> Q.

(** The first loop: a metric's list holds its values in input order. *)
Lemma group_lookup (kpi_data : list KpiEntry) (name : string)
  (acc : list (string * list Q) * list (string * list (string * list Q))) :
  let g := fst (fold_left group_entry kpi_data acc) in
  PyDict.lookup g name =
  match values_of name kpi_data with
  | [] => PyDict.lookup (fst acc) name
  | vs => Some (PyDict.get (fst acc) name [] ++ vs)
  end.
Proof.
  revert acc. induction kpi_data as [|e kpi_data IH]; intros acc.
  - reflexivity.
  - cbn [fold_left]. cbv zeta in IH |- *. rewrite IH. clear IH.
    unfold values_of. cbn [flat_map]. fold (values_of name kpi_data).
    unfold group_entry.
    destruct (entry_kpi e) as [k|]; [|reflexivity].
    destruct (entry_value e) as [v|]; [|reflexivity].
    cbn [fst]. unfold append_to. rewrite lookup_set, get_set.
    destruct (String.eqb_spec k name) as [->|Hne].
    + cbn [app]. destruct (values_of name kpi_data).
      * reflexivity.
      * now rewrite <- app_assoc.
    + reflexivity.
Qed.

Lemma group_NoDup (kpi_data : list KpiEntry)
  (acc : list (string * list Q) * list (string * list (string * list Q))) :
  NoDup (PyDict.keys (fst acc)) ->
  NoDup (PyDict.keys (fst (fold_left group_entry kpi_data acc))).
Proof.
  revert acc. induction kpi_data as [|e kpi_data IH]; intros acc Hnd.
  - exact Hnd.
  - cbn [fold_left]. apply IH. unfold group_entry.
    destruct (entry_kpi e) as [k|]; [|exact Hnd].
    destruct (entry_value e) as [v|]; [|exact Hnd].
    cbn [fst]. now apply NoDup_keys_set.
Qed.

(** The second loop appends the anomalies of each metric in turn. *)
Lemma analyse_anomalies (g : list (string * list Q))
  (acc : list (string * Stats) * list Anomaly) :
  snd (fold_left (analyse_metric py_median py_stdev) g acc)
  = snd acc ++ flat_map metric_anomalies g.
Proof.
  revert acc. induction g as [|[k vs] g IH]; intros acc.
  - simpl. now rewrite app_nil_r.
  - cbn [fold_left flat_map]. rewrite IH. unfold analyse_metric, metric_anomalies.
    cbn [fst snd]. destruct vs as [|v vs].
    + reflexivity.
    + cbn [snd mean stats_of]. now rewrite app_assoc.
Qed.

Lemma threshold_anomalies_kpi (name : string) (m : Q) (a : Anomaly) :
  In a (threshold_anomalies name m) -> kpi a = name.
Proof.
  unfold threshold_anomalies.
  destruct (PyDict.lookup THRESHOLDS name) as [thr|]; [|intros []].
  intros H. apply in_app_or in H as [H|H].
  - destruct (thr_min thr); [|destruct H].
    destruct (Qltb m q); [|destruct H].
    destruct H as [<-|[]]. reflexivity.
  - destruct (thr_max thr); [|destruct H].
    destruct (Qgtb m q); [|destruct H].
    destruct H as [<-|[]]. reflexivity.
Qed.

Lemma metric_anomalies_kpi (item : string * list Q) (a : Anomaly) :
  In a (metric_anomalies item) -> kpi a = fst item.
Proof.
  unfold metric_anomalies. destruct (snd item); [intros []|].
  apply threshold_anomalies_kpi.
Qed.

Lemma filter_all (name : string) (l : list Anomaly) :
  (forall a, In a l -> kpi a = name) -> filter (of_metric name) l = l.
Proof.
  induction l as [|a l IH]; intros H; simpl; trivial.
  unfold of_metric at 1. rewrite (H a) by now left.
  rewrite String.eqb_refl. f_equal. apply IH. intros b Hb. apply H. now right.
Qed.

Lemma filter_none (name : string) (l : list Anomaly) :
  (forall a, In a l -> kpi a <> name) -> filter (of_metric name) l = [].
Proof.
  induction l as [|a l IH]; intros H; simpl; trivial.
  unfold of_metric at 1.
  destruct (String.eqb_spec (kpi a) name) as [E|_].
  - exfalso. apply (H a); [now left | exact E].
  - apply IH. intros b Hb. apply H. now right.
Qed.

(** With distinct keys, the anomalies of one metric come from its entry. *)
Lemma filter_flat_map (g : list (string * list Q)) (name : string) :
  NoDup (PyDict.keys g) ->
  filter (of_metric name) (flat_map metric_anomalies g)
  = match PyDict.lookup g name with
    | Some vs => metric_anomalies (name, vs)
    | None => []
    end.
Proof.
  induction g as [|[k vs] g IH]; intros Hnd.
  - reflexivity.
  - cbn [flat_map PyDict.lookup]. rewrite filter_app.
    inversion Hnd as [|? ? Hnin Hnd']; subst.
    destruct (String.eqb_spec k name) as [->|Hne].
    + rewrite filter_all
        by (intros a Ha; apply (metric_anomalies_kpi (name, vs) a Ha)).
      rewrite IH by assumption.
      apply lookup_None_keys in Hnin. rewrite Hnin. apply app_nil_r.
    + rewrite filter_none.
      * now rewrite IH.
      * intros a Ha E. apply Hne. rewrite <- E.
        symmetry. apply (metric_anomalies_kpi (k, vs) a Ha).
Qed.

(** The anomalies of one metric in the result of [summarize_kpis]. *)
Lemma summarize_kpis_anomalies (kpi_data : list KpiEntry) (name : string) :
  filter (of_metric name)
    (snd (fst (summarize_kpis py_median py_stdev kpi_data)))
  = metric_anomalies (name, values_of name kpi_data).
Proof.
  unfold summarize_kpis.
  destruct (fold_left group_entry kpi_data ([], [])) as [g sites] eqn:Eg.
  destruct (fold_left (analyse_metric py_median py_stdev) g ([], []))
    as [ev an] eqn:Ea.
  cbn [fst snd].
  assert (Han : an = flat_map metric_anomalies g).
  { change an with (snd (ev, an)). rewrite <- Ea.
    now rewrite analyse_anomalies. }
  assert (Hg : g = fst (fold_left group_entry kpi_data ([], [])))
    by now rewrite Eg.
  rewrite Han, filter_flat_map.
  - rewrite Hg, group_lookup. cbn [fst PyDict.lookup].
    destruct (values_of name kpi_data); reflexivity.
  - rewrite Hg. apply group_NoDup. constructor.
Qed.


End Kpi.


Example rrc_samples_anomalies :
  snd (fst (KpiAnalyzer.summarize_kpis Fixtures.no_statistic
              Fixtures.no_statistic Fixtures.rrc_samples))
  = [ {| KpiAnalyzer.kpi := "RRC_Setup_Success_Rate";
         KpiAnalyzer.type := "below_threshold";
         KpiAnalyzer.value := 70%Q;
         KpiAnalyzer.threshold := 95%Q;
         KpiAnalyzer.severity := "high" |} ].
Proof. reflexivity. Qed.

(** ** The recommendations of [analyze_rca] *)

Section SortedSet.

Import RcaEngine.

Local Abbreviation lt := String_as_OT.lt.

Lemma insert_uniq_In (x y : string) (l : list string) :
  In y (insert_uniq x l) <-> y = x \/ In y l.
Proof.
  induction l as [|z l IH]; simpl.
  - intuition congruence.
  - destruct (String_as_OT.compare_spec x z) as [E|L|G]; simpl.
    + unfold String_as_OT.eq in E. subst. intuition congruence.
    + intuition congruence.
    + rewrite IH. intuition congruence.
Qed.

Lemma sorted_set_In (y : string) (l : list string) :
  In y (sorted_set l) <-> In y l.
Proof.
  induction l as [|x l IH]; simpl; [tauto|].
  rewrite insert_uniq_In, IH. intuition congruence.
Qed.

Lemma insert_uniq_HdRel (a x : string) (l : list string) :
  lt a x -> HdRel lt a l -> HdRel lt a (insert_uniq x l).
Proof.
  intros Hax Hl. destruct l as [|z l]; simpl.
  - now constructor.
  - inversion Hl; subst.
    destruct (String_as_OT.compare x z); now constructor.
Qed.

Lemma insert_uniq_Sorted (x : string) (l : list string) :
  Sorted lt l -> Sorted lt (insert_uniq x l).
Proof.
  induction 1 as [|z l Hs IH Hhd]; simpl.
  - repeat constructor.
  - destruct (String_as_OT.compare_spec x z) as [E|L|G].
    + now constructor.
    + constructor; [now constructor | now constructor].
    + constructor; [exact IH | now apply insert_uniq_HdRel].
Qed.

Lemma sorted_set_Sorted (l : list string) : Sorted lt (sorted_set l).
Proof.
  induction l as [|x l IH]; simpl; [constructor|].
  now apply insert_uniq_Sorted.
Qed.

Lemma sorted_set_StronglySorted (l : list string) :
  StronglySorted lt (sorted_set l).
Proof.
  apply Sorted_StronglySorted; [|apply sorted_set_Sorted].
  intros x y z. apply String_as_OT.lt_strorder.
Qed.

Lemma StronglySorted_NoDup (l : list string) :
  StronglySorted lt l -> NoDup l.
Proof.
  induction 1 as [|x l Hs IH Hall]; constructor; trivial.
  intros Hin. rewrite Forall_forall in Hall.
  apply (StrictOrder_Irreflexive (R := lt) x). now apply Hall.
Qed.

End SortedSet.

Section Digits.

Import PyStr.

Lemma digit_char_digit (n : N) :
  (n < 10)%N -> is_digit (digit_char n) = true /\ digit_val (digit_char n) = n.
Proof.
  intros H. destruct n as [|p]; [split; reflexivity|].
  do 4 (destruct p as [p|p|]; try lia; try (split; reflexivity)).
Qed.

Lemma is_space_digit (c : ascii) : is_digit c = true -> is_space c = false.
Proof.
  destruct c as [[] [] [] [] [] [] [] []]; intros H;
    try reflexivity; discriminate H.
Qed.

End Digits.

(** The percentage is printed as an integer part, a point and one digit. *)
Lemma format_1f_shape (x : Q) :
  exists (whole : string) (d : ascii),
    RcaEngine.format_1f x = (whole ++ "." ++ String d "")%string
    /\ PyStr.is_digit d = true
    /\ whole = ((if Qltb x 0 then "-" else "")
                ++ RcaEngine.decimal_of_Z
                     (Z.abs (RcaEngine.round_half_even (x * 10)%Q) / 10)%Z)%string.
Proof.
  unfold RcaEngine.format_1f.
  set (t := Z.abs (RcaEngine.round_half_even (x * 10)%Q)).
  eexists. eexists. split; [|split; [|reflexivity]].
  - destruct (Qltb x 0); cbn [String.append]; reflexivity.
  - apply digit_char_digit.
    pose proof (Z.mod_pos_bound t 10 ltac:(lia)). lia.
Qed.

Section Recommendations.

Import RcaEngine.

Variables py_median py_stdev : list Q -> Q.
Variable determine_root_cause :
  list (string * KpiAnalyzer.Stats) -> list KpiAnalyzer.Anomaly ->
  list (string * list (string * list Q)) -> string * string.
Variable generate_recommendations :
  string -> list (string * KpiAnalyzer.Stats) -> list KpiAnalyzer.Anomaly ->
  list string.

Local Abbreviation analyze :=
  (analyze_rca py_median py_stdev determine_root_cause
     generate_recommendations).
Local Abbreviation baseline :=
  (baseline_recommendations py_median py_stdev determine_root_cause
     generate_recommendations).

Lemma analyze_rca_recommendations kpi_data als bs ats :
  kpi_data <> [] ->
  recommendations (analyze kpi_data als bs ats)
  = sorted_set (baseline kpi_data ++ _extra_recommendations als bs ats).
Proof.
  intros Hne. unfold analyze_rca, baseline_recommendations.
  destruct kpi_data as [|e kpi_data]; [congruence|].
  destruct (KpiAnalyzer.summarize_kpis _ _ _) as [[ev an] sites].
  destruct (determine_root_cause ev an sites) as [rc sev].
  destruct (_combine_with_additional_signals _ _ _ _ _ _).
  reflexivity.
Qed.

(** When each block of [_extra_recommendations] adds its strings. *)
Lemma extra_recommendations_triggers als bs ats :
  (alarm_recommendations als <> [] <->
   exists a, als = Some a /\ 0 < AlarmAnalyzer.total_count a)
  /\ (backhaul_recommendations bs <> [] <->
      exists b, bs = Some b
                /\ (5 # 10 < BackhaulAnalyzer.impairment_score b)%Q)
  /\ (attach_recommendations ats <> [] <->
      exists a s, ats = Some a
                  /\ AttachAnalyzer.overall_attach_success_rate a = Some s
                  /\ (s < 95)%Q).
Proof.
  split; [|split].
  - unfold alarm_recommendations. destruct als as [a|].
    + destruct (0 <? AlarmAnalyzer.total_count a) eqn:E.
      * apply Nat.ltb_lt in E. split; [|discriminate].
        intros _. now exists a.
      * apply Nat.ltb_ge in E. split; [congruence|].
        intros [a' [[= <-] H]]. lia.
    + split; [congruence|]. intros [a [H _]]. discriminate.
  - unfold backhaul_recommendations. destruct bs as [b|].
    + unfold Qgtb. destruct (Qltb _ _) eqn:E.
      * apply Qltb_lt in E. split; [|discriminate].
        intros _. now exists b.
      * apply Qltb_ge in E. split; [congruence|].
        intros [b' [[= <-] H]]. exfalso. exact (Qlt_not_le _ _ H E).
    + split; [congruence|]. intros [b [H _]]. discriminate.
  - unfold attach_recommendations. destruct ats as [a|].
    + destruct (AttachAnalyzer.overall_attach_success_rate a) as [s|] eqn:Es.
      * destruct (Qltb s 95) eqn:E.
        -- apply Qltb_lt in E. split; [|discriminate].
           intros _. now exists a, s.
        -- apply Qltb_ge in E. split; [congruence|].
           intros [a' [s' [[= <-] [Hs H]]]].
           rewrite Es in Hs. injection Hs as <-.
           exfalso. exact (Qlt_not_le _ _ H E).
      * split; [congruence|].
        intros [a' [s' [[= <-] [Hs _]]]]. congruence.
    + split; [congruence|]. intros [a [s [H _]]]. discriminate.
Qed.



End Recommendations.


Example recommendations_example :
  RcaEngine.recommendations
    (RcaEngine.analyze_rca Fixtures.no_statistic Fixtures.no_statistic
       Fixtures.quiet_root_cause Fixtures.quiet_recommendations
       Fixtures.rrc_samples (Some Fixtures.two_critical) None
       (Some (Fixtures.attach_with (875 # 10) "TAC")))
  = ["Continue monitoring";
     "Investigate attach failures; overall attach success rate is 87.5%.";
     "Review active CRITICAL/MAJOR alarms in ENM for impacted MOs.";
     "Verify TAC assignment and mobility configuration for affected cells.";
     "Verify whether alarms coincide with KPI degradation periods."].
Proof. reflexivity. Qed.

(** ** The timestamps of [_parse_timestamp] *)

Section Timestamps.
Import PyStr PyDatetime AlarmAnalyzer.
Local Open Scope N_scope.

Lemma digit_mod (n : N) :
  is_digit (digit_char (n mod 10)) = true
  /\ digit_val (digit_char (n mod 10)) = n mod 10.
Proof. apply digit_char_digit. apply N.mod_lt. discriminate. Qed.

Lemma decimal4 (y q1 q2 q3 q4 r0 r1 r2 r3 : N) :
  y = 10 * q1 + r0 -> q1 = 10 * q2 + r1 -> q2 = 10 * q3 + r2 ->
  q3 = 10 * q4 + r3 -> y <= 9999 ->
  1000 * r3 + 100 * r2 + 10 * r1 + r0 = y.
Proof. lia. Qed.

Lemma decimal6 (f q1 q2 q3 q4 q5 q6 r0 r1 r2 r3 r4 r5 : N) :
  f = 10 * q1 + r0 -> q1 = 10 * q2 + r1 -> q2 = 10 * q3 + r2 ->
  q3 = 10 * q4 + r3 -> q4 = 10 * q5 + r4 -> q5 = 10 * q6 + r5 ->
  f <= 999999 ->
  r5 * 100000 + r4 * 10000 + r3 * 1000 + r2 * 100 + r1 * 10 + r0 * 1 = f.
Proof. lia. Qed.

Lemma year_ok y rest : y <= 9999 ->
  match_directive dY
    (String (digit_char (y / 10 / 10 / 10 mod 10))
       (String (digit_char (y / 10 / 10 mod 10))
          (String (digit_char (y / 10 mod 10))
             (String (digit_char (y mod 10)) rest))))
  = Some (y, rest).
Proof.
  intros H. cbn [match_directive four_digits].
  destruct (digit_mod (y / 10 / 10 / 10)) as [a1 a2].
  destruct (digit_mod (y / 10 / 10)) as [b1 b2].
  destruct (digit_mod (y / 10)) as [c1 c2].
  destruct (digit_mod y) as [d1 d2].
  rewrite a1, a2, b1, b2, c1, c2, d1, d2. cbn [andb].
  f_equal. f_equal.
  apply (decimal4 y (y / 10) (y / 10 / 10) (y / 10 / 10 / 10)
           (y / 10 / 10 / 10 / 10)); trivial;
    apply N.div_mod; discriminate.
Qed.

Lemma month_ok n rest : 1 <= n <= 12 ->
  match_directive dm (String (digit_char (n / 10 mod 10)) (String (digit_char (n mod 10)) rest)) = Some (n, rest).
Proof.
  intros H. destruct n as [|p]; [lia|].
  do 4 (destruct p as [p|p|]; try lia; try reflexivity).
Qed.

Lemma day_ok n rest : 1 <= n <= 31 ->
  match_directive dd (String (digit_char (n / 10 mod 10)) (String (digit_char (n mod 10)) rest)) = Some (n, rest).
Proof.
  intros H. destruct n as [|p]; [lia|].
  do 5 (destruct p as [p|p|]; try lia; try reflexivity).
Qed.

Lemma hour_ok n rest : n <= 23 ->
  match_directive dH (String (digit_char (n / 10 mod 10)) (String (digit_char (n mod 10)) rest)) = Some (n, rest).
Proof.
  intros H. destruct n as [|p]; [reflexivity|].
  do 5 (destruct p as [p|p|]; try lia; try reflexivity).
Qed.

Lemma minute_ok n rest : n <= 59 ->
  match_directive dM (String (digit_char (n / 10 mod 10)) (String (digit_char (n mod 10)) rest)) = Some (n, rest).
Proof.
  intros H. destruct n as [|p]; [reflexivity|].
  do 6 (destruct p as [p|p|]; try lia; try reflexivity).
Qed.

Lemma second_ok n rest : n <= 59 ->
  match_directive dS (String (digit_char (n / 10 mod 10)) (String (digit_char (n mod 10)) rest)) = Some (n, rest).
Proof.
  intros H. destruct n as [|p]; [reflexivity|].
  do 6 (destruct p as [p|p|]; try lia; try reflexivity).
Qed.

Lemma fraction_ok f : f <= 999999 ->
  match_directive df
    (String (digit_char (f / 10 / 10 / 10 / 10 / 10 mod 10))
       (String (digit_char (f / 10 / 10 / 10 / 10 mod 10))
          (String (digit_char (f / 10 / 10 / 10 mod 10))
             (String (digit_char (f / 10 / 10 mod 10))
                (String (digit_char (f / 10 mod 10))
                   (String (digit_char (f mod 10)) ""))))))
  = Some (f, "").
Proof.
  intros H. cbn [match_directive fraction fraction_digits].
  destruct (digit_mod (f / 10 / 10 / 10 / 10 / 10)) as [a1 a2].
  destruct (digit_mod (f / 10 / 10 / 10 / 10)) as [b1 b2].
  destruct (digit_mod (f / 10 / 10 / 10)) as [c1 c2].
  destruct (digit_mod (f / 10 / 10)) as [d1 d2].
  destruct (digit_mod (f / 10)) as [e1 e2].
  destruct (digit_mod f) as [g1 g2].
  rewrite a1, a2, b1, b2, c1, c2, d1, d2, e1, e2, g1, g2.
  f_equal. f_equal.
  clear a1 a2 b1 b2 c1 c2 d1 d2 e1 e2 g1 g2.
  change (10 ^ N.of_nat 5) with 100000.
  change (10 ^ N.of_nat 4) with 10000.
  change (10 ^ N.of_nat 3) with 1000.
  change (10 ^ N.of_nat 2) with 100.
  change (10 ^ N.of_nat 1) with 10.
  change (10 ^ N.of_nat 0) with 1.
  rewrite N.add_0_l.
  apply (decimal6 f (f / 10) (f / 10 / 10) (f / 10 / 10 / 10)
           (f / 10 / 10 / 10 / 10) (f / 10 / 10 / 10 / 10 / 10)
           (f / 10 / 10 / 10 / 10 / 10 / 10)); trivial;
    apply N.div_mod; discriminate.
Qed.


Lemma valid_bounds d : valid d = true ->
  1 <= year d <= 9999 /\ 1 <= month d <= 12 /\ 1 <= day d <= 31
  /\ hour d <= 23 /\ minute d <= 59 /\ second d <= 59
  /\ microsecond d <= 999999.
Proof.
  unfold valid. rewrite !andb_true_iff, !N.leb_le.
  intros H.
  assert (days_in_month (year d) (month d) <= 31).
  { unfold days_in_month.
    repeat match goal with |- context [if ?b then _ else _] => destruct b end;
      lia. }
  lia.
Qed.

Lemma run_directive dir fmt s f n rest :
  match_directive dir s = Some (n, rest) ->
  run (Directive dir :: fmt) s f = run fmt rest (store dir n f).
Proof. intros H. cbn [run]. now rewrite H. Qed.

Lemma run_literal c fmt s f :
  run (Literal c :: fmt) (String c s) f = run fmt s f.
Proof. cbn [run]. now rewrite Ascii.eqb_refl. Qed.

Lemma run_literal_other c a fmt s f :
  Ascii.eqb (lower_char a) (lower_char c) = false ->
  run (Literal c :: fmt) (String a s) f = None.
Proof. intros H. cbn [run]. now rewrite H. Qed.

Lemma lstrip_digit n s :
  lstrip (String (digit_char (n mod 10)) s) = String (digit_char (n mod 10)) s.
Proof.
  cbn [lstrip]. now rewrite (is_space_digit _ (proj1 (digit_mod n))).
Qed.

Lemma string_app_nil_r (s : string) : (s ++ "")%string = s.
Proof. induction s as [|c s IH]; simpl; congruence. Qed.

(** The date part of a literal, read by [%Y], [%m] and [%d]. *)
Lemma run_date (c : ascii) fmt rest f d :
  valid d = true ->
  run (Directive dY :: Literal c :: Directive dm :: Literal c
         :: Directive dd :: fmt)
      (render_date (String c "") d ++ rest) f
  = run fmt rest (store dd (day d) (store dm (month d) (store dY (year d) f))).
Proof.
  intros Hv. pose proof (valid_bounds d Hv) as B.
  unfold render_date. cbn [zpad String.append].
  rewrite (run_directive dY _ _ _ _ _ (year_ok (year d) _ ltac:(lia))), run_literal.
  rewrite (run_directive dm _ _ _ _ _ (month_ok (month d) _ ltac:(lia))), run_literal.
  now rewrite (run_directive dd _ _ _ _ _ (day_ok (day d) _ ltac:(lia))).
Qed.

(** The time part, read by [%H:%M:%S]. *)
Lemma run_time fmt rest f d :
  valid d = true ->
  run (Directive dH :: Literal ":" :: Directive dM :: Literal ":"
         :: Directive dS :: fmt)
      (render_time d ++ rest) f
  = run fmt rest
      (store dS (second d) (store dM (minute d) (store dH (hour d) f))).
Proof.
  intros Hv. pose proof (valid_bounds d Hv) as B.
  unfold render_time. cbn [zpad String.append].
  rewrite (run_directive dH _ _ _ _ _ (hour_ok (hour d) _ ltac:(lia))), run_literal.
  rewrite (run_directive dM _ _ _ _ _ (minute_ok (minute d) _ ltac:(lia))), run_literal.
  now rewrite (run_directive dS _ _ _ _ _ (second_ok (second d) _ ltac:(lia))).
Qed.

Lemma make_carried l d : valid d = true -> make (carried l d) = Some (carried l d).
Proof.
  intros Hv. unfold make.
  assert (H : valid (carried l d) = true).
  { destruct l; trivial; unfold valid in *; cbn [carried year month day hour minute second microsecond];
    rewrite !andb_true_iff in *; intuition. }
  now rewrite H.
Qed.

Lemma strptime_iso_seconds d :
  valid d = true ->
  strptime (render IsoSeconds d) "%Y-%m-%dT%H:%M:%S"
  = Some (carried IsoSeconds d).
Proof.
  intros Hv. unfold strptime.
  change (compile "%Y-%m-%dT%H:%M:%S") with
    (Some [Directive dY; Literal "-"; Directive dm; Literal "-"; Directive dd;
           Literal "T"; Directive dH; Literal ":"; Directive dM; Literal ":";
           Directive dS]).
  unfold render. rewrite (run_date "-") by assumption.
  cbn [String.append]. rewrite run_literal.
  rewrite <- (string_app_nil_r (render_time d)), run_time by assumption.
  cbn [run store year month day hour minute second microsecond found0].
  apply (make_carried IsoSeconds d Hv).
Qed.

Lemma run_whitespace fmt s f :
  run (Whitespace :: fmt) (String " " s) f = run fmt (lstrip s) f.
Proof. reflexivity. Qed.

Lemma lstrip_render_time d rest :
  lstrip (render_time d ++ rest) = (render_time d ++ rest)%string.
Proof.
  unfold render_time. cbn [zpad String.append]. apply lstrip_digit.
Qed.

Lemma compile_formats :
  compile "%Y-%m-%dT%H:%M:%S"
  = Some [Directive dY; Literal "-"; Directive dm; Literal "-"; Directive dd;
     Literal "T"; Directive dH; Literal ":"; Directive dM; Literal ":";
     Directive dS]
  /\ compile "%Y-%m-%dT%H:%M:%S.%f"
     = Some [Directive dY; Literal "-"; Directive dm; Literal "-"; Directive dd;
        Literal "T"; Directive dH; Literal ":"; Directive dM; Literal ":";
        Directive dS; Literal "."; Directive df]
  /\ compile "%Y-%m-%d %H:%M:%S"
     = Some [Directive dY; Literal "-"; Directive dm; Literal "-"; Directive dd;
        Whitespace; Directive dH; Literal ":"; Directive dM; Literal ":";
        Directive dS]
  /\ compile "%Y/%m/%d %H:%M:%S"
     = Some [Directive dY; Literal "/"; Directive dm; Literal "/"; Directive dd;
        Whitespace; Directive dH; Literal ":"; Directive dM; Literal ":";
        Directive dS].
Proof. repeat split. Qed.

Lemma strptime_iso_fraction d :
  valid d = true ->
  strptime (render IsoFraction d) "%Y-%m-%dT%H:%M:%S" = None
  /\ strptime (render IsoFraction d) "%Y-%m-%dT%H:%M:%S.%f" = Some d.
Proof.
  intros Hv. pose proof (valid_bounds d Hv) as B.
  destruct compile_formats as [C1 [C2 _]].
  unfold strptime. rewrite C1, C2. unfold render.
  rewrite !(run_date "-") by assumption.
  cbn [String.append]. rewrite !run_literal, !run_time by assumption.
  split; [reflexivity|].
  rewrite run_literal. cbn [zpad String.append].
  rewrite (run_directive df _ _ _ _ _
             (fraction_ok (microsecond d) ltac:(lia))).
  cbn [run store year month day hour minute second microsecond found0].
  destruct d. apply (make_carried IsoFraction _ Hv).
Qed.

Lemma strptime_space_separated d :
  valid d = true ->
  strptime (render SpaceSeparated d) "%Y-%m-%dT%H:%M:%S" = None
  /\ strptime (render SpaceSeparated d) "%Y-%m-%dT%H:%M:%S.%f" = None
  /\ strptime (render SpaceSeparated d) "%Y-%m-%d %H:%M:%S"
     = Some (carried SpaceSeparated d).
Proof.
  intros Hv. destruct compile_formats as [C1 [C2 [C3 _]]].
  unfold strptime. rewrite C1, C2, C3. unfold render.
  rewrite !(run_date "-") by assumption.
  cbn [String.append].
  rewrite !run_literal_other by reflexivity.
  split; [reflexivity|]. split; [reflexivity|].
  rewrite run_whitespace.
  rewrite <- (string_app_nil_r (render_time d)).
  rewrite lstrip_render_time, run_time by assumption.
  cbn [run store year month day hour minute second microsecond found0].
  apply (make_carried SpaceSeparated d Hv).
Qed.

Lemma run_year_then_other (c a : ascii) fmt rest f d :
  valid d = true ->
  Ascii.eqb (lower_char a) (lower_char c) = false ->
  run (Directive dY :: Literal c :: fmt)
      (render_date (String a "") d ++ rest) f = None.
Proof.
  intros Hv Hc. pose proof (valid_bounds d Hv) as B.
  unfold render_date. cbn [zpad String.append].
  rewrite (run_directive dY _ _ _ _ _ (year_ok (year d) _ ltac:(lia))).
  now apply run_literal_other.
Qed.

Lemma strptime_slash_separated d :
  valid d = true ->
  strptime (render SlashSeparated d) "%Y-%m-%dT%H:%M:%S" = None
  /\ strptime (render SlashSeparated d) "%Y-%m-%dT%H:%M:%S.%f" = None
  /\ strptime (render SlashSeparated d) "%Y-%m-%d %H:%M:%S" = None
  /\ strptime (render SlashSeparated d) "%Y/%m/%d %H:%M:%S"
     = Some (carried SlashSeparated d).
Proof.
  intros Hv. destruct compile_formats as [C1 [C2 [C3 C4]]].
  unfold strptime. rewrite C1, C2, C3, C4. unfold render.
  rewrite !(run_year_then_other "-" "/") by (trivial; reflexivity).
  split; [reflexivity|]. split; [reflexivity|]. split; [reflexivity|].
  rewrite (run_date "/") by assumption.
  cbn [String.append]. rewrite run_whitespace.
  rewrite <- (string_app_nil_r (render_time d)).
  rewrite lstrip_render_time, run_time by assumption.
  cbn [run store year month day hour minute second microsecond found0].
  apply (make_carried SlashSeparated d Hv).
Qed.

(** The loop over the formats on a literal of each layout. *)
Lemma first_parse_render l d :
  valid d = true ->
  first_parse (render l d) TIMESTAMP_FORMATS = Some (carried l d).
Proof.
  intros Hv. unfold TIMESTAMP_FORMATS. cbn [first_parse]. destruct l.
  - now rewrite (strptime_iso_seconds d Hv).
  - destruct (strptime_iso_fraction d Hv) as [H1 H2]. now rewrite H1, H2.
  - destruct (strptime_space_separated d Hv) as [H1 [H2 H3]].
    now rewrite H1, H2, H3.
  - destruct (strptime_slash_separated d Hv) as [H1 [H2 [H3 H4]]].
    now rewrite H1, H2, H3, H4.
Qed.

Lemma rstrip_id (s : string) :
  is_space (last_char s) = false -> rstrip s = s.
Proof.
  induction s as [|c s IH]; cbn [last_char].
  - discriminate.
  - destruct s as [|c' s'].
    + intros H. cbn [rstrip]. now rewrite H.
    + intros H. specialize (IH H). cbn [rstrip] in IH |- *.
      now rewrite IH.
Qed.

Lemma strip_trailing_Z_id (s : string) :
  Ascii.eqb (last_char s) "Z" = false -> strip_trailing_Z s = s.
Proof.
  induction s as [|c s IH]; cbn [last_char]; trivial.
  destruct s as [|c' s'].
  - intros H. cbn [strip_trailing_Z]. now rewrite H.
  - intros H. specialize (IH H). cbn [strip_trailing_Z] in IH |- *.
    now rewrite IH.
Qed.

Lemma strip_trailing_Z_app (s : string) :
  strip_trailing_Z (s ++ "Z") = s.
Proof.
  induction s as [|c s IH]; trivial.
  cbn [String.append strip_trailing_Z].
  destruct (s ++ "Z")%string eqn:E.
  - destruct s; discriminate.
  - now rewrite IH.
Qed.

Lemma last_char_app (s : string) (c : ascii) :
  last_char (s ++ String c "") = c.
Proof.
  induction s as [|a s IH]; trivial.
  cbn [String.append last_char].
  destruct (s ++ String c "")%string eqn:E.
  - destruct s; discriminate.
  - exact IH.
Qed.

Lemma not_Z_digit (c : ascii) : is_digit c = true -> Ascii.eqb c "Z" = false.
Proof.
  destruct c as [[] [] [] [] [] [] [] []]; intros H;
    try reflexivity; discriminate H.
Qed.

(** A literal of a layout starts and ends with a digit. *)
Lemma render_ends l d :
  exists n m s,
    render l d = String (digit_char (n mod 10)) s
    /\ last_char (render l d) = digit_char (m mod 10).
Proof.
  destruct l; unfold render, render_date, render_time;
    cbn [zpad String.append last_char]; eauto.
Qed.

Lemma strip_render l d : strip (render l d) = render l d.
Proof.
  destruct (render_ends l d) as [n [m [s [H1 H2]]]].
  unfold strip. rewrite H1 at 1. rewrite lstrip_digit, <- H1.
  apply rstrip_id. rewrite H2.
  apply is_space_digit, digit_mod.
Qed.

Lemma strip_render_Z l d :
  strip (render l d ++ "Z") = (render l d ++ "Z")%string.
Proof.
  destruct (render_ends l d) as [n [m [s [H1 _]]]].
  unfold strip. rewrite H1 at 1. cbn [String.append].
  rewrite lstrip_digit. change (String (digit_char (n mod 10)) (s ++ "Z"))
    with (String (digit_char (n mod 10)) s ++ "Z")%string.
  rewrite <- H1. apply rstrip_id. now rewrite last_char_app.
Qed.

Lemma isoformat_render d :
  isoformat d = render (if microsecond d =? 0 then IsoSeconds else IsoFraction) d
  /\ carried (if microsecond d =? 0 then IsoSeconds else IsoFraction) d = d.
Proof.
  unfold isoformat. destruct (microsecond d =? 0) eqn:E.
  - apply N.eqb_eq in E. split.
    + unfold render, render_date, render_time.
      cbn [zpad String.append]. reflexivity.
    + destruct d. cbn in E |- *. now subst.
  - split; [|reflexivity].
    unfold render, render_date, render_time.
    cbn [zpad String.append]. reflexivity.
Qed.

Lemma strptime_valid value fmt d :
  strptime value fmt = Some d -> valid d = true.
Proof.
  unfold strptime, make.
  destruct (compile fmt) as [items|]; [|discriminate].
  destruct (run items value found0) as [[f [|c rest]]|];
    try discriminate.
  destruct (valid f) eqn:E; [|discriminate]. now intros [= <-].
Qed.

Lemma first_parse_valid value formats d :
  first_parse value formats = Some d -> valid d = true.
Proof.
  induction formats as [|fmt formats IH]; cbn [first_parse]; [discriminate|].
  destruct (strptime value fmt) as [d'|] eqn:E; [|exact IH].
  intros [= <-]. exact (strptime_valid _ _ _ E).
Qed.

Section Clock.

Variable utcnow : datetime.

Lemma parse_timestamp_render l d :
  valid d = true ->
  _parse_timestamp utcnow (render l d) = isoformat (carried l d).
Proof.
  intros Hv. unfold _parse_timestamp.
  destruct (render_ends l d) as [n [m [s [H1 H2]]]].
  rewrite H1 at 1. cbn [truthy negb]. rewrite strip_render.
  rewrite strip_trailing_Z_id.
  - now rewrite first_parse_render.
  - rewrite H2. apply not_Z_digit, digit_mod.
Qed.

Lemma parse_timestamp_render_Z l d :
  valid d = true ->
  _parse_timestamp utcnow (render l d ++ "Z") = isoformat (carried l d).
Proof.
  intros Hv. unfold _parse_timestamp.
  destruct (render_ends l d) as [n [m [s [H1 H2]]]].
  rewrite H1 at 1. cbn [String.append truthy negb].
  rewrite strip_render_Z, strip_trailing_Z_app.
  now rewrite first_parse_render.
Qed.


End Clock.
End Timestamps.


Example parse_timestamp_examples :
  AlarmAnalyzer._parse_timestamp Fixtures.clock "2025-01-01 12:00:00"
  = "2025-01-01T12:00:00"
  /\ AlarmAnalyzer._parse_timestamp Fixtures.clock " 2025-01-01t12:00:00.5Z "
     = "2025-01-01T12:00:00.500000"
  /\ AlarmAnalyzer._parse_timestamp Fixtures.clock "2025/1/5 3:4:5"
     = "2025-01-05T03:04:05"
  /\ AlarmAnalyzer._parse_timestamp Fixtures.clock "2025-02-30T12:00:00"
     = "2026-11-04T08:30:00"
  /\ AlarmAnalyzer._parse_timestamp Fixtures.clock "" = "2026-11-04T08:30:00".
Proof. repeat split. Qed.

(** * Further properties of the analysers *)

(** ** Counting dictionaries *)

Section Tallies.

Import AlarmAnalyzer.

Lemma get_bump (d : list (string * nat)) (k k' : string) :
  PyDict.get (bump d k) k' 0
  = PyDict.get d k' 0 + (if String.eqb k k' then 1 else 0).
Proof.
  unfold bump. rewrite get_set.
  destruct (String.eqb_spec k k') as [->|Hne]; lia.
Qed.

Lemma get_fold_bump (ks : list string) (d : list (string * nat)) (k : string) :
  PyDict.get (fold_left bump ks d) k 0 = PyDict.get d k 0 + occurrences k ks.
Proof.
  revert d. induction ks as [|k0 ks IH]; intros d; cbn [fold_left].
  - unfold occurrences. simpl. lia.
  - rewrite IH, get_bump. unfold occurrences. cbn [count_occ].
    destruct (string_dec k0 k) as [->|Hne].
    + rewrite String.eqb_refl. lia.
    + apply String.eqb_neq in Hne. rewrite Hne. lia.
Qed.

Lemma positive_set (d : list (string * nat)) k v :
  positive d -> 0 < v -> positive (PyDict.set d k v).
Proof.
  unfold positive. induction d as [|[k0 v0] d IH]; intros Hd Hv; cbn [PyDict.set].
  - repeat constructor. exact Hv.
  - inversion Hd; subst. destruct (String.eqb k0 k).
    + constructor; assumption.
    + constructor; [assumption | now apply IH].
Qed.

Lemma positive_fold_bump (ks : list string) (d : list (string * nat)) :
  positive d -> positive (fold_left bump ks d).
Proof.
  revert d. induction ks as [|k ks IH]; intros d Hd; cbn [fold_left]; trivial.
  apply IH. unfold bump. apply positive_set; [assumption | lia].
Qed.

Lemma NoDup_fold_bump (ks : list string) (d : list (string * nat)) :
  NoDup (PyDict.keys d) -> NoDup (PyDict.keys (fold_left bump ks d)).
Proof.
  revert d. induction ks as [|k ks IH]; intros d Hd; cbn [fold_left]; trivial.
  apply IH. unfold bump. now apply NoDup_keys_set.
Qed.

Lemma positive_lookup (d : list (string * nat)) k v :
  positive d -> PyDict.lookup d k = Some v -> 0 < v.
Proof.
  intros Hd Hl. apply lookup_In in Hl.
  unfold positive in Hd. rewrite Forall_forall in Hd. exact (Hd _ Hl).
Qed.

(** In a dictionary of distinct keys, the entries are the lookups. *)
Lemma In_lookup {V} (d : list (string * V)) k v :
  NoDup (PyDict.keys d) -> In (k, v) d -> PyDict.lookup d k = Some v.
Proof.
  induction d as [|[k0 v0] d IH]; intros Hnd Hin; [destruct Hin|].
  cbn [PyDict.keys map fst] in Hnd. inversion Hnd as [|? ? Hnin Hnd']; subst.
  cbn [PyDict.lookup]. destruct Hin as [[= -> ->]|Hin].
  - now rewrite String.eqb_refl.
  - destruct (String.eqb_spec k0 k) as [->|Hne].
    + exfalso. apply Hnin. change k with (fst (k, v)). now apply in_map.
    + now apply IH.
Qed.

(** The entries of a dictionary of counters built from a list of keys. *)
Lemma fold_bump_entries (ks : list string) (k : string) (n : nat) :
  In (k, n) (fold_left bump ks []) <-> 0 < n /\ n = occurrences k ks.
Proof.
  pose proof (get_fold_bump ks [] k) as Hg.
  pose proof (positive_fold_bump ks [] (Forall_nil _)) as Hp.
  pose proof (NoDup_fold_bump ks [] (NoDup_nil _)) as Hn.
  change (PyDict.get [] k 0) with 0 in Hg. cbn [Nat.add] in Hg.
  unfold PyDict.get in Hg. split.
  - intros Hin. pose proof (In_lookup _ _ _ Hn Hin) as Hl.
    rewrite Hl in Hg. split; [exact (positive_lookup _ _ _ Hp Hl) | exact Hg].
  - intros [Hpos ->]. apply lookup_In.
    destruct (PyDict.lookup (fold_left bump ks []) k) as [v|]; [congruence|lia].
Qed.

(** The three dictionaries of the loop, each from its own keys. *)
Lemma tally_projections (hour_bucket : string -> string)
  (records : list AlarmRecord) (t : Tally) :
  let t' := fold_left (tally_record hour_bucket) records t in
  t_by_severity t' = fold_left bump (map severity_key records) (t_by_severity t)
  /\ t_by_mo t' = fold_left bump (map mo_key records) (t_by_mo t)
  /\ t_timeline t'
     = fold_left bump (map (bucket_key hour_bucket) records) (t_timeline t).
Proof.
  revert t. induction records as [|r records IH]; intros t; cbn [fold_left map].
  - auto.
  - destruct (IH (tally_record hour_bucket t r)) as [H1 [H2 H3]].
    cbv zeta. rewrite H1, H2, H3. auto.
Qed.


Lemma lookup_fold_bump (ks : list string) (k : string) :
  PyDict.lookup (fold_left bump ks []) k
  = if 0 <? occurrences k ks then Some (occurrences k ks) else None.
Proof.
  pose proof (get_fold_bump ks [] k) as Hg.
  pose proof (positive_fold_bump ks [] (Forall_nil _)) as Hp.
  change (PyDict.get [] k 0) with 0 in Hg. cbn [Nat.add] in Hg.
  unfold PyDict.get in Hg.
  destruct (PyDict.lookup (fold_left bump ks []) k) as [v|] eqn:E.
  - pose proof (positive_lookup _ _ _ Hp E) as Hv. rewrite <- Hg.
    apply Nat.ltb_lt in Hv. now rewrite Hv.
  - now rewrite <- Hg.
Qed.

Lemma sorted_items_In (x : string * nat) (l : list (string * nat)) :
  In x (sorted_items l) <-> In x l.
Proof.
  assert (Hins : forall y l', In x (insert_item y l') <-> x = y \/ In x l').
  { intros y l'. induction l' as [|z l' IH]; cbn [insert_item].
    - simpl. intuition congruence.
    - destruct (String.leb (fst y) (fst z)); simpl in *; intuition congruence. }
  induction l as [|y l IH]; [reflexivity|].
  unfold sorted_items. cbn [fold_right]. fold (sorted_items l).
  rewrite Hins, IH. simpl. intuition congruence.
Qed.

Lemma insert_item_Sorted (x : string * nat) (l : list (string * nat)) :
  Sorted key_le l -> Sorted key_le (insert_item x l).
Proof.
  induction 1 as [|z l Hs IH Hhd]; cbn [insert_item].
  - repeat constructor.
  - destruct (String.leb (fst x) (fst z)) eqn:E.
    + constructor; [now constructor | now constructor].
    + constructor; [exact IH|].
      assert (Hzx : key_le z x).
      { destruct (String.leb_total (fst x) (fst z)) as [H|H];
          [congruence | exact H]. }
      destruct l as [|w l]; cbn [insert_item].
      * now constructor.
      * inversion Hhd; subst.
        destruct (String.leb (fst x) (fst w)); now constructor.
Qed.

Lemma sorted_items_Sorted (l : list (string * nat)) :
  Sorted key_le (sorted_items l).
Proof.
  induction l as [|x l IH]; [constructor|].
  unfold sorted_items. cbn [fold_right]. now apply insert_item_Sorted.
Qed.

End Tallies.

(** ** The summary of [summarize_alarms] *)

Section AlarmSummaryFacts.

Import AlarmAnalyzer.

Variable hour_bucket : string -> string.

(** X1: the summary counts every record once under its managed object and
    once under its hour: the total is the number of records, the counts by
    managed object and the counts of the timeline each add up to it, and
    the sample holds the first 200 records, so never more than 200. *)
Theorem alarm_summary_totals (records : list AlarmRecord) :
  let s := summarize_alarms hour_bucket records in
  total_count s = List.length records
  /\ RcaEngine.count_sum (by_mo s) = List.length records
  /\ RcaEngine.count_sum (timeline s) = List.length records
  /\ match sample s with
     | Some shown => shown = firstn 200 records /\ List.length shown <= 200
     | None => records = []
     end.
Proof.
  destruct (summarize_alarms_counts hour_bucket records)
    as [H1 [H2 [H3 [_ H5]]]].
  cbv zeta. rewrite H2, H3, H1. repeat split.
  destruct records as [|r records]; [reflexivity|].
  rewrite H5 by discriminate.
  split; [reflexivity | apply firstn_le_length].
Qed.

(** X2: the counts by severity list the severities of [SEVERITY_ORDER] in
    that order, each with the number of records that carry it (an empty
    severity counting as INDETERMINATE), and leave out those that no record
    carries. *)
Theorem alarm_summary_by_severity (records : list AlarmRecord) :
  by_severity (summarize_alarms hour_bucket records)
  = flat_map (fun sev =>
                let n := occurrences sev (map severity_key records) in
                if 0 <? n then [(sev, n)] else [])
      SEVERITY_ORDER.
Proof.
  destruct records as [|r records]; [reflexivity|].
  unfold summarize_alarms. cbn [by_severity].
  destruct (tally_projections hour_bucket (r :: records) (mkTally [] [] []))
    as [H1 _].
  cbv zeta in H1. rewrite H1. cbn [t_by_severity].
  unfold ordered_severity, picked. apply flat_map_ext. intros sev.
  rewrite lookup_fold_bump.
  destruct (0 <? occurrences sev (map severity_key (r :: records)));
    reflexivity.
Qed.

(** X3: the counts by managed object have one entry per managed object
    that occurs, holding the number of its records; a record without a
    managed object counts under UNKNOWN. *)
Theorem alarm_summary_by_mo (records : list AlarmRecord)
  (m : string) (n : nat) :
  let s := summarize_alarms hour_bucket records in
  (In (m, n) (by_mo s) <->
   0 < n /\ n = occurrences m (map mo_key records))
  /\ NoDup (PyDict.keys (by_mo s)).
Proof.
  destruct records as [|r records].
  - simpl. split; [|constructor]. unfold occurrences. simpl. lia.
  - cbv zeta. unfold summarize_alarms. cbn [by_mo].
    destruct (tally_projections hour_bucket (r :: records) (mkTally [] [] []))
      as [_ [H2 _]].
    cbv zeta in H2. rewrite H2. cbn [t_by_mo]. split.
    + apply fold_bump_entries.
    + apply NoDup_fold_bump. constructor.
Qed.

(** X4: the timeline is in ascending order of the hour, and has one entry
    per hour in which a record falls, holding the number of its records. *)
Theorem alarm_summary_timeline (records : list AlarmRecord)
  (b : string) (n : nat) :
  let s := summarize_alarms hour_bucket records in
  Sorted key_le (timeline s)
  /\ (In (b, n) (timeline s) <->
      0 < n /\ n = occurrences b (map (bucket_key hour_bucket) records)).
Proof.
  destruct records as [|r records].
  - simpl. split; [constructor|]. unfold occurrences. simpl. lia.
  - cbv zeta. unfold summarize_alarms. cbn [timeline].
    destruct (tally_projections hour_bucket (r :: records) (mkTally [] [] []))
      as [_ [_ H3]].
    cbv zeta in H3. rewrite H3. cbn [t_timeline]. split.
    + apply sorted_items_Sorted.
    + rewrite sorted_items_In. apply fold_bump_entries.
Qed.

End AlarmSummaryFacts.

(** ** The summary of [summarize_attach] *)

Section AttachSummaryFacts.

Import AttachAnalyzer.

Lemma percentage_lt (s n k : nat) :
  0 < n ->
  ((percentage s n < inject_Z (Z.of_nat k))%Q <-> 100 * s < k * n).
Proof.
  intros Hn. unfold percentage, BackhaulAnalyzer.Qnat.
  destruct n as [|n]; [lia|].
  unfold Qlt, Qdiv, Qmult, Qinv, inject_Z. cbn [Qnum Qden].
  rewrite Nat2Z.inj_succ. unfold Z.succ.
  destruct (Z.of_nat n + 1)%Z eqn:E; try lia.
  cbn [Qnum Qden]. lia.
Qed.

Lemma percentage_range (s n : nat) :
  0 < n -> s <= n -> (0 <= percentage s n <= 100)%Q.
Proof.
  intros Hn Hs. unfold percentage, BackhaulAnalyzer.Qnat.
  destruct n as [|n]; [lia|].
  unfold Qle, Qdiv, Qmult, Qinv, inject_Z. cbn [Qnum Qden].
  rewrite Nat2Z.inj_succ. unfold Z.succ.
  destruct (Z.of_nat n + 1)%Z eqn:E; try lia.
  cbn [Qnum Qden]. split; lia.
Qed.


(** The loop, variable by variable. *)
Lemma attach_fold (records : list AttachRecord) (a : AttachAcc) :
  let a' := fold_left attach_step records a in
  total a' = total a + List.length records
  /\ n_success a' = n_success a + List.length (successes records)
  /\ failure_cats a'
     = fold_left AlarmAnalyzer.bump (map failure_category (failures records))
         (failure_cats a)
  /\ per_imsi_counts a' = count_by imsi (per_imsi_counts a) records
  /\ per_apn_counts a' = count_by apn (per_apn_counts a) records
  /\ per_tac_counts a' = count_by tac (per_tac_counts a) records.
Proof.
  revert a. induction records as [|r records IH]; intros a.
  - cbn. repeat split; lia.
  - cbn [fold_left]. destruct (IH (attach_step a r)) as [H1 [H2 [H3 [H4 [H5 H6]]]]].
    cbv zeta. rewrite H1, H2, H3, H4, H5, H6. clear.
    unfold attach_step, successes, failures, count_by.
    cbn [total n_success failure_cats per_imsi_counts per_apn_counts
         per_tac_counts filter List.length fold_left].
    destruct (is_success r); cbn [negb List.length map fold_left];
      repeat split; try reflexivity; lia.
Qed.

Lemma successes_le (records : list AttachRecord) :
  List.length (successes records) <= List.length records.
Proof. apply filter_length_le. Qed.

Lemma successes_failures (records : list AttachRecord) :
  List.length (successes records) + List.length (failures records)
  = List.length records.
Proof.
  unfold successes, failures. induction records as [|r records IH]; trivial.
  cbn [filter]. destruct (is_success r); cbn [negb List.length]; lia.
Qed.


Lemma count_sum_fold_bump (ks : list string) (d : list (string * nat)) :
  RcaEngine.count_sum (fold_left AlarmAnalyzer.bump ks d)
  = RcaEngine.count_sum d + List.length ks.
Proof.
  revert d. induction ks as [|k ks IH]; intros d; cbn [fold_left List.length].
  - lia.
  - rewrite IH, count_sum_bump. lia.
Qed.

Lemma first_max_spec (best : string * nat) (items : list (string * nat)) :
  In (first_max best items) (best :: items)
  /\ forall x, In x (best :: items) -> snd x <= snd (first_max best items).
Proof.
  revert best. induction items as [|y items IH]; intros best; cbn [first_max].
  - split; [now left|]. intros x [<-|[]]. lia.
  - destruct (IH (if snd best <? snd y then y else best)) as [H1 H2].
    destruct (snd best <? snd y) eqn:E.
    + apply Nat.ltb_lt in E. split.
      * destruct H1 as [H1|H1]; [right; left; exact H1 | right; right; exact H1].
      * intros x [<-|[<-|Hx]].
        -- specialize (H2 y (or_introl eq_refl)). lia.
        -- apply H2. now left.
        -- apply H2. now right.
    + apply Nat.ltb_ge in E. split.
      * destruct H1 as [H1|H1]; [left; exact H1 | right; right; exact H1].
      * intros x [<-|[<-|Hx]].
        -- apply H2. now left.
        -- specialize (H2 best (or_introl eq_refl)). lia.
        -- apply H2. now right.
Qed.

Lemma summarize_attach_acc (r : AttachRecord) (records : list AttachRecord) :
  let a := fold_left attach_step (r :: records) (mkAttachAcc 0 0 [] [] [] []) in
  total a = List.length (r :: records)
  /\ n_success a = List.length (successes (r :: records))
  /\ failure_cats a
     = fold_left AlarmAnalyzer.bump
         (map failure_category (failures (r :: records))) [].
Proof.
  destruct (attach_fold (r :: records) (mkAttachAcc 0 0 [] [] [] []))
    as [H1 [H2 [H3 _]]].
  cbv zeta in *. rewrite H1, H2, H3. repeat split.
Qed.

Lemma overall_rate_eq (records : list AttachRecord) :
  overall_attach_success_rate (fst (summarize_attach records))
  = match records with
    | [] => None
    | _ => Some (percentage (List.length (successes records))
                   (List.length records))
    end.
Proof.
  destruct records as [|r records]; [reflexivity|].
  unfold summarize_attach. cbn [fst overall_attach_success_rate].
  destruct (summarize_attach_acc r records) as [H1 [H2 _]].
  cbv zeta in H1, H2. rewrite H1, H2. reflexivity.
Qed.


(** X6: the histogram of failure categories has one entry per category
    carried by a record that is not a success, holding the number of such
    records; its counts add up to the number of failed records, and
    SUCCESS is never one of its keys. *)
Theorem attach_failure_histogram (records : list AttachRecord)
  (c : string) (n : nat) :
  let hist := failure_categories (fst (summarize_attach records)) in
  (In (c, n) hist <->
   0 < n /\ n = AlarmAnalyzer.occurrences c
                  (map failure_category (failures records)))
  /\ RcaEngine.count_sum hist = List.length (failures records)
  /\ ~ In ("SUCCESS", n) hist.
Proof.
  assert (H : failure_categories (fst (summarize_attach records))
              = fold_left AlarmAnalyzer.bump
                  (map failure_category (failures records)) []).
  { destruct records as [|r records]; [reflexivity|].
    unfold summarize_attach. cbn [fst failure_categories].
    apply summarize_attach_acc. }
  cbv zeta. rewrite H. split; [apply fold_bump_entries|]. split.
  - rewrite count_sum_fold_bump, length_map. reflexivity.
  - rewrite fold_bump_entries. intros [Hpos ->].
    unfold AlarmAnalyzer.occurrences in Hpos.
    apply count_occ_In in Hpos. apply in_map_iff in Hpos as [r [Hr Hin]].
    apply filter_In in Hin as [_ Hf]. unfold is_success in Hf.
    rewrite Hr in Hf. discriminate.
Qed.

(** X7: the dominant failure category is absent exactly when no record
    failed; otherwise it is a category of the histogram whose count no
    other category exceeds. *)
Theorem attach_dominant_category (records : list AttachRecord) :
  let s := fst (summarize_attach records) in
  match dominant_failure_category s with
  | None => failures records = []
  | Some c =>
      exists n, In (c, n) (failure_categories s)
                /\ forall c' n', In (c', n') (failure_categories s) -> n' <= n
  end.
Proof.
  destruct records as [|r records]; [reflexivity|].
  cbv zeta. unfold summarize_attach.
  cbn [fst failure_categories dominant_failure_category].
  destruct (summarize_attach_acc r records) as [_ [_ H3]].
  cbv zeta in H3.
  destruct (failure_cats _) as [|x rest] eqn:E.
  - pose proof (count_sum_fold_bump
                  (map failure_category (failures (r :: records))) []) as Hc.
    rewrite <- H3 in Hc. change (RcaEngine.count_sum []) with 0 in Hc.
    rewrite length_map in Hc.
    destruct (failures (r :: records)); [reflexivity | discriminate Hc].
  - destruct (first_max_spec x rest) as [H1 H2].
    exists (snd (first_max x rest)). split.
    + now rewrite <- surjective_pairing.
    + intros c' n' Hin. exact (H2 (c', n') Hin).
Qed.


Section PerIdentifier.

Variable key : AttachRecord -> string.

Lemma with_key_cons (k : string) (r : AttachRecord)
  (records : list AttachRecord) :
  with_key key k (r :: records)
  = if String.eqb (key r) k then r :: with_key key k records
    else with_key key k records.
Proof. reflexivity. Qed.

Lemma count_by_cons (d : list (string * Counter)) (r : AttachRecord)
  (records : list AttachRecord) :
  count_by key d (r :: records)
  = count_by key (count_outcome d (key r) (is_success r)) records.
Proof. reflexivity. Qed.

Lemma count_by_get (records : list AttachRecord)
  (d : list (string * Counter)) (k : string) :
  let c := PyDict.get d k (mkCounter 0 0) in
  PyDict.get (count_by key d records) k (mkCounter 0 0)
  = mkCounter
      (success c + List.length (successes (with_key key k records)))
      (fail c + List.length (failures (with_key key k records))).
Proof.
  revert d. induction records as [|r records IH]; intros d; cbv zeta.
  - cbn. rewrite !Nat.add_0_r. now destruct (PyDict.get d k _).
  - rewrite count_by_cons, IH. clear IH. cbv zeta.
    unfold count_outcome at 1 2.
    rewrite get_set, with_key_cons.
    destruct (String.eqb_spec (key r) k) as [->|Hne]; [|reflexivity].
    unfold successes, failures. cbn [filter].
    destruct (is_success r); cbn [negb success fail List.length];
      f_equal; lia.
Qed.

Lemma count_by_lookup_None (records : list AttachRecord)
  (d : list (string * Counter)) (k : string) :
  PyDict.lookup (count_by key d records) k = None <->
  PyDict.lookup d k = None /\ with_key key k records = [].
Proof.
  revert d. induction records as [|r records IH]; intros d.
  - cbn. tauto.
  - rewrite count_by_cons, IH. clear IH. unfold count_outcome.
    rewrite lookup_set, with_key_cons.
    destruct (String.eqb_spec (key r) k) as [->|Hne].
    + split; [intros [H _]; discriminate | intros [_ H]; discriminate].
    + tauto.
Qed.

Lemma count_by_NoDup (records : list AttachRecord)
  (d : list (string * Counter)) :
  NoDup (PyDict.keys d) -> NoDup (PyDict.keys (count_by key d records)).
Proof.
  revert d. induction records as [|r records IH]; intros d Hd; [exact Hd|].
  rewrite count_by_cons.
  apply IH. unfold count_outcome. now apply NoDup_keys_set.
Qed.

(** The entries of the breakdown of one identifier. *)
Lemma breakdown_entries (records : list AttachRecord)
  (k : string) (e : RateEntry) :
  In (k, e) (to_rate_dict (count_by key [] records)) <->
  with_key key k records <> []
  /\ e = rate_entry_of (with_key key k records).
Proof.
  set (d := count_by key [] records).
  pose proof (count_by_get records [] k) as Hg.
  pose proof (count_by_lookup_None records [] k) as Hn.
  pose proof (count_by_NoDup records [] (NoDup_nil _)) as Hnd.
  fold d in Hg, Hn, Hnd. cbv zeta in Hg.
  change (PyDict.get [] k (mkCounter 0 0)) with (mkCounter 0 0) in Hg.
  cbn [success fail Nat.add] in Hg.
  set (rs := with_key key k records) in *.
  assert (Hentry : forall c,
             PyDict.lookup d k = Some c ->
             rs <> []
             /\ {| rate_success := success c; rate_fail := fail c;
                   success_rate :=
                     if 0 <? success c + fail c
                     then Some (percentage (success c) (success c + fail c))
                     else None |} = rate_entry_of rs).
  { intros c Hl. unfold PyDict.get in Hg. rewrite Hl in Hg. subst c.
    cbn [success fail].
    assert (Hrs : rs <> []).
    { intros E. assert (PyDict.lookup d k = None) by (apply Hn; now split).
      congruence. }
    split; [exact Hrs|].
    pose proof (successes_failures rs) as Hsf.
    assert (Hpos : (0 <? List.length (successes rs)
                           + List.length (failures rs)) = true).
    { apply Nat.ltb_lt. rewrite Hsf. destruct rs; [congruence | simpl; lia]. }
    rewrite Hpos. reflexivity. }
  unfold to_rate_dict. rewrite in_map_iff. split.
  - intros [[k' c] [Heq Hin]]. cbn [fst snd] in Heq.
    injection Heq as -> <-.
    exact (Hentry c (In_lookup _ _ _ Hnd Hin)).
  - intros [Hrs ->].
    destruct (PyDict.lookup d k) as [c|] eqn:Hl.
    + exists (k, c). split; [|now apply lookup_In].
      cbn [fst snd]. f_equal. exact (proj2 (Hentry c eq_refl)).
    + exfalso. apply Hrs. now apply Hn.
Qed.

End PerIdentifier.



(** The attach block of the fusion fires on a summarised batch exactly when
    more than one record in twenty failed. *)
Lemma summarised_rate_below_95 (records : list AttachRecord) :
  match overall_attach_success_rate (fst (summarize_attach records)) with
  | Some rate =>
      Qltb rate 95 = true <->
      List.length records < 20 * List.length (failures records)
  | None => records = []
  end.
Proof.
  rewrite overall_rate_eq. destruct records as [|r records]; [reflexivity|].
  rewrite Qltb_lt.
  change 95%Q with (inject_Z (Z.of_nat 95)).
  rewrite percentage_lt by (cbn [List.length]; lia).
  pose proof (successes_failures (r :: records)). lia.
Qed.

(** X9: fed with the summary of a batch of attach records, the fusion
    returns severity "high" when more than one record in twenty failed, and
    otherwise returns what it returns without an attach summary. *)
Theorem attach_summary_in_fusion (base sev : string)
  (anoms : list KpiAnalyzer.Anomaly)
  (als : option AlarmAnalyzer.AlarmSummary)
  (bs : option BackhaulAnalyzer.BackhaulSummary)
  (records : list AttachRecord) :
  let s := fst (summarize_attach records) in
  let r := RcaEngine._combine_with_additional_signals base sev anoms als bs
             (Some s) in
  (List.length records < 20 * List.length (failures records) ->
   snd r = "high")
  /\ (20 * List.length (failures records) <= List.length records ->
      r = RcaEngine._combine_with_additional_signals base sev anoms als bs
            None).
Proof.
  cbv zeta. rewrite !combine_unfold. cbv zeta.
  set (st := RcaEngine.backhaul_escalation base bs _).
  pose proof (summarised_rate_below_95 records) as Hr.
  destruct st as [rc sc] eqn:Est.
  unfold RcaEngine.attach_escalation.
  destruct (overall_attach_success_rate (fst (summarize_attach records)))
    as [rate|]; split.
  - intros Hlt. apply Hr in Hlt. rewrite Hlt. cbn [snd].
    apply severity_label_high. lia.
  - intros Hle. destruct (Qltb rate 95) eqn:E; [|reflexivity].
    pose proof (proj1 Hr eq_refl). lia.
  - subst records. cbn. lia.
  - reflexivity.
Qed.

End AttachSummaryFacts.

Lemma attach_summary_in_fusion_witness :
  let records :=
    [AttachAnalyzer.mkAttachRecord "001" "internet" "1201" "" "" "SUCCESS";
     AttachAnalyzer.mkAttachRecord "002" "internet" "1201"
       "APN not subscribed" "" "APN_QCI"] in
  snd (RcaEngine._combine_with_additional_signals "Normal Operation" "low"
         [] None None (Some (fst (AttachAnalyzer.summarize_attach records))))
  = "high".
Proof.
  cbv zeta.
  apply (attach_summary_in_fusion "Normal Operation" "low" [] None None).
  cbn. lia.
Defined.

(** ** The evidence of [summarize_kpis] *)

Section KpiEvidence.

Import KpiAnalyzer.

Variables py_median py_stdev : list Q -> Q.

Lemma fold_min_le_start (rest : list Q) (v : Q) :
  (fold_left (fun m y => if Qltb y m then y else m) rest v <= v)%Q.
Proof.
  revert v. induction rest as [|y rest IH]; intros v; cbn [fold_left].
  - apply Qle_refl.
  - destruct (Qltb y v) eqn:E; [|apply IH].
    apply Qltb_lt in E. apply Qle_trans with y; [apply IH|].
    now apply Qlt_le_weak.
Qed.

Lemma fold_min_le (rest : list Q) (v x : Q) :
  In x rest ->
  (fold_left (fun m y => if Qltb y m then y else m) rest v <= x)%Q.
Proof.
  revert v. induction rest as [|y rest IH]; intros v Hx; [destruct Hx|].
  cbn [fold_left]. destruct Hx as [->|Hx]; [|now apply IH].
  destruct (Qltb x v) eqn:E; [apply fold_min_le_start|].
  apply Qltb_ge in E. apply Qle_trans with v;
    [apply fold_min_le_start | exact E].
Qed.

Lemma fold_max_ge_start (rest : list Q) (v : Q) :
  (v <= fold_left (fun m y => if Qgtb y m then y else m) rest v)%Q.
Proof.
  revert v. induction rest as [|y rest IH]; intros v; cbn [fold_left].
  - apply Qle_refl.
  - destruct (Qgtb y v) eqn:E; [|apply IH].
    unfold Qgtb in E. apply Qltb_lt in E. apply Qle_trans with y; [|apply IH].
    now apply Qlt_le_weak.
Qed.

Lemma fold_max_ge (rest : list Q) (v x : Q) :
  In x rest ->
  (x <= fold_left (fun m y => if Qgtb y m then y else m) rest v)%Q.
Proof.
  revert v. induction rest as [|y rest IH]; intros v Hx; [destruct Hx|].
  cbn [fold_left]. destruct Hx as [->|Hx]; [|now apply IH].
  destruct (Qgtb x v) eqn:E; [apply fold_max_ge_start|].
  unfold Qgtb in E. apply Qltb_ge in E. apply Qle_trans with v;
    [exact E | apply fold_max_ge_start].
Qed.

Lemma py_min_le (values : list Q) (x : Q) :
  In x values -> (py_min values <= x)%Q.
Proof.
  destruct values as [|v rest]; [intros []|].
  intros [<-|Hx]; [apply fold_min_le_start | now apply fold_min_le].
Qed.

Lemma py_max_ge (values : list Q) (x : Q) :
  In x values -> (x <= py_max values)%Q.
Proof.
  destruct values as [|v rest]; [intros []|].
  intros [<-|Hx]; [apply fold_max_ge_start | now apply fold_max_ge].
Qed.

Lemma Qsum_bounds (lo hi : Q) (values : list Q) (acc : Q) :
  (forall x, In x values -> (lo <= x <= hi)%Q) ->
  (acc + inject_Z (Z.of_nat (List.length values)) * lo
   <= fold_left Qplus values acc
   <= acc + inject_Z (Z.of_nat (List.length values)) * hi)%Q.
Proof.
  revert acc. induction values as [|v values IH]; intros acc H.
  - cbn. rewrite !Qmult_0_l, Qplus_0_r. split; apply Qle_refl.
  - cbn [fold_left List.length].
    destruct (IH (acc + v)%Q (fun x Hx => H x (or_intror Hx))) as [H1 H2].
    destruct (H v (or_introl eq_refl)) as [Hlo Hhi].
    rewrite Nat2Z.inj_succ. unfold Z.succ. rewrite inject_Z_plus.
    split.
    + eapply Qle_trans; [|exact H1].
      setoid_replace ((inject_Z (Z.of_nat (List.length values)) + inject_Z 1) * lo)%Q
        with (lo + inject_Z (Z.of_nat (List.length values)) * lo)%Q by ring.
      rewrite Qplus_assoc. apply Qplus_le_compat; [|apply Qle_refl].
      apply Qplus_le_compat; [apply Qle_refl | exact Hlo].
    + eapply Qle_trans; [exact H2|].
      setoid_replace ((inject_Z (Z.of_nat (List.length values)) + inject_Z 1) * hi)%Q
        with (hi + inject_Z (Z.of_nat (List.length values)) * hi)%Q by ring.
      rewrite Qplus_assoc. apply Qplus_le_compat; [|apply Qle_refl].
      apply Qplus_le_compat; [apply Qle_refl | exact Hhi].
Qed.

(** The mean of a non-empty list lies between its least and its greatest
    element. *)
Lemma mean_between (values : list Q) :
  values <> [] ->
  (py_min values <= py_mean values <= py_max values)%Q.
Proof.
  intros Hne. unfold py_mean. rewrite Qred_correct.
  set (n := inject_Z (Z.of_nat (List.length values))).
  assert (Hn : (0 < n)%Q).
  { unfold n. change 0%Q with (inject_Z 0). rewrite <- Zlt_Qlt.
    destruct values; [congruence | simpl; lia]. }
  destruct (Qsum_bounds (py_min values) (py_max values) values 0%Q) as [H1 H2].
  { intros x Hx. split; [now apply py_min_le | now apply py_max_ge]. }
  fold n in H1, H2. rewrite Qplus_0_l in H1, H2. unfold Qsum. split.
  - apply Qle_shift_div_l; [exact Hn|]. now rewrite Qmult_comm.
  - apply Qle_shift_div_r; [exact Hn|]. now rewrite Qmult_comm.
Qed.


Lemma nonempty_set (d : list (string * list Q)) (k : string) (v : list Q) :
  Forall (fun kv => snd kv <> []) d -> v <> [] ->
  Forall (fun kv => snd kv <> []) (PyDict.set d k v).
Proof.
  induction d as [|[k0 v0] d IH]; intros Hd Hv; cbn [PyDict.set].
  - repeat constructor. exact Hv.
  - inversion Hd; subst. destruct (String.eqb k0 k).
    + constructor; assumption.
    + constructor; [assumption | now apply IH].
Qed.

(** A metric's list is never empty once it exists. *)
Lemma group_nonempty (kpi_data : list KpiEntry)
  (acc : list (string * list Q) * list (string * list (string * list Q))) :
  Forall (fun kv => snd kv <> []) (fst acc) ->
  Forall (fun kv => snd kv <> [])
    (fst (fold_left group_entry kpi_data acc)).
Proof.
  revert acc. induction kpi_data as [|e kpi_data IH]; intros acc Hacc.
  - exact Hacc.
  - cbn [fold_left]. apply IH. unfold group_entry.
    destruct (entry_kpi e) as [k|]; [|exact Hacc].
    destruct (entry_value e) as [v|]; [|exact Hacc].
    cbn [fst]. unfold append_to. apply nonempty_set; [exact Hacc|].
    destruct (PyDict.get (fst acc) k []); discriminate.
Qed.

(** The second loop stores the statistics of each metric. *)
Lemma analyse_evidence (g : list (string * list Q))
  (acc : list (string * Stats) * list Anomaly) (name : string) :
  NoDup (PyDict.keys g) -> Forall (fun kv => snd kv <> []) g ->
  PyDict.lookup (fst (fold_left (analyse_metric py_median py_stdev) g acc))
    name
  = match PyDict.lookup g name with
    | Some vs => Some (stats_of py_median py_stdev vs)
    | None => PyDict.lookup (fst acc) name
    end.
Proof.
  revert acc. induction g as [|[k vs] g IH]; intros acc Hnd Hne.
  - reflexivity.
  - cbn [PyDict.keys map fst] in Hnd.
    inversion Hnd as [|? ? Hnin Hnd']; subst.
    inversion Hne as [|? ? Hvs Hne']; subst. cbn [snd] in Hvs.
    cbn [fold_left]. rewrite IH by assumption. cbn [PyDict.lookup].
    unfold analyse_metric. destruct vs as [|v vs]; [congruence|].
    cbn [fst]. rewrite lookup_set.
    destruct (String.eqb_spec k name) as [->|Hneq].
    + apply lookup_None_keys in Hnin. now rewrite Hnin.
    + reflexivity.
Qed.


Lemma group_skips_incomplete (kpi_data : list KpiEntry)
  (acc : list (string * list Q) * list (string * list (string * list Q))) :
  fold_left group_entry (filter complete kpi_data) acc
  = fold_left group_entry kpi_data acc.
Proof.
  revert acc. induction kpi_data as [|e kpi_data IH]; intros acc; trivial.
  cbn [filter fold_left]. destruct (complete e) eqn:C.
  - cbn [fold_left]. apply IH.
  - rewrite IH. f_equal. unfold complete in C. unfold group_entry.
    destruct (entry_kpi e); destruct (entry_value e);
      try discriminate; reflexivity.
Qed.

(** X11: entries without a metric name or without a value do not count:
    the evidence, the anomalies and the index by site are those of the
    entries that have both. *)
Theorem kpi_incomplete_entries_ignored (kpi_data : list KpiEntry) :
  summarize_kpis py_median py_stdev (filter complete kpi_data)
  = summarize_kpis py_median py_stdev kpi_data.
Proof.
  unfold summarize_kpis. now rewrite group_skips_incomplete.
Qed.

Lemma site_index_fold (kpi_data : list KpiEntry) (site name : string)
  (acc : list (string * list Q) * list (string * list (string * list Q))) :
  PyDict.get
    (PyDict.get (snd (fold_left group_entry kpi_data acc)) site []) name []
  = PyDict.get (PyDict.get (snd acc) site []) name []
    ++ site_values site name kpi_data.
Proof.
  revert acc. induction kpi_data as [|e kpi_data IH]; intros acc.
  - cbn. now rewrite app_nil_r.
  - cbn [fold_left]. rewrite IH. clear IH.
    unfold site_values. cbn [flat_map]. fold (site_values site name kpi_data).
    unfold group_entry. fold (site_of e).
    destruct (entry_kpi e) as [k|]; [|reflexivity].
    destruct (entry_value e) as [v|]; [|reflexivity].
    cbn [snd]. unfold append_to_site, append_to. rewrite get_set.
    destruct (String.eqb_spec (site_of e) site) as [->|Hs]; cbn [andb].
    + rewrite get_set.
      destruct (String.eqb_spec k name) as [->|Hk].
      * now rewrite <- app_assoc.
      * reflexivity.
    + reflexivity.
Qed.



(** Every entry of the threshold table bounds its metric on one side. *)
Lemma thresholds_one_sided (name : string) (thr : Threshold) :
  PyDict.lookup THRESHOLDS name = Some thr ->
  (thr_min thr <> None /\ thr_max thr = None)
  \/ (thr_min thr = None /\ thr_max thr <> None).
Proof.
  intros H. apply lookup_In in H. unfold THRESHOLDS in H.
  repeat (destruct H as [H|H];
          [injection H as _ <-; cbn; (left + right); split;
           (reflexivity || discriminate)|]).
  destruct H.
Qed.

Lemma threshold_anomalies_shape (name : string) (m : Q) (a : Anomaly) :
  In a (threshold_anomalies name m) ->
  threshold_anomalies name m = [a]
  /\ value a = m
  /\ exists thr,
       PyDict.lookup THRESHOLDS name = Some thr
       /\ ((type a = "below_threshold" /\ thr_min thr = Some (threshold a)
            /\ (m < threshold a)%Q)
           \/ (type a = "above_threshold" /\ thr_max thr = Some (threshold a)
               /\ (threshold a < m)%Q))
       /\ (severity a = "high" \/ severity a = "medium").
Proof.
  unfold threshold_anomalies.
  destruct (PyDict.lookup THRESHOLDS name) as [thr|] eqn:E; [|intros []].
  destruct (thresholds_one_sided name thr E) as [[Hmin Hmax]|[Hmin Hmax]].
  - rewrite Hmax. destruct (thr_min thr) as [lo|] eqn:Em; [|congruence].
    rewrite app_nil_r. destruct (Qltb m lo) eqn:El; [|intros []].
    intros [<-|[]]. cbn [value type threshold severity].
    split; [reflexivity|]. split; [reflexivity|]. exists thr.
    split; [reflexivity|]. split.
    + left. apply Qltb_lt in El. auto.
    + destruct (Qltb m (lo * (8 # 10))); auto.
  - rewrite Hmin. destruct (thr_max thr) as [hi|] eqn:Em; [|congruence].
    cbn [app]. destruct (Qgtb m hi) eqn:El; [|intros []].
    intros [<-|[]]. cbn [value type threshold severity].
    split; [reflexivity|]. split; [reflexivity|]. exists thr.
    split; [reflexivity|]. split.
    + right. unfold Qgtb in El. apply Qltb_lt in El. auto.
    + destruct (Qgtb m (hi * (12 # 10))); auto.
Qed.

Lemma NoDup_by_filter (l : list Anomaly) :
  (forall name, List.length (filter (of_metric name) l) <= 1) ->
  NoDup (map kpi l).
Proof.
  induction l as [|a l IH]; intros H; cbn [map]; constructor.
  - specialize (H (kpi a)). cbn [filter] in H.
    unfold of_metric at 1 in H. rewrite String.eqb_refl in H.
    cbn [List.length] in H. intros Hin.
    apply in_map_iff in Hin as [b [Hb Hin]].
    assert (In b (filter (of_metric (kpi a)) l)).
    { apply filter_In. split; [exact Hin|].
      unfold of_metric. rewrite Hb. apply String.eqb_refl. }
    destruct (filter (of_metric (kpi a)) l); [contradiction | simpl in H; lia].
  - apply IH. intros name. specialize (H name). cbn [filter] in H.
    destruct (of_metric name a); cbn [List.length] in H; lia.
Qed.


End KpiEvidence.

(** ** The trends and totals of [summarize_backhaul] *)

Section BackhaulTrends.

Import BackhaulAnalyzer.

Lemma backhaul_fold (samples : list BackhaulSample) (a : Acc) :
  let a' := fold_left step samples a in
  a_modulation_trend a'
  = a_modulation_trend a ++ map (fun s => (timestamp s, modulation s)) samples
  /\ a_rssi_trend a'
     = a_rssi_trend a ++ map (fun s => (timestamp s, rssi s)) samples
  /\ a_latency_jitter_trend a'
     = a_latency_jitter_trend a
       ++ map (fun s => (timestamp s, latency_ms s, jitter_ms s)) samples
  /\ total_tx_err a' = fold_left Qplus (map tx_errors samples) (total_tx_err a)
  /\ total_rx_err a' = fold_left Qplus (map rx_errors samples) (total_rx_err a).
Proof.
  revert a. induction samples as [|s samples IH]; intros a.
  - cbn. now rewrite !app_nil_r.
  - cbn [fold_left map]. destruct (IH (step a s)) as [H1 [H2 [H3 [H4 H5]]]].
    cbv zeta. rewrite H1, H2, H3, H4, H5.
    unfold step.
    cbn [a_modulation_trend a_rssi_trend a_latency_jitter_trend
         total_tx_err total_rx_err].
    rewrite <- !app_assoc. repeat split.
Qed.



(** The weighted sum as one quotient of counts. *)
Lemma weighted_as_quotient (l h j n : nat) :
  0 < n ->
  (weighted l h j (Qnat n)
   == Qnat (4 * l + 3 * h + 3 * j) / Qnat (10 * n))%Q.
Proof.
  intros Hn. unfold weighted, Qnat.
  rewrite !Nat2Z.inj_add, !Nat2Z.inj_mul, !inject_Z_plus, !inject_Z_mult.
  change (inject_Z (Z.of_nat 4)) with 4%Q.
  change (inject_Z (Z.of_nat 3)) with 3%Q.
  change (inject_Z (Z.of_nat 10)) with 10%Q.
  assert (Hq : ~ (inject_Z (Z.of_nat n) == 0)%Q).
  { intros E. unfold Qeq, inject_Z in E. cbn [Qnum Qden] in E. lia. }
  field. exact Hq.
Qed.

Lemma quotient_above_half (a b : nat) :
  0 < b -> ((5 # 10 < Qnat a / Qnat b)%Q <-> b < 2 * a).
Proof.
  intros Hb. unfold Qnat. destruct b as [|b]; [lia|].
  unfold Qlt, Qdiv, Qmult, Qinv, inject_Z. cbn [Qnum Qden].
  rewrite Nat2Z.inj_succ. unfold Z.succ.
  destruct (Z.of_nat b + 1)%Z eqn:E; try lia.
  cbn [Qnum Qden]. lia.
Qed.

Lemma quotient_zero (a b : nat) :
  0 < b -> ((Qnat a / Qnat b == 0)%Q <-> a = 0).
Proof.
  intros Hb. unfold Qnat. destruct b as [|b]; [lia|].
  unfold Qeq, Qdiv, Qmult, Qinv, inject_Z. cbn [Qnum Qden].
  rewrite Nat2Z.inj_succ. unfold Z.succ.
  destruct (Z.of_nat b + 1)%Z eqn:E; try lia.
  cbn [Qnum Qden]. lia.
Qed.

Lemma score_as_quotient (samples : list BackhaulSample) :
  samples <> [] ->
  (impairment_score (summarize_backhaul samples)
   == Qmin 1 (Qnat (4 * count low_modulation samples
                    + 3 * count high_latency samples
                    + 3 * count high_jitter samples)
              / Qnat (10 * List.length samples)))%Q.
Proof.
  intros Hne. rewrite (impairment_score_eq samples Hne).
  unfold fraction.
  rewrite <- weighted_as_quotient
    by (destruct samples; [congruence | simpl; lia]).
  reflexivity.
Qed.

Lemma count_impaired_zero (samples : list BackhaulSample) :
  count impaired samples = 0 <->
  count low_modulation samples = 0 /\ count high_latency samples = 0
  /\ count high_jitter samples = 0.
Proof.
  unfold count. induction samples as [|s samples IH]; cbn [filter].
  - simpl. tauto.
  - unfold impaired at 1.
    destruct (low_modulation s); destruct (high_latency s);
      destruct (high_jitter s); cbn [orb List.length]; rewrite ?IH;
      intuition discriminate.
Qed.

(** X15: the impairment score is zero exactly when no sample is impaired,
    that is when none has a modulation below 4, a latency above 50 or a
    jitter above 20. *)
Theorem impairment_score_zero (samples : list BackhaulSample) :
  (impairment_score (summarize_backhaul samples) == 0)%Q <->
  count impaired samples = 0.
Proof.
  destruct samples as [|s samples]; [cbn; split; reflexivity|].
  rewrite score_as_quotient by discriminate.
  rewrite count_impaired_zero.
  set (a := 4 * _ + 3 * _ + 3 * _).
  set (n := List.length (s :: samples)).
  assert (Hn : 0 < 10 * n) by (unfold n; simpl; lia).
  pose proof (quotient_zero a (10 * n) Hn) as Hz.
  assert (Hnn : (0 <= Qnat a / Qnat (10 * n))%Q).
  { apply Qle_shift_div_l; [now apply Qnat_pos|].
    rewrite Qmult_0_l. apply (Qnat_le 0). lia. }
  split.
  - intros H. assert (a = 0); [|unfold a in *; lia].
    apply Hz. destruct (Q.min_spec 1 (Qnat a / Qnat (10 * n)))
      as [[_ E]|[_ E]]; rewrite E in H; [discriminate H | exact H].
  - intros H. assert (Ha : a = 0) by (unfold a; lia).
    apply Hz in Ha. rewrite Ha. reflexivity.
Qed.

(** X16: an impairment score above 0.5, the level from which the fusion
    escalates, is only reached by a batch with samples flagged on at least
    two of the three criteria: one criterion alone weighs at most 0.4. *)
Theorem impairment_above_half_needs_two_criteria
  (samples : list BackhaulSample) :
  (5 # 10 < impairment_score (summarize_backhaul samples))%Q ->
  let low := count low_modulation samples in
  let lat := count high_latency samples in
  let jit := count high_jitter samples in
  (0 < low /\ 0 < lat) \/ (0 < low /\ 0 < jit) \/ (0 < lat /\ 0 < jit).
Proof.
  destruct samples as [|s samples]; [intros H; discriminate H|].
  rewrite score_as_quotient by discriminate. intros H. cbv zeta.
  pose proof (count_le_length low_modulation (s :: samples)) as Hl.
  pose proof (count_le_length high_latency (s :: samples)) as Hh.
  pose proof (count_le_length high_jitter (s :: samples)) as Hj.
  set (n := List.length (s :: samples)) in *.
  assert (Hn : 0 < 10 * n) by (unfold n; simpl; lia).
  assert (H' : (5 # 10 < Qnat (4 * count low_modulation (s :: samples)
                               + 3 * count high_latency (s :: samples)
                               + 3 * count high_jitter (s :: samples))
                         / Qnat (10 * n))%Q).
  { eapply Qlt_le_trans; [exact H | apply Q.le_min_r]. }
  apply quotient_above_half in H'; [|exact Hn]. lia.
Qed.

End BackhaulTrends.

Lemma impairment_above_half_needs_two_criteria_witness :
  let samples := [BackhaulAnalyzer.degraded_sample;
                  BackhaulAnalyzer.degraded_sample;
                  BackhaulAnalyzer.clean_sample] in
  let low := BackhaulAnalyzer.count BackhaulAnalyzer.low_modulation samples in
  let lat := BackhaulAnalyzer.count BackhaulAnalyzer.high_latency samples in
  let jit := BackhaulAnalyzer.count BackhaulAnalyzer.high_jitter samples in
  (0 < low /\ 0 < lat) \/ (0 < low /\ 0 < jit) \/ (0 < lat /\ 0 < jit).
Proof.
  apply (impairment_above_half_needs_two_criteria
           [BackhaulAnalyzer.degraded_sample;
            BackhaulAnalyzer.degraded_sample;
            BackhaulAnalyzer.clean_sample]).
  reflexivity.
Defined.

(** ** The fusion and the correlation statements *)

Section FusionFacts.

Import RcaEngine.

(** X17: when the attach summary has a known success rate below 95 and a
    dominant category among APN_QCI, TAC, RF and Congestion, the returned
    root cause is the attach label of that category and the severity is
    "high", whatever the baseline, the anomalies, the alarm summary and the
    backhaul summary are. *)
Theorem attach_label_wins
  (base sev : string) (anoms : list KpiAnalyzer.Anomaly)
  (als : option AlarmAnalyzer.AlarmSummary)
  (bs : option BackhaulAnalyzer.BackhaulSummary)
  (a : AttachAnalyzer.AttachSummary) (rate : Q) :
  AttachAnalyzer.overall_attach_success_rate a = Some rate ->
  (rate < 95)%Q ->
  attach_overwrites (Some a) = true ->
  _combine_with_additional_signals base sev anoms als bs (Some a)
  = (if dominant_is a "APN_QCI"
     then "CPE Attach Failures - APN/QCI Configuration"
     else if dominant_is a "TAC"
     then "CPE Attach Failures - TAC / Mobility Configuration"
     else if dominant_is a "RF"
     then "CPE Attach Failures - RF / Coverage"
     else "CPE Attach Failures - Congestion Driven",
     "high").
Proof.
  intros Hr Hlt Hw. rewrite combine_unfold. cbv zeta.
  set (st := backhaul_escalation base bs _). destruct st as [rc sc].
  unfold attach_overwrites in Hw. rewrite Hr in Hw.
  unfold attach_escalation. rewrite Hr.
  apply Qltb_lt in Hlt. rewrite Hlt in Hw |- *. cbn [andb] in Hw.
  cbn [fst snd]. rewrite severity_label_high by lia. f_equal.
  destruct (dominant_is a "APN_QCI"); trivial.
  destruct (dominant_is a "TAC"); trivial.
  destruct (dominant_is a "RF"); trivial.
  destruct (dominant_is a "Congestion"); [trivial | discriminate Hw].
Qed.

Lemma known_severity (sev : string) :
  sev = "low" \/ sev = "medium" \/ sev = "high" ->
  severity_label (severity_score_of sev) = sev.
Proof. intros [-> | [-> | ->]]; reflexivity. Qed.

(** X18: without alarm, backhaul and attach summaries the fusion keeps the
    baseline root cause, and keeps the baseline severity when it is "low",
    "medium" or "high"; any other baseline severity is returned as
    "low". *)
Theorem fusion_without_summaries
  (base sev : string) (anoms : list KpiAnalyzer.Anomaly) :
  let r := _combine_with_additional_signals base sev anoms None None None in
  fst r = base
  /\ (sev = "low" \/ sev = "medium" \/ sev = "high" -> snd r = sev)
  /\ (sev <> "low" -> sev <> "medium" -> sev <> "high" -> snd r = "low").
Proof.
  cbv zeta. rewrite combine_unfold. cbn.
  split; [reflexivity|]. split.
  - apply known_severity.
  - intros H1 H2 H3. unfold severity_score_of, PyDict.get, PyDict.lookup.
    destruct (String.eqb_spec "low" sev); [congruence|].
    destruct (String.eqb_spec "medium" sev); [congruence|].
    destruct (String.eqb_spec "high" sev); [congruence|].
    reflexivity.
Qed.

End FusionFacts.

Lemma attach_label_wins_witness :
  RcaEngine._combine_with_additional_signals "Microwave Link Degradation"
    "low" [Fixtures.s1_violation] (Some Fixtures.two_critical)
    (Some (Fixtures.backhaul_with (9 # 10)))
    (Some (Fixtures.attach_with 90 "RF"))
  = ("CPE Attach Failures - RF / Coverage", "high").
Proof.
  apply (attach_label_wins "Microwave Link Degradation" "low"
           [Fixtures.s1_violation] (Some Fixtures.two_critical)
           (Some (Fixtures.backhaul_with (9 # 10)))
           (Fixtures.attach_with 90 "RF") 90%Q);
    reflexivity.
Defined.

Lemma fusion_without_summaries_witness :
  snd (RcaEngine._combine_with_additional_signals "Normal Operation" "medium"
         [] None None None) = "medium"
  /\ snd (RcaEngine._combine_with_additional_signals "Normal Operation"
            "critical" [] None None None) = "low".
Proof.
  split.
  - apply (fusion_without_summaries "Normal Operation" "medium" []). auto.
  - apply (fusion_without_summaries "Normal Operation" "critical" []);
      discriminate.
Defined.

Section Correlation.

Import RcaEngine CorrelationEngine.

(** X19: the alarm statement of the correlation engine and the alarm block
    of the fusion go together: the statement is given exactly when the
    summary counts alarms of which some are CRITICAL or MAJOR; then the
    fused severity is at least "medium", and otherwise the fusion returns
    what it returns without an alarm summary. *)
Theorem alarm_correlation_matches_fusion
  (base sev : string) (anoms : list KpiAnalyzer.Anomaly)
  (als : option AlarmAnalyzer.AlarmSummary)
  (bs : option BackhaulAnalyzer.BackhaulSummary)
  (ats : option AttachAnalyzer.AttachSummary) :
  let said := describe_kpi_alarm_correlation anoms als in
  let r := _combine_with_additional_signals base sev anoms als bs ats in
  (said = [ALARMS_ACTIVE] \/ said = [])
  /\ (said = [ALARMS_ACTIVE] <->
      exists a, als = Some a /\ 0 < AlarmAnalyzer.total_count a
                /\ 0 < crit_maj a)
  /\ (said = [ALARMS_ACTIVE] -> 2 <= severity_score_of (snd r))
  /\ (said = [] ->
      r = _combine_with_additional_signals base sev anoms None bs ats).
Proof.
  cbv zeta. unfold describe_kpi_alarm_correlation.
  rewrite !combine_unfold. cbv zeta.
  destruct als as [a|].
  - fold (crit_maj a). unfold alarm_escalation.
    destruct (AlarmAnalyzer.total_count a) as [|n] eqn:Et; cbn [Nat.eqb Nat.ltb Nat.leb].
    + split; [now right|]. split.
      * split; [discriminate|]. intros [a' [[= <-] [H _]]]. lia.
      * split; [discriminate | reflexivity].
    + destruct (crit_maj a) as [|m] eqn:Ec; cbn [Nat.eqb Nat.ltb Nat.leb].
      * split; [now right|]. split.
        -- split; [discriminate|]. intros [a' [[= <-] [_ H]]]. lia.
        -- split; [discriminate | reflexivity].
      * split; [now left|]. split.
        -- split; [|reflexivity]. intros _. exists a. repeat split; lia.
        -- split; [|discriminate]. intros _. cbn [snd fst].
           rewrite severity_score_of_label.
           match goal with
           | |- context [attach_escalation ?u ?v] =>
               pose proof (attach_escalation_score u v) as H1
           end.
           match type of H1 with
           | context [backhaul_escalation ?u ?v ?w] =>
               pose proof (backhaul_escalation_score u v w) as H2
           end.
           destruct (has_transport_anomaly anoms); cbn [snd] in H1, H2; lia.
  - split; [now right|]. split.
    + split; [discriminate|]. intros [a [H _]]. discriminate.
    + split; [discriminate | reflexivity].
Qed.

(** X20: the attach statement of the correlation engine is at most one
    sentence, and it is given exactly when the overall attach success rate
    is known and below 95, which is when the fusion adds its attach
    recommendations and returns severity "high". *)
Theorem attach_correlation_matches_fusion
  (base sev : string) (anoms : list KpiAnalyzer.Anomaly)
  (als : option AlarmAnalyzer.AlarmSummary)
  (bs : option BackhaulAnalyzer.BackhaulSummary)
  (ats : option AttachAnalyzer.AttachSummary) :
  let said := describe_attach_failures_correlation ats in
  List.length said <= 1
  /\ (said <> [] <->
      exists a rate, ats = Some a
                     /\ AttachAnalyzer.overall_attach_success_rate a = Some rate
                     /\ (rate < 95)%Q)
  /\ (said <> [] <-> attach_recommendations ats <> [])
  /\ (said <> [] ->
      snd (_combine_with_additional_signals base sev anoms als bs ats)
      = "high").
Proof.
  cbv zeta.
  assert (Hchar :
    describe_attach_failures_correlation ats <> [] <->
    exists a rate, ats = Some a
                   /\ AttachAnalyzer.overall_attach_success_rate a = Some rate
                   /\ (rate < 95)%Q).
  { unfold describe_attach_failures_correlation. destruct ats as [a|].
    - destruct (AttachAnalyzer.overall_attach_success_rate a) as [rate|] eqn:Er.
      + destruct (Qle_bool 95 rate) eqn:E.
        * apply Qle_bool_iff in E. split; [congruence|].
          intros [a' [rate' [[= <-] [Hr Hlt]]]].
          rewrite Er in Hr. injection Hr as <-.
          exfalso. exact (Qlt_not_le _ _ Hlt E).
        * split.
          -- intros _. exists a, rate. repeat split; trivial.
             apply Qnot_le_lt. intros Hle. apply Qle_bool_iff in Hle.
             congruence.
          -- intros _.
             repeat match goal with
                    | |- context [if ?b then _ else _] => destruct b
                    end; discriminate.
      + split; [congruence|]. intros [a' [rate' [[= <-] [Hr _]]]]. congruence.
    - split; [congruence|]. intros [a [rate [H _]]]. discriminate. }
  split; [|split; [exact Hchar|split]].
  - unfold describe_attach_failures_correlation. destruct ats as [a|]; [|simpl; lia].
    destruct (AttachAnalyzer.overall_attach_success_rate a); [|simpl; lia].
    repeat match goal with
           | |- context [if ?b then _ else _] => destruct b
           end; simpl; lia.
  - rewrite Hchar.
    destruct (extra_recommendations_triggers None None ats) as [_ [_ H]].
    symmetry. exact H.
  - intros H. apply Hchar in H as [a [rate [-> [Hr Hlt]]]].
    rewrite combine_unfold. cbv zeta. cbn [snd].
    apply severity_label_high.
    rewrite (attach_escalation_fires _ _ _ Hr Hlt). lia.
Qed.

(** X21: the backhaul statements of the correlation engine are none when
    the impairment score is at most 0.2 or the summary is absent, and
    otherwise one or two: the BLER sentence when an anomaly's metric
    mentions BLER, the ERAB sentence when one mentions ERAB, the general
    sentence when neither does. Whenever the score is above 0.5, where the
    fusion escalates, there is at least one statement. *)
Theorem backhaul_correlation_statements
  (anoms : list KpiAnalyzer.Anomaly)
  (bs : option BackhaulAnalyzer.BackhaulSummary) :
  let said := describe_kpi_backhaul_correlation anoms bs in
  (said = [] <->
   bs = None
   \/ exists b, bs = Some b
                /\ (BackhaulAnalyzer.impairment_score b <= 2 # 10)%Q)
  /\ (said <> [] ->
      1 <= List.length said <= 2
      /\ (In BACKHAUL_BLER said <-> any_kpi_mentions "BLER" anoms = true)
      /\ (In BACKHAUL_ERAB said <-> any_kpi_mentions "ERAB" anoms = true)
      /\ (In BACKHAUL_GENERIC said <->
          any_kpi_mentions "BLER" anoms = false
          /\ any_kpi_mentions "ERAB" anoms = false))
  /\ (forall b, bs = Some b ->
                (5 # 10 < BackhaulAnalyzer.impairment_score b)%Q ->
                said <> []).
Proof.
  cbv zeta. unfold describe_kpi_backhaul_correlation.
  destruct bs as [b|].
  - destruct (Qle_bool (BackhaulAnalyzer.impairment_score b) (2 # 10)) eqn:E.
    + apply Qle_bool_iff in E. split; [|split].
      * split; [|reflexivity]. intros _. right. now exists b.
      * congruence.
      * intros b' [= <-] Hlt. exfalso.
        apply (Qlt_not_le _ _ Hlt). apply Qle_trans with (2 # 10)%Q; trivial.
        discriminate.
    + cbv zeta.
      destruct (any_kpi_mentions "BLER" anoms);
        destruct (any_kpi_mentions "ERAB" anoms); cbn [app].
      all: split; [|split].
      all: try (split; [discriminate|];
                intros [H|[b' [[= <-] H]]]; [discriminate|];
                apply Qle_bool_iff in H; congruence).
      all: try (intros; discriminate).
      all: intros _; split; [simpl; lia|].
      all: unfold BACKHAUL_BLER, BACKHAUL_ERAB, BACKHAUL_GENERIC;
        cbn [In]; repeat split; intros;
        repeat match goal with
               | H : _ \/ _ |- _ => destruct H
               | H : _ /\ _ |- _ => destruct H
               | H : False |- _ => destruct H
               end; try discriminate; try reflexivity; auto.
  - split; [|split].
    + split; [|reflexivity]. intros _. now left.
    + congruence.
    + intros b H. discriminate.
Qed.

End Correlation.

(** ** The rows of the attach log *)

Section AttachRows.

Import PyStr AttachAnalyzer.

Lemma remove_char_absent (c : ascii) (s : string) :
  ~ In c (list_ascii_of_string (remove_char c s)).
Proof.
  induction s as [|d s IH]; simpl; [tauto|].
  destruct (Ascii.eqb_spec d c) as [->|Hne]; [exact IH|].
  simpl. intros [H|H]; [congruence | contradiction].
Qed.

Lemma norm_no_underscore (s : string) :
  ~ In "_"%char (list_ascii_of_string (norm s)).
Proof. apply remove_char_absent. Qed.

Lemma cols_keys (row : Row) (d : list (string * string)) (k : string) :
  In k (PyDict.keys
          (fold_left (fun d kv => PyDict.set d (norm (fst kv)) (snd kv))
             row d)) ->
  In k (PyDict.keys d) \/ exists h, k = norm h.
Proof.
  revert d. induction row as [|[h v] row IH]; intros d; cbn [fold_left].
  - now left.
  - intros H. apply IH in H as [H|H]; [|now right].
    rewrite keys_set in H. cbn [fst snd] in H.
    destruct (PyDict.lookup d (norm h)); [now left|].
    apply in_app_or in H as [H|[<-|[]]]; [now left|].
    right. now exists h.
Qed.

(** A name with an underscore is no key of the normalised row. *)
Lemma cols_lookup_underscore (row : Row) (k : string) :
  In "_"%char (list_ascii_of_string k) ->
  PyDict.lookup (cols_of row) k = None.
Proof.
  intros Hk. apply lookup_None_keys. intros H.
  apply cols_keys in H as [[]|[h ->]].
  exact (norm_no_underscore h Hk).
Qed.

Lemma blank_rstrip (s : string) : blank (rstrip s) = blank s.
Proof.
  induction s as [|c s IH]; trivial.
  cbn [rstrip]. destruct (rstrip s) as [|c' r] eqn:E.
  - apply rstrip_empty_iff in E.
    destruct (is_space c) eqn:Ec; cbn [blank]; rewrite Ec, ?E; reflexivity.
  - cbn [blank] in IH |- *. now rewrite IH.
Qed.

Lemma blank_strip (s : string) : blank (strip s) = blank s.
Proof. unfold strip. now rewrite blank_rstrip, lstrip_blank. Qed.

Lemma or_else_truthy (a b : string) : b <> "" -> or_else a b <> "".
Proof. unfold or_else. destruct a; simpl; congruence. Qed.

Lemma classify_failure_success (a e : string) :
  classify_failure a e = "SUCCESS" <-> blank a && blank e = true.
Proof.
  unfold classify_failure.
  destruct (truthy (strip (cause_text a e))) eqn:E; cbn [negb].
  - assert (Hb : blank a && blank e = false).
    { destruct (blank a && blank e) eqn:B; trivial.
      assert (H : strip (cause_text a e) = "").
      { apply strip_empty_iff. unfold cause_text.
        rewrite blank_lower, !blank_append.
        apply andb_true_iff in B as [-> ->]. reflexivity. }
      rewrite H in E. discriminate. }
    rewrite Hb. split; [|discriminate].
    repeat match goal with
           | |- context [if ?b then _ else _] => destruct b
           end; discriminate.
  - split; [|reflexivity]. intros _.
    apply truthy_false_iff, strip_empty_iff in E. unfold cause_text in E.
    rewrite blank_lower, !blank_append in E.
    apply andb_true_iff in E as [Ha E]. apply andb_true_iff in E as [_ He].
    now rewrite Ha, He.
Qed.

(** The fields of the record of one row, with the unused aliases gone. *)
Lemma parse_row_fields (row : Row) (r : AttachRecord) :
  parse_row row = Some r ->
  let cols := cols_of row in
  let a := strip (PyDict.get cols "attachrejectcause" "") in
  let e := strip (PyDict.get cols "erabsetupcause" "") in
  r = {| imsi := or_else (strip (PyDict.get cols "imsi" "")) "UNKNOWN";
         apn := or_else (strip (PyDict.get cols "apn" "")) "UNKNOWN";
         tac := or_else (strip (PyDict.get cols "tac" "")) "UNKNOWN";
         attach_reject_cause := a;
         erab_setup_cause := e;
         failure_category :=
           if negb (truthy (explicit_category row))
           then classify_failure a e else explicit_category row |}.
Proof.
  destruct row as [|kv row]; [discriminate|].
  unfold parse_row. set (cols := cols_of (kv :: row)). intros [= <-].
  cbv zeta. unfold explicit_category. fold cols.
  assert (H1 : PyDict.get cols "attach_cause" "" = "").
  { unfold PyDict.get, cols.
    rewrite cols_lookup_underscore; [reflexivity|]. simpl. tauto. }
  assert (H2 : PyDict.get cols "erab_cause" "" = "").
  { unfold PyDict.get, cols.
    rewrite cols_lookup_underscore; [reflexivity|]. simpl. tauto. }
  rewrite H1, H2. reflexivity.
Qed.

(** X22: the fallback names [attach_cause] and [erab_cause] are never
    found among the normalised column names, which have no underscore: the
    causes of a record are the stripped cells of the columns whose
    normalised names are [attachrejectcause] and [erabsetupcause], and
    empty when the row has no such column. *)
Theorem attach_cause_aliases_unused (row : Row) (r : AttachRecord) :
  parse_row row = Some r ->
  PyDict.lookup (cols_of row) "attach_cause" = None
  /\ PyDict.lookup (cols_of row) "erab_cause" = None
  /\ attach_reject_cause r
     = strip (PyDict.get (cols_of row) "attachrejectcause" "")
  /\ erab_setup_cause r
     = strip (PyDict.get (cols_of row) "erabsetupcause" "").
Proof.
  intros H. apply parse_row_fields in H. cbv zeta in H.
  split; [|split; [|split]].
  - apply cols_lookup_underscore. simpl. tauto.
  - apply cols_lookup_underscore. simpl. tauto.
  - now rewrite H.
  - now rewrite H.
Qed.


(** X24: a row is counted as a successful attach exactly when its
    failure-category cell is [SUCCESS] (after stripping, in this
    spelling), or that cell is blank or missing and the two cause cells
    are blank or missing. *)
Theorem parsed_row_success (row : Row) (r : AttachRecord) :
  parse_row row = Some r ->
  is_success r = true <->
  explicit_category row = "SUCCESS"
  \/ (explicit_category row = ""
      /\ blank (PyDict.get (cols_of row) "attachrejectcause" "") = true
      /\ blank (PyDict.get (cols_of row) "erabsetupcause" "") = true).
Proof.
  intros H. apply parse_row_fields in H. cbv zeta in H. rewrite H.
  unfold is_success. cbn [failure_category].
  destruct (truthy (explicit_category row)) eqn:T; cbn [negb].
  - rewrite String.eqb_eq. split; [now left|].
    intros [Hs|[He _]]; [exact Hs|]. rewrite He in T. discriminate.
  - apply truthy_false_iff in T. rewrite String.eqb_eq.
    rewrite classify_failure_success, !blank_strip, andb_true_iff.
    split.
    + intros [Ha He]. right. auto.
    + intros [Hs|[_ Hab]]; [|exact Hab]. rewrite T in Hs. discriminate.
Qed.

End AttachRows.

Lemma attach_cause_aliases_unused_witness :
  AttachAnalyzer.attach_reject_cause
    (AttachAnalyzer.mkAttachRecord "001010000000001" "UNKNOWN" "UNKNOWN"
       "" "" "SUCCESS")
  = PyStr.strip
      (PyDict.get
         (AttachAnalyzer.cols_of
            [("IMSI", "001010000000001");
             ("attach_cause", "Unknown APN")])
         "attachrejectcause" "").
Proof.
  apply (attach_cause_aliases_unused
           [("IMSI", "001010000000001"); ("attach_cause", "Unknown APN")]
           (AttachAnalyzer.mkAttachRecord "001010000000001" "UNKNOWN"
              "UNKNOWN" "" "" "SUCCESS")).
  reflexivity.
Defined.

Lemma parsed_row_success_witness :
  AttachAnalyzer.is_success
    (AttachAnalyzer.mkAttachRecord "001010000000001" "UNKNOWN" "UNKNOWN"
       "" "" "success") = true
  <-> AttachAnalyzer.explicit_category
        [("imsi", "001010000000001"); ("Failure Category", " success ")]
      = "SUCCESS"
      \/ (AttachAnalyzer.explicit_category
            [("imsi", "001010000000001"); ("Failure Category", " success ")]
          = ""
          /\ PyStr.blank
               (PyDict.get
                  (AttachAnalyzer.cols_of
                     [("imsi", "001010000000001");
                      ("Failure Category", " success ")])
                  "attachrejectcause" "") = true
          /\ PyStr.blank
               (PyDict.get
                  (AttachAnalyzer.cols_of
                     [("imsi", "001010000000001");
                      ("Failure Category", " success ")])
                  "erabsetupcause" "") = true).
Proof.
  apply (parsed_row_success
           [("imsi", "001010000000001"); ("Failure Category", " success ")]).
  reflexivity.
Defined.

(** ** The severity of an alarm *)

Section Severities.

Import PyStr AlarmAnalyzer.

Lemma all_ascii (c : ascii) : In c (map ascii_of_nat (seq 0 256)).
Proof.
  rewrite <- (ascii_nat_embedding c). apply in_map, in_seq.
  pose proof (nat_ascii_bounded c). lia.
Qed.

Lemma upper_capital_table :
  forallb
    (fun d =>
       if (65 <=? nat_of_ascii d) && (nat_of_ascii d <=? 90)
       then forallb
              (fun c =>
                 implb (Ascii.eqb (lower_char c) (lower_char d))
                   (match upper_char c with
                    | Some u => String.eqb u (String d "")
                    | None => false
                    end))
              (map ascii_of_nat (seq 0 256))
       else true)
    (map ascii_of_nat (seq 0 256)) = true.
Proof. vm_compute. reflexivity. Qed.

(** A character that lowers to the small form of an ASCII capital has this
    capital as its upper case. *)
Lemma upper_capital (c d : ascii) :
  (65 <=? nat_of_ascii d) && (nat_of_ascii d <=? 90) = true ->
  lower_char c = lower_char d ->
  upper_char c = Some (String d "").
Proof.
  intros Hd Hc. pose proof upper_capital_table as T.
  rewrite forallb_forall in T. specialize (T d (all_ascii d)).
  rewrite Hd in T.
  rewrite forallb_forall in T. specialize (T c (all_ascii c)).
  rewrite Hc, Ascii.eqb_refl in T. cbn [implb] in T.
  destruct (upper_char c) as [u|]; [|discriminate].
  apply String.eqb_eq in T. now subst.
Qed.

Lemma upper_of_lower (name s : string) :
  forallb (fun d => (65 <=? nat_of_ascii d) && (nat_of_ascii d <=? 90))
    (list_ascii_of_string name) = true ->
  lower s = lower name ->
  upper s = Some name.
Proof.
  revert s. induction name as [|d name IH]; intros s Hn H.
  - destruct s; [reflexivity | discriminate].
  - destruct s as [|c s]; [discriminate|].
    cbn [list_ascii_of_string forallb] in Hn.
    apply andb_true_iff in Hn as [Hd Hn].
    cbn [lower] in H. injection H as Hc Hs.
    cbn [upper]. rewrite (upper_capital c d Hd Hc), (IH s Hn Hs).
    reflexivity.
Qed.

Lemma lower_nonempty (s name : string) :
  lower s = lower name -> name <> "" -> s <> "".
Proof. intros H Hn ->. destruct name; [congruence | discriminate]. Qed.

Lemma strip_nonempty (value : string) :
  strip value <> "" -> truthy value = true.
Proof. destruct value; [intros H; now elim H | reflexivity]. Qed.

(** X25: a severity written as one of the seven names of
    [SEVERITY_ORDER], in any letter case and with white space around it, is
    normalised to that name; written as one of the abbreviations of the
    mapping, in any letter case and with white space around it, to the name
    the mapping gives. *)
Theorem normalise_severity_names (value : string) :
  (forall name, In name SEVERITY_ORDER ->
     lower (strip value) = lower name ->
     _normalise_severity value = Some name)
  /\ (forall short name, In (short, name) severity_mapping ->
        lower (strip value) = lower short ->
        _normalise_severity value = Some name).
Proof.
  split.
  - intros name Hin H. unfold _normalise_severity.
    rewrite strip_nonempty.
    2:{ apply (lower_nonempty _ name H).
        simpl in Hin.
        repeat destruct Hin as [<-|Hin]; try discriminate; contradiction. }
    cbn [negb]. rewrite (upper_of_lower name _); [|
      simpl in Hin;
      repeat destruct Hin as [<-|Hin]; try reflexivity; contradiction | exact H].
    simpl in Hin.
    repeat destruct Hin as [<-|Hin]; try reflexivity; contradiction.
  - intros short name Hin H. unfold _normalise_severity.
    rewrite strip_nonempty.
    2:{ apply (lower_nonempty _ short H).
        simpl in Hin.
        repeat destruct Hin as [[= <- <-]|Hin]; try discriminate;
          contradiction. }
    cbn [negb]. rewrite (upper_of_lower short _); [|
      simpl in Hin;
      repeat destruct Hin as [[= <- <-]|Hin]; try reflexivity;
        contradiction | exact H].
    simpl in Hin.
    repeat destruct Hin as [[= <- <-]|Hin]; try reflexivity; contradiction.
Qed.

Lemma upper_char_table :
  forallb
    (fun c =>
       match upper_char c with
       | Some (String a r as u) =>
           match upper u with
           | Some u' => String.eqb u' u
           | None => false
           end
           && (is_space c
               || negb (is_space a) && negb (is_space (last_char u)))
       | Some EmptyString => false
       | None => true
       end)
    (map ascii_of_nat (seq 0 256)) = true.
Proof. vm_compute. reflexivity. Qed.

(** The upper case of a character is not empty and is its own upper case;
    that of a visible character starts and ends visibly. *)
Lemma upper_char_spec (c : ascii) (u : string) :
  upper_char c = Some u ->
  upper u = Some u
  /\ exists a r, u = String a r
                 /\ (is_space c = false ->
                     is_space a = false
                     /\ is_space (last_char u) = false).
Proof.
  intros H. pose proof upper_char_table as T.
  rewrite forallb_forall in T. specialize (T c (all_ascii c)).
  rewrite H in T. destruct u as [|a r]; [discriminate|].
  apply andb_true_iff in T as [T1 T2].
  destruct (upper (String a r)) as [u'|]; [|discriminate].
  apply String.eqb_eq in T1. subst u'. split; [reflexivity|].
  exists a, r. split; [reflexivity|]. intros Hc. rewrite Hc in T2.
  cbn [orb] in T2. apply andb_true_iff in T2 as [Ta Tl].
  apply negb_true_iff in Ta, Tl. now split.
Qed.

Lemma upper_char_nonempty (c : ascii) : upper_char c <> Some "".
Proof.
  intros H. destruct (upper_char_spec c "" H) as [_ [a [r [E _]]]].
  discriminate.
Qed.

Lemma upper_empty (s : string) : upper s = Some "" -> s = "".
Proof.
  destruct s as [|c s]; trivial. cbn [upper].
  destruct (upper_char c) as [[|a u]|] eqn:E; try discriminate.
  - now elim (upper_char_nonempty c).
  - destruct (upper s); discriminate.
Qed.

Lemma mapping_value_nonempty (v : string) :
  PyDict.get severity_mapping v v = "" -> v = "".
Proof.
  unfold PyDict.get.
  destruct (PyDict.lookup severity_mapping v) as [n|] eqn:E; trivial.
  apply lookup_In in E. simpl in E.
  repeat destruct E as [[= <- <-]|E]; try discriminate; contradiction.
Qed.

(** X26: a severity of white space only, and no other, is normalised to
    the empty string, where the empty string itself becomes
    INDETERMINATE; the summary counts a record of either under
    INDETERMINATE. *)
Theorem normalise_severity_blank (value : string) :
  (_normalise_severity value = Some ""
   <-> value <> "" /\ blank value = true)
  /\ (blank value = true ->
      exists s, _normalise_severity value = Some s
                /\ forall rec, severity rec = s ->
                               severity_key rec = "INDETERMINATE").
Proof.
  split.
  - unfold _normalise_severity. destruct value as [|c value].
    + cbn. split; [discriminate | intros [H _]; now elim H].
    + cbn [truthy negb].
      destruct (upper (strip (String c value))) as [v|] eqn:E.
      * split.
        -- intros [= H]. apply mapping_value_nonempty in H. subst v.
           apply upper_empty, strip_empty_iff in E.
           split; [discriminate | exact E].
        -- intros [_ H]. apply strip_empty_iff in H. rewrite H in E.
           cbn in E. injection E as <-. reflexivity.
      * split; [discriminate|]. intros [_ H].
        apply strip_empty_iff in H. rewrite H in E. discriminate.
  - intros H. unfold _normalise_severity. destruct value as [|c value].
    + exists "INDETERMINATE". split; [reflexivity|].
      intros rec Hr. unfold severity_key. now rewrite Hr.
    + exists "". apply strip_empty_iff in H. rewrite H.
      split; [reflexivity|].
      intros rec Hr. unfold severity_key. now rewrite Hr.
Qed.

Lemma upper_char_fixed (c : ascii) (u : string) :
  upper_char c = Some u -> upper u = Some u.
Proof. intros H. exact (proj1 (upper_char_spec c u H)). Qed.

Lemma string_app_assoc (a b c : string) :
  ((a ++ b) ++ c)%string = (a ++ (b ++ c))%string.
Proof. induction a as [|x a IH]; simpl; congruence. Qed.

Lemma upper_app (a b ua ub : string) :
  upper a = Some ua -> upper b = Some ub ->
  upper (a ++ b) = Some (ua ++ ub)%string.
Proof.
  revert ua. induction a as [|c a IH]; intros ua.
  - intros [= <-] Hb. exact Hb.
  - cbn [upper String.append]. destruct (upper_char c) as [u|]; [|discriminate].
    destruct (upper a) as [r|]; [|discriminate].
    intros [= <-] Hb. rewrite (IH r eq_refl Hb).
    now rewrite string_app_assoc.
Qed.

Lemma upper_idem (t v : string) : upper t = Some v -> upper v = Some v.
Proof.
  revert v. induction t as [|c t IH]; intros v.
  - intros [= <-]. reflexivity.
  - cbn [upper]. destruct (upper_char c) as [u|] eqn:Ec; [|discriminate].
    destruct (upper t) as [r|]; [|discriminate].
    intros [= <-]. apply upper_app; [exact (upper_char_fixed c u Ec) | auto].
Qed.

Lemma upper_char_visible (c : ascii) (u : string) :
  upper_char c = Some u -> is_space c = false ->
  exists a r, u = String a r /\ is_space a = false
              /\ is_space (last_char u) = false.
Proof.
  intros H Hc. destruct (upper_char_spec c u H) as [_ [a [r [E Hv]]]].
  exists a, r. destruct (Hv Hc). now repeat split.
Qed.

Lemma last_char_append (u r : string) :
  r <> "" -> last_char (u ++ r) = last_char r.
Proof.
  intros Hr. induction u as [|c u IH]; trivial.
  cbn [String.append last_char].
  destruct (u ++ r)%string eqn:E; [|exact IH].
  destruct u; [contradiction | discriminate].
Qed.

Lemma upper_nonempty (t v : string) :
  upper t = Some v -> t <> "" -> v <> "".
Proof. intros H Ht ->. apply upper_empty in H. contradiction. Qed.

Lemma upper_last (t v : string) :
  upper t = Some v -> t <> "" -> is_space (last_char t) = false ->
  is_space (last_char v) = false.
Proof.
  revert v. induction t as [|c t IH]; intros v H Ht Hl; [now elim Ht|].
  cbn [upper] in H. destruct (upper_char c) as [u|] eqn:Ec; [|discriminate].
  destruct (upper t) as [r|] eqn:Er; [|discriminate].
  injection H as <-. destruct t as [|c' t'].
  - cbn in Er. injection Er as <-. rewrite string_app_nil_r.
    cbn [last_char] in Hl.
    destruct (upper_char_visible c u Ec Hl) as [a [r [_ [_ H]]]]. exact H.
  - rewrite last_char_append.
    + apply IH; [reflexivity | discriminate | exact Hl].
    + apply (upper_nonempty _ _ Er). discriminate.
Qed.

Lemma lstrip_shape (x : string) :
  lstrip x = "" \/ exists a r, lstrip x = String a r /\ is_space a = false.
Proof.
  induction x as [|c x IH]; [now left|].
  cbn [lstrip]. destruct (is_space c) eqn:E; [exact IH|].
  right. now exists c, x.
Qed.

Lemma rstrip_last (y : string) :
  rstrip y = "" \/ is_space (last_char (rstrip y)) = false.
Proof.
  induction y as [|c y IH]; [now left|].
  cbn [rstrip]. destruct (rstrip y) as [|c' r] eqn:E.
  - destruct (is_space c) eqn:Ec; [now left|]. right. exact Ec.
  - right. destruct IH as [IH|IH]; [discriminate | exact IH].
Qed.

Lemma rstrip_head (a : ascii) (r : string) :
  is_space a = false -> exists r', rstrip (String a r) = String a r'.
Proof.
  intros Ha. cbn [rstrip]. destruct (rstrip r) eqn:E.
  - rewrite Ha. now exists "".
  - eauto.
Qed.

(** A stripped text is empty, or starts and ends visibly. *)
Lemma strip_shape (x : string) :
  strip x = ""
  \/ exists a r, strip x = String a r /\ is_space a = false
                 /\ is_space (last_char (strip x)) = false.
Proof.
  unfold strip. destruct (lstrip_shape x) as [->|[a [r [-> Ha]]]];
    [now left|].
  right. destruct (rstrip_head a r Ha) as [r' Hr]. exists a, r'.
  split; [exact Hr|]. split; [exact Ha|].
  destruct (rstrip_last (String a r)) as [H|H]; [|exact H].
  rewrite Hr in H. discriminate.
Qed.

Lemma strip_upper_strip (x v : string) :
  upper (strip x) = Some v -> strip v = v.
Proof.
  intros H. destruct (strip_shape x) as [E|[a [r [E [Ha Hl]]]]].
  - rewrite E in H. injection H as <-. reflexivity.
  - assert (Hv : is_space (last_char v) = false).
    { apply (upper_last _ _ H); [rewrite E; discriminate | exact Hl]. }
    rewrite E in H. cbn [upper] in H.
    destruct (upper_char a) as [u|] eqn:Ea; [|discriminate].
    destruct (upper r) as [w|]; [|discriminate].
    injection H as <-.
    destruct (upper_char_visible a u Ea Ha) as [a' [u' [-> [Ha' _]]]].
    unfold strip. cbn [String.append lstrip]. rewrite Ha'.
    apply rstrip_id. exact Hv.
Qed.

(** X27: normalising a second time changes nothing, unless the first
    result is the empty string: a normalised severity that is not empty is
    its own normal form. *)
Theorem normalise_severity_idempotent (value s : string) :
  _normalise_severity value = Some s -> s <> "" ->
  _normalise_severity s = Some s.
Proof.
  unfold _normalise_severity at 1. destruct (truthy value); cbn [negb].
  - destruct (upper (strip value)) as [v|] eqn:E; [|discriminate].
    intros [= <-] Hs. unfold PyDict.get in Hs |- *.
    destruct (PyDict.lookup severity_mapping v) as [n|] eqn:L.
    + apply lookup_In in L. simpl in L.
      repeat destruct L as [[= <- <-]|L]; try reflexivity; contradiction.
    + unfold _normalise_severity.
      destruct v as [|c v]; [now elim Hs|]. cbn [truthy negb].
      rewrite (strip_upper_strip _ _ E), (upper_idem _ _ E).
      unfold PyDict.get. now rewrite L.
  - intros [= <-] _. reflexivity.
Qed.

End Severities.

Lemma normalise_severity_idempotent_witness :
  AlarmAnalyzer._normalise_severity "LINK DOWN" = Some "LINK DOWN".
Proof.
  apply (normalise_severity_idempotent " link down " "LINK DOWN").
  - reflexivity.
  - discriminate.
Defined.

(** ** The entry point of the fusion *)

Section EntryPoint.

Import RcaEngine.

Variables py_median py_stdev : list Q -> Q.
Variable determine_root_cause :
  list (string * KpiAnalyzer.Stats) -> list KpiAnalyzer.Anomaly ->
  list (string * list (string * list Q)) -> string * string.
Variable generate_recommendations :
  string -> list (string * KpiAnalyzer.Stats) -> list KpiAnalyzer.Anomaly ->
  list string.

Local Abbreviation analyze :=
  (analyze_rca py_median py_stdev determine_root_cause
     generate_recommendations).
Local Abbreviation summary := (KpiAnalyzer.summarize_kpis py_median py_stdev).

Lemma severity_label_levels (n : nat) :
  In (severity_label n) ["low"; "medium"; "high"].
Proof.
  unfold severity_label. destruct (3 <=? n); [simpl; tauto|].
  destruct (n =? 2); simpl; tauto.
Qed.

(** The fields of the result for a batch with samples. *)
Lemma analyze_rca_fields kpi_data als bs ats :
  kpi_data <> [] ->
  let ev := fst (fst (summary kpi_data)) in
  let an := snd (fst (summary kpi_data)) in
  let sites := snd (summary kpi_data) in
  let base := determine_root_cause ev an sites in
  let r := analyze kpi_data als bs ats in
  (root_cause r, severity r)
  = _combine_with_additional_signals (fst base) (snd base) an als bs ats
  /\ evidence r = ev /\ anomalies r = an
  /\ recommendations r
     = sorted_set (generate_recommendations (fst base) ev an
                   ++ _extra_recommendations als bs ats).
Proof.
  intros Hne. cbv zeta. unfold analyze_rca.
  destruct kpi_data as [|e kpi_data]; [congruence|].
  destruct (summary (e :: kpi_data)) as [[ev an] sites]. cbn [fst snd].
  destruct (determine_root_cause ev an sites) as [rc sev]. cbn [fst snd].
  destruct (_combine_with_additional_signals _ _ _ _ _ _).
  repeat split.
Qed.

(** X28: the severity of the result of [analyze_rca] is always "low",
    "medium" or "high"; an empty list of KPI samples gives the "No Data"
    result with severity "low" whatever the alarm, backhaul and attach
    summaries say; otherwise the evidence and the anomalies are those of
    [summarize_kpis]. *)
Theorem analyze_rca_result kpi_data als bs ats :
  let r :=
    analyze_rca py_median py_stdev determine_root_cause
      generate_recommendations kpi_data als bs ats in
  let kpis := KpiAnalyzer.summarize_kpis py_median py_stdev kpi_data in
  In (severity r) ["low"; "medium"; "high"]
  /\ (kpi_data = [] ->
      r = {| root_cause := "No Data"; severity := "low"; evidence := [];
             anomalies := [];
             recommendations := ["No KPI data available for analysis"] |})
  /\ (kpi_data <> [] ->
      evidence r = fst (fst kpis) /\ anomalies r = snd (fst kpis)).
Proof.
  cbv zeta. split; [|split].
  - destruct kpi_data as [|e kpi_data]; [simpl; tauto|].
    destruct (analyze_rca_fields (e :: kpi_data) als bs ats) as [H _];
      [discriminate|].
    apply (f_equal snd) in H. cbn [snd] in H. rewrite H.
    rewrite combine_unfold. cbn [snd]. apply severity_label_levels.
  - intros ->. reflexivity.
  - intros Hne.
    destruct (analyze_rca_fields kpi_data als bs ats Hne) as [_ [H1 [H2 _]]].
    now split.
Qed.

(** X29: without alarm, backhaul and attach summaries [analyze_rca]
    returns the root cause of the baseline classifier, its severity when
    this is "low", "medium" or "high" and "low" for any other, and its
    recommendations sorted and without duplicates. *)
Theorem analyze_rca_without_summaries kpi_data :
  kpi_data <> [] ->
  let kpis := KpiAnalyzer.summarize_kpis py_median py_stdev kpi_data in
  let ev := fst (fst kpis) in
  let an := snd (fst kpis) in
  let base := determine_root_cause ev an (snd kpis) in
  let r :=
    analyze_rca py_median py_stdev determine_root_cause
      generate_recommendations kpi_data None None None in
  root_cause r = fst base
  /\ (In (snd base) ["low"; "medium"; "high"] -> severity r = snd base)
  /\ (~ In (snd base) ["low"; "medium"; "high"] -> severity r = "low")
  /\ recommendations r
     = sorted_set (generate_recommendations (fst base) ev an)
  /\ (forall x, In x (recommendations r)
                <-> In x (generate_recommendations (fst base) ev an))
  /\ StronglySorted String_as_OT.lt (recommendations r).
Proof.
  intros Hne. cbv zeta.
  destruct (analyze_rca_fields kpi_data None None None Hne)
    as [H [_ [_ Hr]]].
  rewrite combine_unfold in H. cbn in H. injection H as Hrc Hsev.
  assert (Hrecs :
    recommendations (analyze kpi_data None None None)
    = sorted_set
        (generate_recommendations
           (fst (determine_root_cause (fst (fst (summary kpi_data)))
                   (snd (fst (summary kpi_data)))
                   (snd (summary kpi_data))))
           (fst (fst (summary kpi_data))) (snd (fst (summary kpi_data))))).
  { rewrite Hr. cbn. now rewrite app_nil_r. }
  split; [exact Hrc|]. split; [|split; [|split; [|split]]].
  - intros Hin. rewrite Hsev. simpl in Hin.
    destruct Hin as [<-|[<-|[<-|[]]]]; reflexivity.
  - intros Hn. rewrite Hsev.
    unfold severity_score_of, PyDict.get, PyDict.lookup.
    destruct (String.eqb_spec "low" (snd (determine_root_cause
      (fst (fst (summary kpi_data))) (snd (fst (summary kpi_data)))
      (snd (summary kpi_data))))) as [E|_];
      [elim Hn; rewrite <- E; simpl; tauto|].
    destruct (String.eqb_spec "medium" (snd (determine_root_cause
      (fst (fst (summary kpi_data))) (snd (fst (summary kpi_data)))
      (snd (summary kpi_data))))) as [E|_];
      [elim Hn; rewrite <- E; simpl; tauto|].
    destruct (String.eqb_spec "high" (snd (determine_root_cause
      (fst (fst (summary kpi_data))) (snd (fst (summary kpi_data)))
      (snd (summary kpi_data))))) as [E|_];
      [elim Hn; rewrite <- E; simpl; tauto|].
    reflexivity.
  - exact Hrecs.
  - intros x. rewrite Hrecs. apply sorted_set_In.
  - rewrite Hrecs. apply sorted_set_StronglySorted.
Qed.

End EntryPoint.

Lemma analyze_rca_without_summaries_witness :
  RcaEngine.root_cause
    (RcaEngine.analyze_rca Fixtures.no_statistic Fixtures.no_statistic
       Fixtures.quiet_root_cause Fixtures.quiet_recommendations
       Fixtures.rrc_samples None None None)
  = fst (Fixtures.quiet_root_cause
           (fst (fst (KpiAnalyzer.summarize_kpis Fixtures.no_statistic
                        Fixtures.no_statistic Fixtures.rrc_samples)))
           (snd (fst (KpiAnalyzer.summarize_kpis Fixtures.no_statistic
                        Fixtures.no_statistic Fixtures.rrc_samples)))
           (snd (KpiAnalyzer.summarize_kpis Fixtures.no_statistic
                   Fixtures.no_statistic Fixtures.rrc_samples))).
Proof.
  apply (analyze_rca_without_summaries Fixtures.no_statistic
           Fixtures.no_statistic Fixtures.quiet_root_cause
           Fixtures.quiet_recommendations Fixtures.rrc_samples).
  discriminate.
Defined.

(** ** From the alarm records to the fusion *)

Section AlarmsInFusion.

Import RcaEngine CorrelationEngine AlarmAnalyzer.

Variable hour_bucket : string -> string.

Lemma get_ordered_severity (d : list (string * nat)) (k : string) :
  In k SEVERITY_ORDER ->
  PyDict.get (ordered_severity d) k 0 = PyDict.get d k 0.
Proof.
  intros Hin. unfold ordered_severity, picked, SEVERITY_ORDER, PyDict.get.
  cbn [flat_map]. simpl in Hin.
  repeat destruct Hin as [<-|Hin]; try contradiction;
    repeat match goal with
           | |- context [PyDict.lookup d ?s] =>
               destruct (PyDict.lookup d s); cbn
           end; reflexivity.
Qed.

Lemma get_fold_bump_occurrences (ks : list string) (k : string) :
  PyDict.get (fold_left bump ks []) k 0 = occurrences k ks.
Proof.
  unfold PyDict.get. rewrite lookup_fold_bump.
  destruct (0 <? occurrences k ks) eqn:E; trivial.
  apply Nat.ltb_ge in E. lia.
Qed.

Lemma severity_key_listed (r : AlarmRecord) (k : string) :
  k <> "INDETERMINATE" -> k <> "" ->
  (severity_key r = k <-> severity r = k).
Proof.
  intros Hk Hk'. unfold severity_key, PyStr.or_else.
  destruct (severity r) as [|c s]; cbn [PyStr.truthy]; [|tauto].
  split; intros H; congruence.
Qed.

Lemma occurrences_severity_key (records : list AlarmRecord) (k : string) :
  k <> "INDETERMINATE" -> k <> "" ->
  occurrences k (map severity_key records)
  = occurrences k (map severity records).
Proof.
  intros Hk Hk'. unfold occurrences.
  induction records as [|r records IH]; trivial. cbn [map count_occ].
  rewrite IH.
  destruct (string_dec (severity_key r) k) as [E|E];
    destruct (string_dec (severity r) k) as [E'|E']; trivial.
  - apply (severity_key_listed r k Hk Hk') in E. contradiction.
  - apply (severity_key_listed r k Hk Hk') in E'. contradiction.
Qed.

Lemma crit_maj_of_records (records : list AlarmRecord) :
  crit_maj (summarize_alarms hour_bucket records)
  = occurrences "CRITICAL" (map severity records)
    + occurrences "MAJOR" (map severity records).
Proof.
  destruct records as [|r records]; [reflexivity|].
  unfold crit_maj, summarize_alarms. cbn [by_severity].
  destruct (tally_projections hour_bucket (r :: records) (mkTally [] [] []))
    as [H1 _].
  cbv zeta in H1. rewrite H1. cbn [t_by_severity].
  rewrite !get_ordered_severity by (simpl; tauto).
  rewrite !get_fold_bump_occurrences.
  rewrite !occurrences_severity_key by discriminate. reflexivity.
Qed.

Lemma urgent_records (records : list AlarmRecord) :
  existsb (fun r => String.eqb (severity r) "CRITICAL"
                    || String.eqb (severity r) "MAJOR") records = true
  <-> 0 < occurrences "CRITICAL" (map severity records)
          + occurrences "MAJOR" (map severity records).
Proof.
  unfold occurrences. induction records as [|r records IH].
  - simpl. split; [discriminate | lia].
  - cbn [existsb map count_occ]. rewrite orb_true_iff, IH.
    destruct (string_dec (severity r) "CRITICAL") as [E|E];
      destruct (string_dec (severity r) "MAJOR") as [E'|E'].
    + rewrite E in E'. discriminate.
    + rewrite E. cbn. split; intros; [lia | now left].
    + rewrite E'. cbn. split; intros; [lia | now left].
    + apply String.eqb_neq in E, E'. rewrite E, E'. cbn [orb].
      split; [intros [H|H]; [discriminate | exact H] | now right].
Qed.

(** X30: fed with the summary of a batch of alarm records, the fusion and
    the correlation engine act on the alarms exactly when some record has
    the severity CRITICAL or MAJOR: then the correlation sentence is given
    and the fused severity is at least "medium"; otherwise no sentence is
    given and the fusion returns what it returns without an alarm
    summary. *)
Theorem alarm_summary_in_fusion
  (base sev : string) (anoms : list KpiAnalyzer.Anomaly)
  (records : list AlarmRecord)
  (bs : option BackhaulAnalyzer.BackhaulSummary)
  (ats : option AttachAnalyzer.AttachSummary) :
  let a := summarize_alarms hour_bucket records in
  let r := _combine_with_additional_signals base sev anoms (Some a) bs ats in
  if existsb (fun r => String.eqb (severity r) "CRITICAL"
                       || String.eqb (severity r) "MAJOR") records
  then describe_kpi_alarm_correlation anoms (Some a) = [ALARMS_ACTIVE]
       /\ 2 <= severity_score_of (snd r)
  else describe_kpi_alarm_correlation anoms (Some a) = []
       /\ r = _combine_with_additional_signals base sev anoms None bs ats.
Proof.
  cbv zeta. pose proof (urgent_records records) as Hu.
  pose proof (crit_maj_of_records records) as Hc.
  destruct (existsb _ records) eqn:E.
  - assert (Hpos : 0 < crit_maj (summarize_alarms hour_bucket records)).
    { rewrite Hc. now apply Hu. }
    assert (Ht : 0 < total_count (summarize_alarms hour_bucket records)).
    { destruct records as [|x records]; [discriminate E|].
      unfold summarize_alarms. cbn [total_count List.length]. lia. }
    split.
    + unfold describe_kpi_alarm_correlation.
      fold (crit_maj (summarize_alarms hour_bucket records)).
      destruct (total_count _); [lia|].
      destruct (crit_maj _); [lia|]. reflexivity.
    + rewrite combine_unfold. cbv zeta. cbn [snd fst].
      rewrite severity_score_of_label.
      match goal with
      | |- context [attach_escalation ?u ?v] =>
          pose proof (attach_escalation_score u v) as H1
      end.
      match type of H1 with
      | context [backhaul_escalation ?u ?v ?w] =>
          pose proof (backhaul_escalation_score u v w) as H2
      end.
      unfold alarm_escalation in H1, H2 |- *.
      apply Nat.ltb_lt in Ht, Hpos. rewrite Ht, Hpos in H1, H2 |- *.
      destruct (has_transport_anomaly anoms); cbn [snd] in H1, H2; lia.
  - assert (Hz : crit_maj (summarize_alarms hour_bucket records) = 0).
    { rewrite Hc.
      destruct (occurrences "CRITICAL" (map severity records)
                + occurrences "MAJOR" (map severity records)) eqn:N;
        trivial.
      assert (H : false = true) by (apply Hu; lia).
      discriminate H. }
    split.
    + unfold describe_kpi_alarm_correlation.
      fold (crit_maj (summarize_alarms hour_bucket records)).
      rewrite Hz. destruct (total_count _); reflexivity.
    + rewrite !combine_unfold. cbv zeta. unfold alarm_escalation.
      rewrite Hz. change (0 <? 0) with false.
      destruct (0 <? total_count (summarize_alarms hour_bucket records));
        reflexivity.
Qed.

End AlarmsInFusion.
